(** * Window layout capture and restore: a shallow embedding

    The development follows [src/window_capture.py] and
    [src/window_restore.py]; the preset store and the command handlers
    follow [src/preset_manager.py] and [src/main.py].

    - Python values that reach the engine from a preset file are dynamically
      typed, so the string-valued fields of a window record are kept as
      [pyval]s, and a method call on a value of the wrong type raises.
    - Strings are ASCII; [lower], [strip] and [in] act on them as Python
      does on ASCII text.
    - The Win32 desktop is an explicit [World].  Reads of it are
      computations in the reader monad [Q]; the engine's code runs in the
      state and exception monad [M], whose state also holds a trace of the
      calls that enumerate windows or act on the desktop, and the set of
      session applications launched in the current run.
    - The desktop changes through the engine's own calls, through
      [subprocess.Popen] and while the engine sleeps; what the last two
      do, and the rectangle on which [ShowWindow] leaves a window, is the
      environment [Env], over which every theorem is universal.
    - The presets file is an explicit [Disk].  The preset manager runs in
      the state and exception monad [IO] over the disk, the handlers of
      main.py in the same monad over the disk and the engine's state. *)

From Stdlib Require Import ZArith String Ascii List Bool Lia.
From Stdlib Require Import Sorted Permutation DecimalString DecimalNat.
From stdpp Require Import base gmap strings list.
Import ListNotations.

Local Open Scope string_scope.
Local Open Scope list_scope.
Local Open Scope Z_scope.

(** ** Python primitives used by the two modules *)
Module Py.

Inductive pyval : Type :=
  | PNone
  | PInt (z : Z)
  | PStr (s : string).

(** The exceptions that the modelled code can meet. *)
Inductive exn : Type :=
  | AttributeError
  | OSError
  | ProcessError.

Inductive result (A : Type) : Type :=
  | Ok (a : A)
  | Raise (e : exn).
Arguments Ok {A} a.
Arguments Raise {A} e.

(** [bool(v)] *)
Definition truthy (v : pyval) : bool :=
  match v with
  | PNone => false
  | PInt z => negb (z =? 0)
  | PStr s => negb (String.eqb s "")
  end.

(** [v == 'literal'] for a string literal. *)
Definition eq_str (v : pyval) (lit : string) : bool :=
  match v with
  | PStr s => String.eqb s lit
  | _ => false
  end.

(** [int(b)]: a Python [bool] compares as the integer 0 or 1. *)
Definition int_of_bool (b : bool) : Z := if b then 1 else 0.

Definition lower_ascii (c : ascii) : ascii :=
  let n := nat_of_ascii c in
  if (Nat.leb 65 n && Nat.leb n 90)%bool then ascii_of_nat (n + 32) else c.

(** [s.lower()] on ASCII text. *)
Fixpoint lower (s : string) : string :=
  match s with
  | EmptyString => EmptyString
  | String c r => String (lower_ascii c) (lower r)
  end.

(** [needle in hay] for two strings. *)
Fixpoint str_in (needle hay : string) : bool :=
  if String.prefix needle hay then true
  else match hay with
       | EmptyString => false
       | String _ r => str_in needle r
       end.

Fixpoint split_last (sep : ascii) (s cur : string) : string :=
  match s with
  | EmptyString => cur
  | String c r =>
      if Ascii.eqb c sep then split_last sep r EmptyString
      else split_last sep r (cur ++ String c EmptyString)%string
  end.

(** [s.split('\\')[-1]] *)
Definition last_component (s : string) : string :=
  split_last "\"%char s EmptyString.

(** The ASCII characters that [str.strip()] removes: tab to carriage
    return (9 to 13), the four separators 0x1c to 0x1f (28 to 31) and the
    blank (32). *)
Definition is_space (c : ascii) : bool :=
  let n := nat_of_ascii c in
  (Nat.leb 9 n && Nat.leb n 13)%bool ||
  (Nat.leb 28 n && Nat.leb n 32)%bool.

Fixpoint lstrip (s : string) : string :=
  match s with
  | EmptyString => EmptyString
  | String c r => if is_space c then lstrip r else s
  end.

Fixpoint rstrip (s : string) : string :=
  match s with
  | EmptyString => EmptyString
  | String c r =>
      match rstrip r with
      | EmptyString => if is_space c then EmptyString else String c EmptyString
      | r' => String c r'
      end
  end.

(** The one-character string holding a double quote. *)
Definition dquote : string := String (ascii_of_nat 34) EmptyString.

(** [s.strip()] *)
Definition strip (s : string) : string := rstrip (lstrip s).

(** [sorted(l, key=key, reverse=True)]: a stable sort, largest key first;
    elements with equal keys keep their original order. *)
Fixpoint insert_desc {A} (key : A -> Z) (x : A) (l : list A) : list A :=
  match l with
  | [] => [x]
  | y :: r => if key x <? key y then y :: insert_desc key x r else x :: l
  end.

Definition sorted_desc {A} (key : A -> Z) (l : list A) : list A :=
  foldr (insert_desc key) [] l.

End Py.
Import Py.

(** ** Geometry shared by capture and restore *)

(** A rectangle as Win32 reports it: [(left, top, right, bottom)]. *)
Definition Rect : Type := Z * Z * Z * Z.

(** The eight snap zones, as the strings stored under ['snap_type']. *)
Definition snap_zones : list string :=
  ["left"; "right"; "top"; "bottom";
   "top_left"; "top_right"; "bottom_left"; "bottom_right"].

(** The geometric body of [detect_snap_type] (window_capture.py), for the
    work area [work] of the window's monitor and the window rectangle
    [rect]. *)
Definition classify_rect (work rect : Rect) : option string :=
  let '(wx1, wy1, wx2, wy2) := work in
  let '(mx1, my1, mx2, my2) := rect in
  let work_w := wx2 - wx1 in
  let work_h := wy2 - wy1 in
  let win_w := mx2 - mx1 in
  let win_h := my2 - my1 in
  let tol := 24 in
  let left := Z.abs (mx1 - wx1) <=? tol in
  let right := Z.abs (mx2 - wx2) <=? tol in
  let top := Z.abs (my1 - wy1) <=? tol in
  let bottom := Z.abs (my2 - wy2) <=? tol in
  let half_w := Z.abs (win_w - work_w / 2) <=? tol in
  let half_h := Z.abs (win_h - work_h / 2) <=? tol in
  let full_h := Z.abs (win_h - work_h) <=? tol in
  let full_w := Z.abs (win_w - work_w) <=? tol in
  if left && full_h && half_w then Some "left"
  else if right && full_h && half_w then Some "right"
  else if top && full_w && half_h then Some "top"
  else if bottom && full_w && half_h then Some "bottom"
  else if left && top && half_w && half_h then Some "top_left"
  else if right && top && half_w && half_h then Some "top_right"
  else if left && bottom && half_w && half_h then Some "bottom_left"
  else if right && bottom && half_w && half_h then Some "bottom_right"
  else None.

(** The [layouts] table of [apply_snap_layout] (window_restore.py): the
    target [(x, y, w, h)] of a zone inside the work area, or [None] for a
    key that is not in the table. *)
Definition snap_layouts (work : Rect) (snap_type : string)
  : option (Z * Z * Z * Z) :=
  let '(wx1, wy1, wx2, wy2) := work in
  let work_w := wx2 - wx1 in
  let work_h := wy2 - wy1 in
  let half_w := Z.max 1 (work_w / 2) in
  let half_h := Z.max 1 (work_h / 2) in
  if String.eqb snap_type "left" then Some (wx1, wy1, half_w, work_h)
  else if String.eqb snap_type "right" then
    Some (wx1 + half_w, wy1, work_w - half_w, work_h)
  else if String.eqb snap_type "top" then Some (wx1, wy1, work_w, half_h)
  else if String.eqb snap_type "bottom" then
    Some (wx1, wy1 + half_h, work_w, work_h - half_h)
  else if String.eqb snap_type "top_left" then Some (wx1, wy1, half_w, half_h)
  else if String.eqb snap_type "top_right" then
    Some (wx1 + half_w, wy1, work_w - half_w, half_h)
  else if String.eqb snap_type "bottom_left" then
    Some (wx1, wy1 + half_h, half_w, work_h - half_h)
  else if String.eqb snap_type "bottom_right" then
    Some (wx1 + half_w, wy1 + half_h, work_w - half_w, work_h - half_h)
  else None.

(** The rectangle a window has after [SetWindowPos(hwnd, 0, x, y, w, h, _)]. *)
Definition rect_of_pos (p : Z * Z * Z * Z) : Rect :=
  let '(x, y, w, h) := p in (x, y, x + w, y + h).

(** [classify(zoneRect(z, wa), wa)] *)
Definition classify_zone (work : Rect) (z : string) : option string :=
  match snap_layouts work z with
  | Some p => classify_rect work (rect_of_pos p)
  | None => None
  end.

(** ** The Win32 desktop as the engine sees it *)
Module Win32.

(** Constants of [win32con]. *)
Definition SW_SHOWNORMAL : Z := 1.
Definition SW_SHOWMINIMIZED : Z := 2.
Definition SW_SHOWMAXIMIZED : Z := 3.
Definition SW_MAXIMIZE : Z := 3.
Definition SW_MINIMIZE : Z := 6.
Definition SW_RESTORE : Z := 9.
Definition SWP_NOZORDER : Z := 4.
Definition SWP_NOACTIVATE : Z := 16.
Definition WS_CAPTION : Z := 12582912.
Definition WS_EX_TOOLWINDOW : Z := 128.

(** A top-level window.  [proc_name] and [proc_exe] are [None] when psutil
    cannot resolve the owning process (it raises in that case). *)
Record Window : Type := mkWindow {
  hwnd : Z;
  visible : bool;
  text : string;
  proc_name : option string;
  proc_exe : option string;
  rect : Rect;
  show_cmd : Z;
  style : Z;
  exstyle : Z
}.

(** What [GetMonitorInfo] returns: the ['Monitor'] and ['Work'] entries. *)
Record MonitorInfo : Type := mkMonitor {
  mon_rect : Rect;
  mon_work : Rect
}.

(** [windows] is in [EnumWindows] order, [monitors] in
    [EnumDisplayMonitors] order; a monitor entry is [None] when
    [GetMonitorInfo] raises for its handle. *)
Record World : Type := mkWorld {
  windows : list Window;
  monitors : list (option MonitorInfo);
  foreground : option Z
}.

(** The calls that the trace records: every enumeration of the top-level
    windows and every call that acts on the desktop.  Reads of the
    attributes of one window or monitor are not recorded.  [EvPopen] keeps
    the pid the call returned, [None] when it raised. *)
Inductive Event : Type :=
  | EvEnumWindows
  | EvPopen (cmd : string) (pid : option Z)
  | EvSleep (ms : Z)
  | EvShowWindow (h cmd : Z)
  | EvSetWindowPos (h x y cx cy flags : Z)
  | EvSetForegroundWindow (h : Z)
  | EvSendKeys (keys : string).

Record Tab : Type := mkTab { url : string; tab_title : string }.

(** The behaviour of everything outside the process: starting a program
    ([popen] gives the pid of the new process, or [None] when
    [subprocess.Popen] raises), the passing of time during [time.sleep],
    the monitor Windows deems nearest to a window ([None] when the call
    raises), the answer of the browser debugging port, and the rectangle
    on which the window manager puts a window at [ShowWindow(hwnd, cmd)]:
    [shown_rect w hwnd cmd] is what [GetWindowRect] reports afterwards.
    Under [SW_RESTORE] that is the restored rectangle of a window that was
    minimized, maximized or arranged, and the rectangle the window has
    already otherwise; under [SW_MAXIMIZE] and [SW_MINIMIZE] it is the
    place of a maximized or minimized window. *)
Record Env : Type := mkEnv {
  popen : string -> World -> option positive * World;
  elapse : Z -> World -> World;
  nearest_monitor : World -> Z -> option nat;
  debug_tabs : string -> list Tab;
  shown_rect : World -> Z -> Z -> Rect
}.

Definition lookup_window (w : World) (h : Z) : option Window :=
  List.find (fun x => hwnd x =? h) (windows w).

Definition update_window (f : Window -> Window) (h : Z) (w : World) : World :=
  mkWorld (map (fun x => if hwnd x =? h then f x else x) (windows w))
          (monitors w) (foreground w).

Definition set_show (c : Z) (x : Window) : Window :=
  mkWindow (hwnd x) (visible x) (text x) (proc_name x) (proc_exe x)
           (rect x) c (style x) (exstyle x).

Definition set_rect (r : Rect) (x : Window) : Window :=
  mkWindow (hwnd x) (visible x) (text x) (proc_name x) (proc_exe x)
           r (show_cmd x) (style x) (exstyle x).

Definition set_foreground (h : Z) (w : World) : World :=
  mkWorld (windows w) (monitors w) (Some h).

(** The show state a window is left in by [ShowWindow(hwnd, cmd)]. *)
Definition show_state_after (cmd : Z) : Z :=
  if cmd =? SW_MAXIMIZE then SW_SHOWMAXIMIZED
  else if cmd =? SW_MINIMIZE then SW_SHOWMINIMIZED
  else SW_SHOWNORMAL.

(** A window after [ShowWindow(hwnd, cmd)]: in the show state of the
    command, on the rectangle [r] the window manager gives it. *)
Definition shown (cmd : Z) (r : Rect) (x : Window) : Window :=
  set_rect r (set_show (show_state_after cmd) x).

(** The rectangle of a window of the desktop, [(0, 0, 0, 0)] for a handle
    that is not one. *)
Definition rect_of (w : World) (h : Z) : Rect :=
  match lookup_window w h with
  | Some x => rect x
  | None => (0, 0, 0, 0)
  end.

End Win32.
Import Win32.

(** ** Reads of the desktop: a reader monad with exceptions *)

Definition Q (A : Type) : Type := World -> result A.

Definition qret {A} (a : A) : Q A := fun _ => Ok a.

Definition qbind {A B} (m : Q A) (k : A -> Q B) : Q B :=
  fun w => match m w with
           | Ok a => k a w
           | Raise e => Raise e
           end.

Definition qraise {A} (e : exn) : Q A := fun _ => Raise e.

(** [try: body  except Exception: handler] (a bare [except:] behaves the
    same on the exceptions modelled here). *)
Definition qtry {A} (body handler : Q A) : Q A :=
  fun w => match body w with
           | Ok a => Ok a
           | Raise _ => handler w
           end.

(** [try: body  except (psutil.NoSuchProcess, psutil.AccessDenied): handler] *)
Definition qtry_process {A} (body handler : Q A) : Q A :=
  fun w => match body w with
           | Raise ProcessError => handler w
           | r => r
           end.

Definition qlift {A} (o : option A) (e : exn) : Q A :=
  match o with
  | Some a => qret a
  | None => qraise e
  end.

Notation "x <~ c ;; k" := (qbind c (fun x => k))
  (at level 100, c at next level, right associativity).

(** *** The read-only calls of [win32gui], [win32api] and [psutil] *)
Section Reads.
Context (env : Env).

Definition window (h : Z) : Q Window :=
  fun w => match lookup_window w h with
           | Some x => Ok x
           | None => Raise OSError
           end.

Definition IsWindowVisible (h : Z) : Q bool :=
  x <~ window h ;; qret (visible x).

Definition GetWindowText (h : Z) : Q string :=
  x <~ window h ;; qret (text x).

Definition GetWindowRect (h : Z) : Q Rect :=
  x <~ window h ;; qret (rect x).

(** [GetWindowLong(hwnd, GWL_STYLE)] and [GetWindowLong(hwnd, GWL_EXSTYLE)] *)
Definition GetWindowLong_style (h : Z) : Q Z :=
  x <~ window h ;; qret (style x).

Definition GetWindowLong_exstyle (h : Z) : Q Z :=
  x <~ window h ;; qret (exstyle x).

(** [GetWindowPlacement(hwnd)[1]] *)
Definition GetWindowPlacement_showCmd (h : Z) : Q Z :=
  x <~ window h ;; qret (show_cmd x).

(** [psutil.Process(pid).name()] for the process owning the window;
    [ProcessError] stands for [psutil.NoSuchProcess] and
    [psutil.AccessDenied]. *)
Definition process_name (h : Z) : Q string :=
  x <~ window h ;; qlift (proc_name x) ProcessError.

(** [psutil.Process(pid).exe()] *)
Definition process_exe (h : Z) : Q string :=
  x <~ window h ;; qlift (proc_exe x) ProcessError.

(** The monitor handles are the positions in the enumeration. *)
Definition EnumDisplayMonitors : Q (list nat) :=
  fun w => Ok (seq 0 (length (monitors w))).

Definition GetMonitorInfo (hmonitor : nat) : Q MonitorInfo :=
  fun w => match monitors w !! hmonitor with
           | Some (Some info) => Ok info
           | _ => Raise OSError
           end.

(** [MonitorFromWindow(hwnd, MONITOR_DEFAULTTONEAREST)] *)
Definition MonitorFromWindow (h : Z) : Q nat :=
  fun w => match nearest_monitor env w h with
           | Some m => Ok m
           | None => Raise OSError
           end.

End Reads.

(** ** The engine's state: a state and exception monad *)

(** The desktop, the trace of calls made so far, and the set object that
    [restore_windows] allocates and hands to every [restore_window] call. *)
Record St : Type := mkSt {
  world : World;
  trace : list Event;
  launched_session_apps : gset string
}.

Definition M (A : Type) : Type := St -> result A * St.

Definition ret {A} (a : A) : M A := fun s => (Ok a, s).

Definition bind {A B} (m : M A) (k : A -> M B) : M B :=
  fun s => match m s with
           | (Ok a, s') => k a s'
           | (Raise e, s') => (Raise e, s')
           end.

Definition raise {A} (e : exn) : M A := fun s => (Raise e, s).

(** [try: body  except Exception: handler] *)
Definition try_except {A} (body handler : M A) : M A :=
  fun s => match body s with
           | (Ok a, s') => (Ok a, s')
           | (Raise _, s') => handler s'
           end.

(** A read of the desktop inside the engine. *)
Definition query {A} (q : Q A) : M A := fun s => (q (world s), s).

Notation "x <- c ;; k" := (bind c (fun x => k))
  (at level 100, c at next level, right associativity).
Notation "c ;;; k" := (bind c (fun _ => k))
  (at level 100, right associativity).

Definition set_world (w : World) : M unit :=
  fun s => (Ok tt, mkSt w (trace s) (launched_session_apps s)).

Definition emit (e : Event) : M unit :=
  fun s => (Ok tt, mkSt (world s) (trace s ++ [e]) (launched_session_apps s)).

(** *** The recorded calls of [win32gui], [time] and [subprocess] *)
Section Calls.
Context (env : Env).

Definition EnumWindows : M (list Z) :=
  emit EvEnumWindows ;;;
  query (fun w => Ok (map hwnd (windows w))).

Definition ShowWindow (h cmd : Z) : M unit :=
  emit (EvShowWindow h cmd) ;;;
  _ <- query (window h) ;;
  w <- query (fun w => Ok w) ;;
  set_world (update_window (shown cmd (shown_rect env w h cmd)) h w).

Definition SetWindowPos (h x y cx cy flags : Z) : M unit :=
  emit (EvSetWindowPos h x y cx cy flags) ;;;
  _ <- query (window h) ;;
  w <- query (fun w => Ok w) ;;
  set_world (update_window (set_rect (x, y, x + cx, y + cy)) h w).

Definition SetForegroundWindow (h : Z) : M unit :=
  emit (EvSetForegroundWindow h) ;;;
  _ <- query (window h) ;;
  w <- query (fun w => Ok w) ;;
  set_world (set_foreground h w).

(** [time.sleep], in milliseconds. *)
Definition sleep (ms : Z) : M unit :=
  emit (EvSleep ms) ;;;
  w <- query (fun w => Ok w) ;;
  set_world (elapse env ms w).

(** [subprocess.Popen(cmd, shell=True).pid] *)
Definition Popen (cmd : string) : M Z :=
  w <- query (fun w => Ok w) ;;
  let '(pid, w') := popen env cmd w in
  emit (EvPopen cmd (Z.pos <$> pid)) ;;;
  set_world w' ;;;
  match pid with
  | Some p => ret (Z.pos p)
  | None => raise OSError
  end.

Definition SendKeys (keys : string) : M unit := emit (EvSendKeys keys).

End Calls.

(** ** Window records *)

(** The dictionary built by capture and read by restore.  A field is [None]
    when its key is absent; the fields read back from a preset file keep
    whatever Python value the file holds. *)
Module Info.
Record WindowInfo : Type := mkInfo {
  executable : option pyval;
  title : option pyval;
  x : option Z;
  y : option Z;
  width : option Z;
  height : option Z;
  state : option pyval;
  monitor : option Z;
  snap_type : option pyval;
  tabs : option (list Tab)
}.
End Info.
Abbreviation WindowInfo := Info.WindowInfo.

(** [d.get(key, default)] *)
Definition dict_get {A} (field : option A) (default : A) : A :=
  match field with
  | Some v => v
  | None => default
  end.

(** ** browser_tabs.py *)
Module BrowserTabs.
Section WithEnv.
Context (env : Env).

Definition BROWSERS : list string :=
  ["chrome.exe"; "msedge.exe"; "firefox.exe"; "brave.exe"; "opera.exe"].

(** The answer of the debugging port stands for [get_chrome_tabs] and
    [get_firefox_tabs], whose failures are already turned into [[]]. *)
Definition get_browser_tabs (window_title executable : string) : list Tab :=
  let exe_name := lower (last_component executable) in
  if negb (existsb (String.eqb exe_name) BROWSERS) then []
  else debug_tabs env exe_name.

End WithEnv.
End BrowserTabs.

(** ** window_capture.py *)
Module Capture.
Section WithEnv.
Context (env : Env).

Definition EXCLUDED_TITLES : list string :=
  ["Program Manager"; "Windows Input Experience";
   "Microsoft Text Input Application"; "Windows Defender"; "Security Health"].

Definition EXCLUDED_PROCESSES : list string :=
  ["explorer.exe"; "systemsettings.exe"; "searchhost.exe";
   "startmenuexperiencehost.exe"; "textinputhost.exe";
   "applicationframehost.exe"].

Definition EXCLUDED_TITLE_PARTS : list string :=
  ["Save Window Layout"; "Window Restore - Manage Presets"].

Definition get_process_name (h : Z) : Q (option string) :=
  qtry_process
    (n <~ process_name h ;; qret (Some (lower n)))
    (qret None).

Definition get_process_path (h : Z) : Q (option string) :=
  qtry_process
    (p <~ process_exe h ;; qret (Some p))
    (qret None).

Definition get_window_title (h : Z) : Q string :=
  qtry (GetWindowText h) (qret "").

Definition is_visible_window (h : Z) : Q bool :=
  qtry
    (vis <~ IsWindowVisible h ;;
     if negb vis then qret false else
     title <~ get_window_title h ;;
     if String.eqb title "" then qret false else
     if existsb (fun excluded => str_in (lower excluded) (lower title))
                EXCLUDED_TITLES then qret false else
     proc_name <~ get_process_name h ;;
     if match proc_name with
        | Some n => negb (String.eqb n "")
                    && existsb (String.eqb n) EXCLUDED_PROCESSES
        | None => false
        end then qret false else
     style <~ GetWindowLong_style h ;;
     exstyle <~ GetWindowLong_exstyle h ;;
     if negb (Z.land exstyle WS_EX_TOOLWINDOW =? 0) then qret false else
     if Z.land style WS_CAPTION =? 0 then qret false else
     qret true)
    (qret false).

Definition get_window_rect (h : Z) : Q (option Rect) :=
  qtry (r <~ GetWindowRect h ;; qret (Some r)) (qret None).

Definition get_window_state (h : Z) : Q string :=
  qtry
    (show_cmd <~ GetWindowPlacement_showCmd h ;;
     if show_cmd =? SW_SHOWMAXIMIZED then qret "maximized"
     else if show_cmd =? SW_SHOWMINIMIZED then qret "minimized"
     else qret "normal")
    (qret "normal").

(** The loop of [get_monitor_info] over [enumerate(monitors)], from
    position [i] on. *)
Fixpoint monitor_containing (cx cy : Z) (i : nat) (handles : list nat)
  : Q nat :=
  match handles with
  | [] => qret 0%nat
  | hMonitor :: rest =>
      info <~ GetMonitorInfo hMonitor ;;
      let '(r0, r1, r2, r3) := mon_rect info in
      if (r0 <=? cx) && (cx <=? r2) && (r1 <=? cy) && (cy <=? r3)
      then qret i
      else monitor_containing cx cy (S i) rest
  end.

Definition get_monitor_info (h : Z) : Q nat :=
  qtry
    (r <~ GetWindowRect h ;;
     let '(r0, r1, r2, r3) := r in
     let cx := (r0 + r2) / 2 in
     let cy := (r1 + r3) / 2 in
     monitors <~ EnumDisplayMonitors ;;
     monitor_containing cx cy 0 monitors)
    (qret 0%nat).

Definition detect_snap_type (h : Z) (r : Rect) (state : string)
  : Q (option string) :=
  if negb (String.eqb state "normal") then qret None else
  qtry
    (monitor <~ MonitorFromWindow env h ;;
     info <~ GetMonitorInfo monitor ;;
     qret (classify_rect (mon_work info) r))
    (qret None).

Definition _is_own_utility_window (executable title : string) : bool :=
  let exe_name := lower (last_component executable) in
  if String.eqb exe_name "python.exe" || String.eqb exe_name "pythonw.exe"
  then existsb (fun t => str_in (lower t) (lower title)) EXCLUDED_TITLE_PARTS
  else false.

Definition get_window_info (h : Z) (include_tabs include_minimized : bool)
  : Q (option WindowInfo) :=
  vis <~ is_visible_window h ;;
  if negb vis then qret None else
  qtry
    (rect <~ get_window_rect h ;;
     match rect with
     | None => qret None
     | Some (r0, r1, r2, r3) =>
     executable <~ get_process_path h ;;
     match executable with
     | None => qret None
     | Some executable =>
     if String.eqb executable "" then qret None else
     title <~ get_window_title h ;;
     state <~ get_window_state h ;;
     if String.eqb state "minimized" && negb include_minimized
     then qret None else
     monitor <~ get_monitor_info h ;;
     snap_type <~ detect_snap_type h (r0, r1, r2, r3) state ;;
     if _is_own_utility_window executable title then qret None else
     let tabs :=
       if include_tabs
       then match BrowserTabs.get_browser_tabs env title executable with
            | [] => None
            | l => Some l
            end
       else None in
     qret (Some {| Info.executable := Some (PStr executable);
                   Info.title := Some (PStr title);
                   Info.x := Some r0;
                   Info.y := Some r1;
                   Info.width := Some (r2 - r0);
                   Info.height := Some (r3 - r1);
                   Info.state := Some (PStr state);
                   Info.monitor := Some (Z.of_nat monitor);
                   Info.snap_type :=
                     match snap_type with
                     | Some z => if String.eqb z "" then None
                                 else Some (PStr z)
                     | None => None
                     end;
                   Info.tabs := tabs |})
     end end)
    (qret None).

(** The [EnumWindows] callback of [capture_windows], run over the handles
    in enumeration order. *)
Fixpoint capture_each (include_tabs include_minimized : bool)
  (handles : list Z) : Q (list WindowInfo) :=
  match handles with
  | [] => qret []
  | h :: rest =>
      info <~ get_window_info h include_tabs include_minimized ;;
      infos <~ capture_each include_tabs include_minimized rest ;;
      qret (match info with
            | Some i => i :: infos
            | None => infos
            end)
  end.

Definition capture_windows (include_tabs include_minimized : bool)
  : M (list WindowInfo) :=
  try_except
    (handles <- EnumWindows ;;
     query (capture_each include_tabs include_minimized handles))
    (ret []).

End WithEnv.
End Capture.

(** ** window_restore.py *)
Module Restore.

Definition RESTORE_BROWSER_TABS : bool := false.
Definition RESTORE_SESSION_MANAGED_APPS : bool := true.

Definition SESSION_MANAGED_APPS : gset string :=
  {[ "chrome.exe"; "msedge.exe"; "firefox.exe"; "brave.exe"; "opera.exe" ]}.

(** Truth value of an [Optional[int]] handle or pid. *)
Definition truthy_int (o : option Z) : bool :=
  match o with
  | Some z => negb (z =? 0)
  | None => false
  end.

(** [title.lower()] on whatever the record holds under ['title']. *)
Definition lower_of (v : pyval) : Q string :=
  match v with
  | PStr s => qret (lower s)
  | _ => qraise AttributeError
  end.

Definition intersects (a b : Rect) : bool :=
  let '(a0, a1, a2, a3) := a in
  let '(b0, b1, b2, b3) := b in
  negb ((a2 <=? b0) || (a0 >=? b2) || (a3 <=? b1) || (a1 >=? b3)).

(** Runs an [EnumWindows] callback over the handles and collects those it
    appends to its list. *)
Fixpoint collect (callback : Z -> Q bool) (handles : list Z) : Q (list Z) :=
  match handles with
  | [] => qret []
  | h :: rest =>
      keep <~ callback h ;;
      found <~ collect callback rest ;;
      qret (if keep then h :: found else found)
  end.

(** The callback of [find_window_by_executable]; [true] when the handle is
    appended. *)
Definition callback_by_executable (target_exe : string) (title : pyval)
  (h : Z) : Q bool :=
  qtry
    (vis <~ IsWindowVisible h ;;
     if negb vis then qret false else
     window_title <~ GetWindowText h ;;
     if String.eqb window_title "" then qret false else
     qtry
       (n <~ process_name h ;;
        let proc_name := lower n in
        if String.eqb proc_name target_exe then
          if truthy title then
            t <~ lower_of title ;;
            if negb (str_in t (lower window_title)) then qret false
            else qret true
          else qret true
        else qret false)
       (qret false))
    (qret false).

Definition find_window_by_executable (executable : string) (title : pyval)
  : M (option Z) :=
  let target_exe := lower (last_component executable) in
  handles <- EnumWindows ;;
  windows <- query (collect (callback_by_executable target_exe title)
                            handles) ;;
  ret (head windows).

Definition callback_all (target_exe : string) (h : Z) : Q bool :=
  qtry
    (vis <~ IsWindowVisible h ;;
     if negb vis then qret false else
     window_title <~ GetWindowText h ;;
     if String.eqb window_title "" then qret false else
     n <~ process_name h ;;
     qret (String.eqb (lower n) target_exe))
    (qret false).

Definition find_windows_by_executable (executable : string) : M (list Z) :=
  let target_exe := lower (last_component executable) in
  handles <- EnumWindows ;;
  query (collect (callback_all target_exe) handles).

Definition callback_exact (target_exe target_title : string) (h : Z)
  : Q bool :=
  qtry
    (vis <~ IsWindowVisible h ;;
     if negb vis then qret false else
     window_title <~ GetWindowText h ;;
     if String.eqb window_title "" then qret false else
     n <~ process_name h ;;
     qret (String.eqb (lower n) target_exe
           && String.eqb (lower (strip window_title)) target_title))
    (qret false).

Definition find_window_by_executable_exact_title
  (executable title : string) : M (option Z) :=
  if String.eqb title "" then ret None else
  let target_exe := lower (last_component executable) in
  let target_title := lower (strip title) in
  handles <- EnumWindows ;;
  matches <- query (collect (callback_exact target_exe target_title)
                            handles) ;;
  ret (head matches).

(** The [for hwnd in hwnds] loop of [_choose_best_window]: the first handle
    whose text contains [desired]. *)
Fixpoint first_containing (desired : string) (hwnds : list Z)
  : Q (option Z) :=
  match hwnds with
  | [] => qret None
  | h :: rest =>
      hit <~ qtry
               (t <~ GetWindowText h ;; qret (str_in desired (lower t)))
               (qret false) ;;
      if hit then qret (Some h) else first_containing desired rest
  end.

(** The local function [area] of [_choose_best_window]. *)
Definition area (w : World) (h : Z) : Z :=
  match GetWindowRect h w with
  | Ok (l, t, r, b) => Z.max 0 ((r - l) * (b - t))
  | Raise _ => 0
  end.

Definition _choose_best_window (hwnds : list Z) (desired_title : pyval)
  : Q (option Z) :=
  match hwnds with
  | [] => qret None
  | _ =>
      hit <~ (if truthy desired_title then
                desired <~ lower_of desired_title ;;
                first_containing desired hwnds
              else qret None) ;;
      match hit with
      | Some h => qret (Some h)
      | None => fun w => Ok (head (sorted_desc (area w) hwnds))
      end
  end.

Section WithEnv.
Context (env : Env).

Definition launch_program (executable arguments : string) : M (option Z) :=
  try_except
    (let cmd := (dquote ++ executable ++ dquote)%string in
     let cmd := if negb (String.eqb arguments "")
                then (cmd ++ " " ++ arguments)%string else cmd in
     pid <- Popen env cmd ;;
     sleep env 2000 ;;;
     ret (Some pid))
    (ret None).

(** The expression
    [find_window_by_executable(executable, title) or
     _choose_best_window(find_windows_by_executable(executable), title)]
    that [restore_window] evaluates at each of its three lookups. *)
Definition find_best (executable : string) (title : pyval) : M (option Z) :=
  h <- find_window_by_executable executable title ;;
  if truthy_int h then ret h else
  hwnds <- find_windows_by_executable executable ;;
  query (_choose_best_window hwnds title).

(** The work areas [position_window] gathers, skipping the monitors whose
    [GetMonitorInfo] raises. *)
Fixpoint gather_work_areas (handles : list nat) : Q (list Rect) :=
  match handles with
  | [] => qret []
  | hmonitor :: rest =>
      wa <~ qtry
              (info <~ GetMonitorInfo hmonitor ;; qret (Some (mon_work info)))
              (qret None) ;;
      was <~ gather_work_areas rest ;;
      qret (match wa with
            | Some r => r :: was
            | None => was
            end)
  end.

(** The part of [position_window] that keeps the target inside the visible
    work areas: the rectangle handed to [SetWindowPos]. *)
Definition clamp_to_work_areas (x y width height monitor : Z)
  : Q (Z * Z * Z * Z) :=
  monitors <~ EnumDisplayMonitors ;;
  work_areas <~ gather_work_areas monitors ;;
  match work_areas with
  | [] => qret (x, y, width, height)
  | _ =>
      let width := Z.max 320 width in
      let height := Z.max 220 height in
      let rect := (x, y, x + width, y + height) in
      if negb (existsb (intersects rect) work_areas) then
        let target_idx :=
          if (0 <=? monitor) && (monitor <? Z.of_nat (length monitors))
          then Z.to_nat monitor else 0%nat in
        hmonitor <~ qlift (monitors !! target_idx) OSError ;;
        info <~ GetMonitorInfo hmonitor ;;
        let '(wx1, wy1, wx2, wy2) := mon_work info in
        let max_w := Z.max 320 (wx2 - wx1) in
        let max_h := Z.max 220 (wy2 - wy1) in
        let width := Z.min width max_w in
        let height := Z.min height max_h in
        let x := wx1 + Z.max 0 (((wx2 - wx1) - width) / 2) in
        let y := wy1 + Z.max 0 (((wy2 - wy1) - height) / 2) in
        qret (x, y, width, height)
      else qret (x, y, width, height)
  end.

Definition position_window (hwnd x y width height : Z) (state : pyval)
  (monitor : Z) (activate : bool) : M unit :=
  try_except
    (placed <- query (clamp_to_work_areas x y width height monitor) ;;
     let '(x, y, width, height) := placed in
     (if eq_str state "minimized"
      then ShowWindow env hwnd SW_RESTORE ;;; sleep env 500
      else ShowWindow env hwnd SW_RESTORE) ;;;
     let flags := SWP_NOZORDER in
     let flags := if negb activate then Z.lor flags SWP_NOACTIVATE
                  else flags in
     SetWindowPos hwnd x y width height flags ;;;
     if eq_str state "maximized" then ShowWindow env hwnd SW_MAXIMIZE
     else if eq_str state "minimized" then ShowWindow env hwnd SW_MINIMIZE
     else if activate then
       try_except (SetForegroundWindow hwnd) (ret tt)
     else ret tt)
    (ret tt).

Definition apply_snap_layout (hwnd : Z) (snap_type : pyval) : M bool :=
  if negb (truthy snap_type) then ret false else
  try_except
    (monitor <- query (MonitorFromWindow env hwnd) ;;
     info <- query (GetMonitorInfo monitor) ;;
     let rect := match snap_type with
                 | PStr s => snap_layouts (mon_work info) s
                 | _ => None
                 end in
     match rect with
     | None => ret false
     | Some (x, y, w, h) =>
         ShowWindow env hwnd SW_RESTORE ;;;
         SetWindowPos hwnd x y w h (Z.lor SWP_NOACTIVATE SWP_NOZORDER) ;;;
         ret true
     end)
    (ret false).

(** The [for i, tab in enumerate(tabs)] loop of [restore_tabs]. *)
Fixpoint send_tabs (i : nat) (tabs : list Tab) : M unit :=
  match tabs with
  | [] => ret tt
  | tab :: rest =>
      (match i with
       | O => SendKeys "^l" ;;; sleep env 300
       | _ => SendKeys "^t" ;;; sleep env 500
       end) ;;;
      SendKeys (url tab) ;;;
      SendKeys "{ENTER}" ;;;
      sleep env 500 ;;;
      send_tabs (S i) rest
  end.

Definition restore_tabs (browser_executable : string) (tabs : list Tab)
  : M unit :=
  match tabs with
  | [] => ret tt
  | _ =>
      try_except
        (hwnd <- find_window_by_executable browser_executable (PStr "") ;;
         match hwnd with
         | Some h =>
             if h =? 0 then ret tt else
             SetForegroundWindow h ;;;
             sleep env 500 ;;;
             send_tabs 0 tabs
         | None => ret tt
         end)
        (ret tt)
  end.

(** [executable in launched_session_apps] *)
Definition in_launched (executable : string) : M bool :=
  fun s => (Ok (bool_decide (executable ∈ launched_session_apps s)), s).

(** [launched_session_apps.add(executable)] *)
Definition add_launched (executable : string) : M unit :=
  fun s => (Ok tt, mkSt (world s) (trace s)
                        ({[ executable ]} ∪ launched_session_apps s)).

(** The [for _ in range(n)] polling loop of [restore_window]; the value is
    the handle held when the loop ends. *)
Fixpoint poll_for_window (n : nat) (executable : string) (title : pyval)
  (hwnd : option Z) : M (option Z) :=
  match n with
  | O => ret hwnd
  | S n' =>
      sleep env 1000 ;;;
      hwnd <- find_best executable title ;;
      if truthy_int hwnd then ret hwnd
      else poll_for_window n' executable title hwnd
  end.

(** [restore_windows], the only caller, always passes its own set as
    [launched_session_apps]; that set is the one held in the state. *)
Definition restore_window (window_info : WindowInfo) : M bool :=
  let executable := dict_get (Info.executable window_info) (PStr "") in
  let title := dict_get (Info.title window_info) (PStr "") in
  let x := dict_get (Info.x window_info) 0 in
  let y := dict_get (Info.y window_info) 0 in
  let width := dict_get (Info.width window_info) 800 in
  let height := dict_get (Info.height window_info) 600 in
  let state := dict_get (Info.state window_info) (PStr "normal") in
  let monitor := dict_get (Info.monitor window_info) 0 in
  let tabs := dict_get (Info.tabs window_info) [] in
  let snap_type := dict_get (Info.snap_type window_info) PNone in
  executable <- match executable with
                | PStr s => ret s
                | _ => raise AttributeError
                end ;;
  let exe_name := lower (last_component executable) in
  let is_session_managed := bool_decide (exe_name ∈ SESSION_MANAGED_APPS) in
  if eq_str state "minimized" then ret true else
  if is_session_managed && negb RESTORE_SESSION_MANAGED_APPS then ret true
  else
  if is_session_managed then
    hwnd <- find_best executable title ;;
    let not_found : M bool :=
      already <- in_launched executable ;;
      if already then ret true else
      pid <- launch_program executable "" ;;
      if negb (truthy_int pid) then ret false else
      add_launched executable ;;;
      ret true in
    match hwnd with
    | Some h =>
        if h =? 0 then not_found else
        try_except
          (ShowWindow env h SW_RESTORE ;;; SetForegroundWindow h)
          (ret tt) ;;;
        ret true
    | None => not_found
    end
  else
  hwnd <- find_best executable title ;;
  hwnd <- (if negb (truthy_int hwnd) then
             pid <- launch_program executable "" ;;
             if negb (truthy_int pid) then ret None else
             poll_for_window 10 executable title hwnd
           else ret hwnd) ;;
  match hwnd with
  | None => ret false
  | Some h =>
      if h =? 0 then ret false else
      snapped <- apply_snap_layout h snap_type ;;
      (if negb snapped
       then position_window h x y width height state monitor false
       else ret tt) ;;;
      (match tabs with
       | [] => ret tt
       | _ => if RESTORE_BROWSER_TABS then restore_tabs executable tabs
              else ret tt
       end) ;;;
      ret true
  end.

(** [launched_session_apps = set()] *)
Definition new_launched : M unit :=
  fun s => (Ok tt, mkSt (world s) (trace s) ∅).

(** The [for window_info in windows] loop of [restore_windows], entered
    with the current value of [success_count]. *)
Fixpoint restore_each (windows : list WindowInfo) (success_count : Z)
  : M Z :=
  match windows with
  | [] => ret success_count
  | window_info :: rest =>
      success_count <-
        try_except
          (ok <- restore_window window_info ;;
           ret (if ok then success_count + 1 else success_count))
          (ret success_count) ;;
      restore_each rest success_count
  end.

(** The value of [success_count] when the loop of [restore_windows] ends. *)
Definition success_count (windows : list WindowInfo) : M Z :=
  new_launched ;;;
  restore_each windows 0.

Definition restore_windows (windows : list WindowInfo) : M bool :=
  success_count <- success_count windows ;;
  ret (success_count >? 0).

End WithEnv.
End Restore.

(** * The preset store and the command handlers *)

(** ** Preset files *)

(** A preset as [preset_manager.py] reads it from the file.  ['id'] and
    ['name'] are read with [p['id']] and [p['name']] everywhere and are
    always written by [save_preset]; ['created'] and ['windows'] are also
    read with [p.get], so they may be absent. *)
Module PresetDict.
Record Preset : Type := mkPreset {
  id : string;
  name : string;
  created : option string;
  windows : option (list WindowInfo)
}.
End PresetDict.
Abbreviation Preset := PresetDict.Preset.

(** The JSON object of the file; [presets] is [None] when the object has
    no ['presets'] key. *)
Record Data : Type := mkData { presets : option (list Preset) }.

(** What [presets.json] is when it is opened: absent, not JSON
    ([json.JSONDecodeError]), failing in another way when opened or read,
    or a JSON object. *)
Inductive FileState : Type :=
  | Missing
  | Corrupt
  | Unreadable
  | Json (data : Data).

(** The data directory: the presets file, the file [presets.json.bak]
    beside it, and whether the presets file can be opened for writing. *)
Record Disk : Type := mkDisk {
  presets_file : FileState;
  backup_file : FileState;
  writable : bool
}.

(** The exceptions of this layer: a missing dictionary key, the failure of
    [Path.rename] on an existing target, and whatever the engine raises. *)
Inductive io_exn : Type :=
  | KeyError
  | FileExistsError
  | Engine (e : exn).

(** [Unbounded] marks a loop that has not ended within the bound the model
    gives it. *)
Inductive io_result (A : Type) : Type :=
  | Returns (a : A)
  | Raises (e : io_exn)
  | Unbounded.
Arguments Returns {A} a.
Arguments Raises {A} e.
Arguments Unbounded {A}.

(** State and exceptions over a state [S]: the disk for the preset
    manager, the disk and the desktop for the handlers. *)
Definition IO (S A : Type) : Type := S -> io_result A * S.

Definition io_ret {S A} (a : A) : IO S A := fun s => (Returns a, s).

Definition io_bind {S A B} (m : IO S A) (k : A -> IO S B) : IO S B :=
  fun s => match m s with
           | (Returns a, s') => k a s'
           | (Raises e, s') => (Raises e, s')
           | (Unbounded, s') => (Unbounded, s')
           end.

Definition io_raise {S A} (e : io_exn) : IO S A := fun s => (Raises e, s).

Notation "x <-- c ;; k" := (io_bind c (fun x => k))
  (at level 100, c at next level, right associativity).

(** [d[key]] on a dictionary whose key may be absent. *)
Definition item {S A} (field : option A) : IO S A :=
  match field with
  | Some v => io_ret v
  | None => io_raise KeyError
  end.

(** [str(n)] for a non-negative integer. *)
Definition str (n : nat) : string := NilEmpty.string_of_uint (Nat.to_uint n).

(** ** preset_manager.py *)
Module Presets.

Definition empty_data : Data := mkData (Some []).

(** [self.presets_file.rename(backup)]: on Windows the call raises when
    the target exists. *)
Definition rename_to_backup : IO Disk unit :=
  fun d => match backup_file d with
           | Missing => (Returns tt,
                         mkDisk Missing (presets_file d) (writable d))
           | _ => (Raises FileExistsError, d)
           end.

Definition _load_presets : IO Disk Data :=
  fun d => match presets_file d with
           | Missing => (Returns empty_data, d)
           | Json data => (Returns data, d)
           | Corrupt => (_ <-- rename_to_backup ;; io_ret empty_data) d
           | Unreadable => (Returns empty_data, d)
           end.

Definition _save_presets (data : Data) : IO Disk bool :=
  fun d => if writable d
           then (Returns true, mkDisk (Json data) (backup_file d) (writable d))
           else (Returns false, d).

(** The [while final_name.lower() in existing_names] loop of
    [save_preset], entered with the current [counter] and [final_name];
    [None] when it has not ended after [fuel] more rounds. *)
Fixpoint free_name (fuel : nat) (name : string) (existing_names : list string)
  (counter : nat) (final_name : string) : option string :=
  if existsb (String.eqb (lower final_name)) existing_names then
    match fuel with
    | O => None
    | S fuel' =>
        let counter := S counter in
        let final_name := (name ++ " (" ++ str counter ++ ")")%string in
        free_name fuel' name existing_names counter final_name
    end
  else Some final_name.

Section Draws.
(** The values that [uuid.uuid4()] and [datetime.now()] give in the call. *)
Context (uuid4 now : string).

Definition save_preset (name : string) (windows : list WindowInfo)
  : IO Disk bool :=
  data <-- _load_presets ;;
  presets <-- item (presets data) ;;
  let existing_names := map (fun p => lower (PresetDict.name p)) presets in
  match free_name (length existing_names) name existing_names 1 name with
  | None => fun d => (Unbounded, d)
  | Some final_name =>
      let preset := PresetDict.mkPreset uuid4 final_name (Some now)
                                        (Some windows) in
      let data := mkData (Some (presets ++ [preset])) in
      ok <-- _save_presets data ;;
      if ok then io_ret true else io_ret false
  end.

End Draws.

Definition load_preset (name : string) : IO Disk (option Preset) :=
  data <-- _load_presets ;;
  presets <-- item (presets data) ;;
  io_ret (List.find (fun preset => String.eqb (lower (PresetDict.name preset))
                                              (lower name)) presets).

Definition load_preset_by_id (preset_id : string) : IO Disk (option Preset) :=
  data <-- _load_presets ;;
  presets <-- item (presets data) ;;
  io_ret (List.find (fun preset => String.eqb (PresetDict.id preset) preset_id)
                    presets).

(** The summary [list_presets] builds for one preset. *)
Module Summary.
Record Summary : Type := mkSummary {
  id : string;
  name : string;
  created : string;
  window_count : nat
}.
End Summary.

Definition list_presets : IO Disk (list Summary.Summary) :=
  data <-- _load_presets ;;
  presets <-- item (presets data) ;;
  io_ret (map (fun p => Summary.mkSummary
                          (PresetDict.id p) (PresetDict.name p)
                          (dict_get (PresetDict.created p) "")
                          (length (dict_get (PresetDict.windows p) [])))
              presets).

Definition delete_preset (name : string) : IO Disk bool :=
  data <-- _load_presets ;;
  presets <-- item (presets data) ;;
  let original_count := length presets in
  let presets :=
    List.filter (fun p => negb (String.eqb (lower (PresetDict.name p))
                                            (lower name))) presets in
  if (length presets <? original_count)%nat then
    ok <-- _save_presets (mkData (Some presets)) ;;
    if ok then io_ret true else io_ret false
  else io_ret false.

Definition delete_preset_by_id (preset_id : string) : IO Disk bool :=
  data <-- _load_presets ;;
  presets <-- item (presets data) ;;
  let original_count := length presets in
  let presets :=
    List.filter (fun p => negb (String.eqb (PresetDict.id p) preset_id))
                presets in
  if (length presets <? original_count)%nat then
    ok <-- _save_presets (mkData (Some presets)) ;;
    if ok then io_ret true else io_ret false
  else io_ret false.

(** [preset['name'] = new_name] *)
Definition set_name (new_name : string) (p : Preset) : Preset :=
  PresetDict.mkPreset (PresetDict.id p) new_name (PresetDict.created p)
                      (PresetDict.windows p).

(** The [for preset in data['presets']] loop of [rename_preset]: [done]
    are the presets already visited, as the loop left them, [todo] the
    ones still to visit.  The list written is the whole list, with the
    renames made so far. *)
Fixpoint rename_loop (old_name new_name : string) (done todo : list Preset)
  : IO Disk bool :=
  match todo with
  | [] => io_ret false
  | preset :: rest =>
      if String.eqb (lower (PresetDict.name preset)) (lower old_name) then
        let preset := set_name new_name preset in
        ok <-- _save_presets (mkData (Some (done ++ preset :: rest))) ;;
        if ok then io_ret true
        else rename_loop old_name new_name (done ++ [preset]) rest
      else rename_loop old_name new_name (done ++ [preset]) rest
  end.

Definition rename_preset (old_name new_name : string) : IO Disk bool :=
  data <-- _load_presets ;;
  presets <-- item (presets data) ;;
  rename_loop old_name new_name [] presets.

Definition get_preset_names : IO Disk (list string) :=
  l <-- list_presets ;;
  io_ret (map Summary.name l).

End Presets.

(** ** main.py: the handlers behind [--save], [--save-quadrants] and
    [--restore] *)
Module Main.

(** The desktop side and the disk side of the process. *)
Record App : Type := mkApp {
  desktop_state : St;
  disk : Disk
}.

(** A call into the capture and restore engine. *)
Definition engine {A} (m : M A) : IO App A :=
  fun a => match m (desktop_state a) with
           | (Ok v, st) => (Returns v, mkApp st (disk a))
           | (Raise e, st) => (Raises (Engine e), mkApp st (disk a))
           end.

(** A call of a [PresetManager] method. *)
Definition storage {A} (m : IO Disk A) : IO App A :=
  fun a => match m (disk a) with
           | (r, d) => (r, mkApp (desktop_state a) d)
           end.

(** Tuples compare lexicographically. *)
Definition pair_lt (a b : Z * Z) : bool :=
  (fst a <? fst b) || ((fst a =? fst b) && (snd a <? snd b)).

(** [sorted(l, key=key)] for a key that is a pair of integers: a stable
    sort, smallest key first. *)
Fixpoint insert_asc {A} (key : A -> Z * Z) (x : A) (l : list A) : list A :=
  match l with
  | [] => [x]
  | y :: r => if pair_lt (key y) (key x) then y :: insert_asc key x r
              else x :: l
  end.

Definition sorted_asc {A} (key : A -> Z * Z) (l : list A) : list A :=
  foldr (insert_asc key) [] l.

(** The local function [sort_key] of [handle_save_quadrant_preset]. *)
Definition sort_key (w : WindowInfo) : Z * Z :=
  (dict_get (Info.y w) 0, dict_get (Info.x w) 0).

Section WithEnv.
Context (env : Env) (uuid4 now : string).

Definition handle_save_preset (name : string) (include_tabs : bool)
  : IO App bool :=
  windows <-- engine (Capture.capture_windows env include_tabs false) ;;
  match windows with
  | [] => io_ret false
  | _ =>
      success <-- storage (Presets.save_preset uuid4 now name windows) ;;
      io_ret success
  end.

Definition handle_save_quadrant_preset (name : string) (include_tabs : bool)
  : IO App bool :=
  windows <-- engine (Capture.capture_windows env include_tabs false) ;;
  match windows with
  | [] => io_ret false
  | _ =>
      let selected := take 4 (sorted_asc sort_key windows) in
      success <-- storage (Presets.save_preset uuid4 now name selected) ;;
      io_ret success
  end.

Definition handle_restore_preset (name : string) : IO App bool :=
  preset <-- storage (Presets.load_preset name) ;;
  match preset with
  | None => io_ret false
  | Some preset =>
      windows <-- item (PresetDict.windows preset) ;;
      success <-- engine (Restore.restore_windows env windows) ;;
      io_ret success
  end.

End WithEnv.
End Main.

(** * Vocabulary for the properties *)

(** ** The per-record view of a restore run *)
Section Run.
Context (env : Env).

(** What [restore_window] gives for each record in turn, each one started
    in the state its predecessor left. *)
Fixpoint outcomes (windows : list WindowInfo) (s : St) : list (result bool) :=
  match windows with
  | [] => []
  | window_info :: rest =>
      let r := Restore.restore_window env window_info s in
      fst r :: outcomes rest (snd r)
  end.

(** The state after every record was given to [restore_window] in turn. *)
Definition run_each (windows : list WindowInfo) (s : St) : St :=
  fold_left (fun st window_info =>
               snd (Restore.restore_window env window_info st)) windows s.

End Run.

Definition is_handled (r : result bool) : bool :=
  match r with
  | Ok true => true
  | _ => false
  end.

(** The number of records for which [restore_window] returned [True]. *)
Definition handled (rs : list (result bool)) : Z :=
  Z.of_nat (length (List.filter is_handled rs)).

(** The state in which the loop of [restore_windows] starts. *)
Definition fresh_run (s : St) : St := mkSt (world s) (trace s) ∅.

(** A state that holds the desktop [w] and nothing else. *)
Definition observe (w : World) : St := mkSt w [] ∅.

(** ** Traces *)

(** The events a computation appended when it went from [s] to [s']. *)
Definition appended (s s' : St) : list Event :=
  drop (length (trace s)) (trace s').

(** The one-second wait of the polling loop. *)
Definition is_poll_sleep (e : Event) : bool :=
  match e with
  | EvSleep ms => ms =? 1000
  | _ => false
  end.

Definition is_popen (e : Event) : bool :=
  match e with
  | EvPopen _ _ => true
  | _ => false
  end.

(** A successful start of [executable] by [launch_program]. *)
Definition is_launch_of (executable : string) (e : Event) : bool :=
  match e with
  | EvPopen cmd (Some _) =>
      String.eqb cmd (dquote ++ executable ++ dquote)%string
  | _ => false
  end.

Definition count (f : Event -> bool) (d : list Event) : nat :=
  length (List.filter f d).

(** A [SetWindowPos] call asks for at least 320 by 220. *)
Definition has_min_size (e : Event) : Prop :=
  match e with
  | EvSetWindowPos _ _ _ cx cy _ => 320 <= cx /\ 220 <= cy
  | _ => True
  end.

(** [steps P m]: whatever [m] does, it leaves the launched set alone and
    only appends events that satisfy [P] to the trace. *)
Definition steps (P : Event -> Prop) {A} (m : M A) : Prop :=
  forall s,
    launched_session_apps (snd (m s)) = launched_session_apps s /\
    exists d, trace (snd (m s)) = trace s ++ d /\ Forall P d.

(** [reads m]: [m] leaves the desktop as it is and its value depends on the
    desktop only. *)
Definition reads {A} (m : M A) : Prop :=
  forall s,
    world (snd (m s)) = world s /\
    forall s2, world s2 = world s -> fst (m s2) = fst (m s).

(** [bounded f n m]: [m] only appends to the trace, and at most [n] of the
    events it appends satisfy [f]. *)
Definition bounded (f : Event -> bool) (n : nat) {A} (m : M A) : Prop :=
  forall s, exists d, trace (snd (m s)) = trace s ++ d /\ (count f d <= n)%nat.

(** The event is not a successful start of [e]. *)
Definition not_launch_of (e : string) (ev : Event) : Prop :=
  is_launch_of e ev = false.

(** What a stretch of a run, from [st] to [st'], adds to the starts of [e]:
    none, or one that also enters [e] in the launched set. *)
Definition launch_step (e : string) (st st' : St) : Prop :=
  exists d,
    trace st' = trace st ++ d /\
    (launched_session_apps st ⊆ launched_session_apps st') /\
    (count (is_launch_of e) d = 0%nat \/
     (count (is_launch_of e) d = 1%nat /\
      (e ∉ launched_session_apps st) /\ (e ∈ launched_session_apps st'))).

(** ** Placement *)

(** The work areas of the monitors whose information can be read. *)
Definition work_areas_of (w : World) : list Rect :=
  omap (fun m : option MonitorInfo => mon_work <$> m) (monitors w).

(** What [position_window] does once the target rectangle is known: the
    statements that follow the [if work_areas:] block. *)
Definition place (env : Env) (hwnd x y width height : Z) (state : pyval)
  (activate : bool) : M unit :=
  (if eq_str state "minimized"
   then ShowWindow env hwnd SW_RESTORE ;;; sleep env 500
   else ShowWindow env hwnd SW_RESTORE) ;;;
  let flags := SWP_NOZORDER in
  let flags := if negb activate then Z.lor flags SWP_NOACTIVATE
               else flags in
  SetWindowPos hwnd x y width height flags ;;;
  if eq_str state "maximized" then ShowWindow env hwnd SW_MAXIMIZE
  else if eq_str state "minimized" then ShowWindow env hwnd SW_MINIMIZE
  else if activate then
    try_except (SetForegroundWindow hwnd) (ret tt)
  else ret tt.

(** ** The matcher, stated on the window list *)

(** A window the matcher considers for [executable]: shown, with a title,
    and owned by a process of the same base name. *)
Definition candidate (executable : string) (x : Window) : bool :=
  visible x && negb (String.eqb (text x) "") &&
  match proc_name x with
  | Some n => String.eqb (lower n) (lower (last_component executable))
  | None => false
  end.

(** The window text contains the title, case-insensitively. *)
Definition title_matches (t : string) (x : Window) : bool :=
  str_in (lower t) (lower (text x)).

(** The first element with the largest key. *)
Fixpoint first_max {A} (key : A -> Z) (l : list A) : option A :=
  match l with
  | [] => None
  | x :: r =>
      match first_max key r with
      | Some m => if key x <? key m then Some m else Some x
      | None => Some x
      end
  end.

(** ** Sample desktops, environments and records *)
Module Examples.

Definition win (h : Z) (exe t : string) (r : Rect) (show : Z) : Window :=
  mkWindow h true t (Some exe) (Some ("C:\Apps\" ++ exe)%string) r show
           WS_CAPTION 0.

Definition monitor0 : MonitorInfo :=
  mkMonitor (0, 0, 1920, 1080) (0, 0, 1920, 1040).

(** The two browser windows of the matcher example, in the order the
    specification lists them, and a minimized editor. *)
Definition desktop : World :=
  mkWorld [win 10 "chrome.exe" "GitHub" (0, 0, 800, 600) SW_SHOWNORMAL;
           win 11 "chrome.exe" "GitHub - Pricing" (100, 100, 1100, 900)
               SW_SHOWNORMAL;
           win 12 "notepad.exe" "notes.txt - Notepad" (5, 5, 300, 300)
               SW_SHOWMINIMIZED]
          [Some monitor0] None.

(** Where a minimized window is parked. *)
Definition parked : Rect := (-32000, -32000, -31840, -31972).

(** The browser with its one window minimized. *)
Definition minimized_browser : World :=
  mkWorld [win 10 "chrome.exe" "GitHub" parked SW_SHOWMINIMIZED]
          [Some monitor0] None.

(** The browser with its one window maximized on the monitor. *)
Definition maximized_browser : World :=
  mkWorld [win 10 "chrome.exe" "GitHub" (-8, -8, 1928, 1048)
               SW_SHOWMAXIMIZED]
          [Some monitor0] None.

(** The same applications with the substring match enumerated first and
    the exact-title window the larger of the two. *)
Definition desktop_swapped : World :=
  mkWorld [win 11 "chrome.exe" "GitHub - Pricing" (0, 0, 800, 600)
               SW_SHOWNORMAL;
           win 10 "chrome.exe" "GitHub" (100, 100, 1100, 900) SW_SHOWNORMAL;
           win 12 "notepad.exe" "notes.txt - Notepad" (5, 5, 300, 300)
               SW_SHOWMINIMIZED]
          [Some monitor0] None.

Definition no_tabs : string -> list Tab := fun _ => [].

(** A window manager with nothing to restore: [ShowWindow] leaves every
    window on the rectangle it has. *)
Definition in_place : World -> Z -> Z -> Rect := fun w h _ => rect_of w h.

(** Programs start, but never show a window. *)
Definition env_silent : Env :=
  mkEnv (fun _ w => (Some 4242%positive, w)) (fun _ w => w)
        (fun _ _ => Some 0%nat) no_tabs in_place.

(** Programs start, but never show a window; [SW_RESTORE] puts a window
    back on the rectangle it had before it was minimized or maximized. *)
Definition env_restoring : Env :=
  mkEnv (fun _ w => (Some 4242%positive, w)) (fun _ w => w)
        (fun _ _ => Some 0%nat) no_tabs
        (fun w h cmd =>
           if cmd =? SW_RESTORE then (100, 100, 900, 700) else rect_of w h).

(** No program can be started. *)
Definition env_broken : Env :=
  mkEnv (fun _ w => (None, w)) (fun _ w => w) (fun _ _ => Some 0%nat) no_tabs
        in_place.

Definition start (w : World) : St := mkSt w [] ∅.

Definition record (exe t st : string) : WindowInfo :=
  Info.mkInfo (Some (PStr exe)) (Some (PStr t)) (Some 40) (Some 60)
              (Some 200) (Some 100) (Some (PStr st)) (Some 0) None None.

(** A record whose executable is [null] in the preset file. *)
Definition record_null : WindowInfo :=
  Info.mkInfo (Some PNone) (Some (PStr "broken")) (Some 0) (Some 0)
              (Some 10) (Some 10) (Some (PStr "normal")) (Some 0) None None.

(** Three records; the calculator is not running. *)
Definition layout3 : list WindowInfo :=
  [record "C:\Apps\notepad.exe" "notes.txt - Notepad" "normal";
   record "C:\Apps\calc.exe" "Calculator" "normal";
   record "C:\Apps\chrome.exe" "GitHub" "normal"].

(** Two records of one browser that is not running. *)
Definition two_firefox : list WindowInfo :=
  [record "C:\Apps\firefox.exe" "Mozilla Firefox" "normal";
   record "C:\Apps\firefox.exe" "Downloads" "normal"].

End Examples.

(** ** Vocabulary for the snap zones *)

(** The point lies in the rectangle [(x, y, w, h)]. *)
Definition in_box (p : Z * Z * Z * Z) (px py : Z) : Prop :=
  let '(x, y, w, h) := p in x <= px < x + w /\ y <= py < y + h.

(** The point lies in the rectangle that [apply_snap_layout] gives a zone. *)
Definition in_zone (work : Rect) (z : string) (px py : Z) : Prop :=
  match snap_layouts work z with
  | Some p => in_box p px py
  | None => False
  end.

(** The position of the monitor [position_window] recentres on when the
    rectangle is off every work area: the recorded one when it is a valid
    position, the first one otherwise. *)
Definition target_index (w : World) (monitor : Z) : nat :=
  if (0 <=? monitor) && (monitor <? Z.of_nat (length (monitors w)))
  then Z.to_nat monitor else 0%nat.

(** ** Vocabulary for capture *)

(** The test of [is_visible_window], on the window itself. *)
Definition eligible (x : Window) : bool :=
  visible x &&
  negb (String.eqb (text x) "") &&
  negb (existsb (fun excluded => str_in (lower excluded) (lower (text x)))
                Capture.EXCLUDED_TITLES) &&
  negb (match proc_name x with
        | Some n => negb (String.eqb (lower n) "")
                    && existsb (String.eqb (lower n)) Capture.EXCLUDED_PROCESSES
        | None => false
        end) &&
  (Z.land (exstyle x) WS_EX_TOOLWINDOW =? 0) &&
  negb (Z.land (style x) WS_CAPTION =? 0).

(** The name [get_window_state] gives a show command. *)
Definition state_name (show_cmd : Z) : string :=
  if show_cmd =? SW_SHOWMAXIMIZED then "maximized"
  else if show_cmd =? SW_SHOWMINIMIZED then "minimized"
  else "normal".

(** The window is one that [get_window_info] records: it passes the test
    of [is_visible_window], its executable path is known and not empty,
    it is not minimized unless minimized windows are asked for, and it is
    not one of the tool's own dialogs. *)
Definition capturable (include_minimized : bool) (x : Window) : bool :=
  eligible x &&
  match proc_exe x with
  | Some exe =>
      negb (String.eqb exe "") &&
      negb (String.eqb (state_name (show_cmd x)) "minimized"
            && negb include_minimized) &&
      negb (Capture._is_own_utility_window exe (text x))
  | None => false
  end.

(** The test of [get_monitor_info]: the centre of the window rectangle
    lies on the monitor rectangle, borders included. *)
Definition centre_on (r m : Rect) : bool :=
  let '(r0, r1, r2, r3) := r in
  let '(m0, m1, m2, m3) := m in
  let cx := (r0 + r2) / 2 in
  let cy := (r1 + r3) / 2 in
  (m0 <=? cx) && (cx <=? m2) && (m1 <=? cy) && (cy <=? m3).

(** ** Vocabulary for the calls of a restore run *)

(** A keystroke, or a [SetWindowPos] whose flags are not
    [SWP_NOZORDER | SWP_NOACTIVATE]. *)
Definition is_intrusive (e : Event) : bool :=
  match e with
  | EvSendKeys _ => true
  | EvSetWindowPos _ _ _ _ _ flags =>
      negb (flags =? Z.lor SWP_NOZORDER SWP_NOACTIVATE)
  | _ => false
  end.

Definition is_set_foreground (e : Event) : bool :=
  match e with
  | EvSetForegroundWindow _ => true
  | _ => false
  end.

(** A call that moves or resizes a window, or shows it in another way
    than [SW_RESTORE]. *)
Definition is_move (e : Event) : bool :=
  match e with
  | EvSetWindowPos _ _ _ _ _ _ => true
  | EvShowWindow _ cmd => negb (cmd =? SW_RESTORE)
  | _ => false
  end.

(** The window text is the title, up to case and surrounding white space
    (what [strip()] removes and [lower()] changes): the
    test of [find_window_by_executable_exact_title]. *)
Definition title_equals (t : string) (x : Window) : bool :=
  String.eqb (lower (strip (text x))) (lower (strip t)).

(** The record is for one of the session-managed applications: the test
    [exe_name in SESSION_MANAGED_APPS] of [restore_window]. *)
Definition session_managed (wi : WindowInfo) : bool :=
  match dict_get (Info.executable wi) (PStr "") with
  | PStr exe =>
      bool_decide (lower (last_component exe) ∈ Restore.SESSION_MANAGED_APPS)
  | _ => false
  end.

(** ** Vocabulary for the handlers *)

(** The order of sort keys: [a] does not come after [b]. *)
Definition pair_le (a b : Z * Z) : Prop := Main.pair_lt b a = false.

(** The state [capture_windows] leaves: the desktop as it was, one
    enumeration more in the trace. *)
Definition enumerated (s : St) : St :=
  mkSt (world s) (trace s ++ [EvEnumWindows]) (launched_session_apps s).

(** ** Vocabulary for the preset store *)

(** The name [save_preset] tries in round [k] of its loop: the name asked
    for, then ["name (2)"], ["name (3)"], ... *)
Definition numbered (name : string) (k : nat) : string :=
  match k with
  | O => name
  | S _ => (name ++ " (" ++ str (S k) ++ ")")%string
  end.

(** The name is in use, whatever the case of its letters. *)
Definition name_taken (presets : list Preset) (name : string) : bool :=
  existsb (String.eqb (lower name))
          (map (fun p => lower (PresetDict.name p)) presets).

(** The presets a manager sees on the disk, when the file holds any. *)
Definition stored (d : Disk) : option (list Preset) :=
  match presets_file d with
  | Json data => presets data
  | _ => None
  end.

(** No two stored presets have the same name up to case. *)
Definition names_distinct (d : Disk) : Prop :=
  match stored d with
  | Some ps => List.NoDup (map (fun p => lower (PresetDict.name p)) ps)
  | None => True
  end.

(** A disk whose presets file holds [ps] and can be written. *)
Definition disk_with (ps : list Preset) : Disk :=
  mkDisk (Json (mkData (Some ps))) Missing true.

(** What each method of the manager starts with: the presets it works on
    and the disk that reading them leaves, or the exception of its first
    two lines. *)
Definition opened (d : Disk) : io_result (list Preset) * Disk :=
  (data <-- Presets._load_presets ;; item (presets data)) d.

(** The file is there, in whatever state. *)
Definition file_exists (f : FileState) : bool :=
  match f with
  | Missing => false
  | _ => true
  end.

(** The preset is the one [name] asks for, up to case. *)
Definition named (name : string) (p : Preset) : bool :=
  String.eqb (lower (PresetDict.name p)) (lower name).

(** ** More sample desktops and presets *)
Module StoreExamples.
Import Examples.

(** One window, far from the rectangles the examples restore off-screen. *)
Definition far_right : World :=
  mkWorld [win 12 "notepad.exe" "notes.txt - Notepad" (5, 5, 300, 300)
               SW_SHOWNORMAL]
          [Some monitor0] None.

(** Two monitors; [GetMonitorInfo] fails for the first. *)
Definition broken_first_monitor : World :=
  mkWorld [win 12 "notepad.exe" "notes.txt - Notepad" (5, 5, 300, 300)
               SW_SHOWNORMAL]
          [None; Some monitor0] None.

(** An editor shown normal, well inside the work area. *)
Definition editor_desktop : World :=
  mkWorld [win 12 "notepad.exe" "notes.txt - Notepad" (100, 100, 900, 700)
               SW_SHOWNORMAL]
          [Some monitor0] None.

(** The only window is minimized. *)
Definition only_minimized : World :=
  mkWorld [win 12 "notepad.exe" "notes.txt - Notepad" (5, 5, 300, 300)
               SW_SHOWMINIMIZED]
          [Some monitor0] None.

Definition hidden_window : Window :=
  mkWindow 30 false "" None None (0, 0, 0, 0) SW_SHOWNORMAL 0 0.

(** The title ["GitHub"] between the separators 0x1f and 0x1c. *)
Definition separated_title : string :=
  String (ascii_of_nat 31) ("GitHub" ++ String (ascii_of_nat 28) "").

(** Two windows of the browser; the text of the first is the title with
    a separator on either side. *)
Definition desktop_separators : World :=
  mkWorld [win 41 "chrome.exe" separated_title (0, 0, 800, 600)
               SW_SHOWNORMAL;
           win 42 "chrome.exe" "GitHub" (100, 100, 1100, 900)
               SW_SHOWNORMAL]
          [Some monitor0] None.

Definition calc_window : Window :=
  win 20 "calc.exe" "Calculator" (10, 10, 400, 500) SW_SHOWNORMAL.

(** Programs start; the window of the calculator is there after the
    second one-second wait. *)
Definition env_slow : Env :=
  mkEnv (fun _ w => (Some 4242%positive, w))
        (fun ms w =>
           if ms =? 1000 then
             mkWorld (windows w ++
                      [if (length (windows w) =? 4)%nat then calc_window
                       else hidden_window])
                     (monitors w) (foreground w)
           else w)
        (fun _ _ => Some 0%nat) no_tabs in_place.

Definition sample_preset (name : string) : Preset :=
  PresetDict.mkPreset "id-1" name (Some "2024-01-01T00:00:00") (Some layout3).

(** A preset as a hand-edited file may hold it: no date, no windows. *)
Definition bare_preset : Preset :=
  PresetDict.mkPreset "id-0" "Bare" None None.

End StoreExamples.

(** * Proofs *)

Import Examples.

(** ** Snap zones *)

Ltac decide_tests :=
  repeat match goal with
  | |- context [?a <=? ?b] =>
      first [ replace (a <=? b) with true by (symmetry; apply Z.leb_le; lia)
            | replace (a <=? b) with false by (symmetry; apply Z.leb_gt; lia) ]
  end.

(** C3, as stated, fails on a work area narrower or lower than 50: the
    right half of a 40-wide work area is classified as the left zone, and
    the bottom half of a 49-high one as the top zone. *)
Lemma classify_zone_fails_on_small_work_area :
  In "right" snap_zones /\
  classify_zone (0, 0, 40, 1000) "right" = Some "left" /\
  In "bottom" snap_zones /\
  classify_zone (0, 0, 1000, 49) "bottom" = Some "top".
Proof.
  split; [right; left; reflexivity|]. split; [reflexivity|].
  split; [do 3 right; left; reflexivity|reflexivity].
Qed.

(** C3 (amended): on a work area at least 50 wide and 50 high, classifying
    the rectangle of a zone gives the zone back. *)
Theorem classify_zone_roundtrip wx1 wy1 wx2 wy2 z :
  50 <= wx2 - wx1 -> 50 <= wy2 - wy1 -> In z snap_zones ->
  classify_zone (wx1, wy1, wx2, wy2) z = Some z.
Proof.
  intros Hw Hh Hz.
  assert (Hw2 : 25 <= (wx2 - wx1) / 2) by (apply Z.div_le_lower_bound; lia).
  assert (Hh2 : 25 <= (wy2 - wy1) / 2) by (apply Z.div_le_lower_bound; lia).
  assert (Hw3 : 2 * ((wx2 - wx1) / 2) <= wx2 - wx1
                < 2 * ((wx2 - wx1) / 2) + 2).
  { pose proof (Z.div_mod (wx2 - wx1) 2 ltac:(lia)).
    pose proof (Z.mod_pos_bound (wx2 - wx1) 2 ltac:(lia)). lia. }
  assert (Hh3 : 2 * ((wy2 - wy1) / 2) <= wy2 - wy1
                < 2 * ((wy2 - wy1) / 2) + 2).
  { pose proof (Z.div_mod (wy2 - wy1) 2 ltac:(lia)).
    pose proof (Z.mod_pos_bound (wy2 - wy1) 2 ltac:(lia)). lia. }
  unfold classify_zone, snap_layouts, classify_rect, rect_of_pos.
  generalize dependent ((wx2 - wx1) / 2).
  generalize dependent ((wy2 - wy1) / 2).
  intros hh Hh2 Hh3 hw Hw2 Hw3.
  rewrite (Z.max_r 1 hw) by lia. rewrite (Z.max_r 1 hh) by lia.
  unfold snap_zones in Hz. simpl in Hz.
  repeat destruct Hz as [<- | Hz]; try contradiction;
    cbn [String.eqb Ascii.eqb Bool.eqb];
    cbv zeta; decide_tests; reflexivity.
Qed.

Lemma classify_zone_roundtrip_witness :
  classify_zone (0, 0, 1920, 1040) "top_right" = Some "top_right".
Proof.
  apply (classify_zone_roundtrip 0 0 1920 1040 "top_right");
    [lia | lia | do 5 right; left; reflexivity].
Defined.

(** The examples of the specification on a 1920 by 1080 work area. *)
Example classify_rect_examples :
  classify_rect (0, 0, 1920, 1080) (0, 0, 960, 1080) = Some "left" /\
  classify_rect (0, 0, 1920, 1080) (960, 0, 1920, 1080) = Some "right" /\
  classify_rect (0, 0, 1920, 1080) (0, 0, 960, 540) = Some "top_left" /\
  classify_rect (0, 0, 1920, 1080) (0, 0, 700, 1080) = None.
Proof. repeat split; reflexivity. Qed.

(** ** Trace frames *)
Section Steps.

Context (P : Event -> Prop).

Lemma steps_ret {A} (a : A) : steps P (ret a).
Proof. intros s; split; [easy|exists []; rewrite app_nil_r; auto]. Qed.

Lemma steps_raise {A} (e : exn) : steps P (@raise A e).
Proof. intros s; split; [easy|exists []; rewrite app_nil_r; auto]. Qed.

Lemma steps_query {A} (q : Q A) : steps P (query q).
Proof. intros s; split; [easy|exists []; rewrite app_nil_r; auto]. Qed.

Lemma steps_set_world w : steps P (set_world w).
Proof. intros s; split; [easy|exists []; cbn; rewrite app_nil_r; auto]. Qed.

Lemma steps_emit e : P e -> steps P (emit e).
Proof. intros He s; split; [easy|exists [e]; cbn; auto]. Qed.

Lemma steps_bind {A B} (m : M A) (k : A -> M B) :
  steps P m -> (forall a, steps P (k a)) -> steps P (bind m k).
Proof.
  intros Hm Hk s. unfold bind.
  destruct (Hm s) as [Hl [d [Hd HP]]].
  destruct (m s) as [[a|e] s1]; cbn in *.
  - destruct (Hk a s1) as [Hl' [d' [Hd' HP']]]. split; [congruence|].
    exists (d ++ d'). rewrite Hd', Hd, app_assoc.
    split; [easy|]. apply Forall_app; auto.
  - split; [easy|]. exists d; auto.
Qed.

Lemma steps_try {A} (body handler : M A) :
  steps P body -> steps P handler -> steps P (try_except body handler).
Proof.
  intros Hm Hk s. unfold try_except.
  destruct (Hm s) as [Hl [d [Hd HP]]].
  destruct (body s) as [[a|e] s1]; cbn in *.
  - split; [easy|]. exists d; auto.
  - destruct (Hk s1) as [Hl' [d' [Hd' HP']]]. split; [congruence|].
    exists (d ++ d'). rewrite Hd', Hd, app_assoc.
    split; [easy|]. apply Forall_app; auto.
Qed.

End Steps.

Lemma steps_weaken (P P' : Event -> Prop) {A} (m : M A) :
  (forall e, P e -> P' e) -> steps P m -> steps P' m.
Proof.
  intros H Hm s. destruct (Hm s) as [Hl [d [Hd HP]]].
  split; [easy|]. exists d; split; [easy|].
  eapply Forall_impl; eauto.
Qed.

Ltac steps_step :=
  lazymatch goal with
  | |- steps _ (ret _) => apply steps_ret
  | |- steps _ (raise _) => apply steps_raise
  | |- steps _ (query _) => apply steps_query
  | |- steps _ (set_world _) => apply steps_set_world
  | |- steps _ (emit _) => apply steps_emit; auto
  | |- steps _ (bind _ _) => apply steps_bind; [| intros ?]
  | |- steps _ (try_except _ _) => apply steps_try
  | |- steps _ (if ?b then _ else _) => destruct b
  | |- steps _ (match ?x with _ => _ end) => destruct x
  | |- steps _ (let _ := _ in _) => cbv zeta
  end.

Ltac steps_auto := repeat steps_step.

Section StepsCalls.
Context (env : Env) (P : Event -> Prop).

Lemma steps_EnumWindows : P EvEnumWindows -> steps P EnumWindows.
Proof. intros. unfold EnumWindows. steps_auto. Qed.

Lemma steps_ShowWindow h c :
  P (EvShowWindow h c) -> steps P (ShowWindow env h c).
Proof. intros. unfold ShowWindow. steps_auto. Qed.

Lemma steps_SetWindowPos h x y cx cy f :
  P (EvSetWindowPos h x y cx cy f) -> steps P (SetWindowPos h x y cx cy f).
Proof. intros. unfold SetWindowPos. steps_auto. Qed.

Lemma steps_SetForegroundWindow h :
  P (EvSetForegroundWindow h) -> steps P (SetForegroundWindow h).
Proof. intros. unfold SetForegroundWindow. steps_auto. Qed.

Lemma steps_sleep ms : P (EvSleep ms) -> steps P (sleep env ms).
Proof. intros. unfold sleep. steps_auto. Qed.

Lemma steps_Popen cmd : (forall pid, P (EvPopen cmd pid)) -> steps P (Popen env cmd).
Proof. intros. unfold Popen. steps_auto. Qed.

Lemma steps_find_window_by_executable e t :
  P EvEnumWindows -> steps P (Restore.find_window_by_executable e t).
Proof.
  intros. unfold Restore.find_window_by_executable. steps_auto.
  now apply steps_EnumWindows.
Qed.

Lemma steps_find_windows_by_executable e :
  P EvEnumWindows -> steps P (Restore.find_windows_by_executable e).
Proof.
  intros. unfold Restore.find_windows_by_executable. steps_auto.
  now apply steps_EnumWindows.
Qed.

Lemma steps_find_best e t : P EvEnumWindows -> steps P (Restore.find_best e t).
Proof.
  intros. unfold Restore.find_best. steps_auto.
  - now apply steps_find_window_by_executable.
  - now apply steps_find_windows_by_executable.
Qed.

End StepsCalls.

Section StepsRestore.
Context (env : Env) (P : Event -> Prop).

Lemma steps_launch_program e a :
  (forall cmd pid, P (EvPopen cmd pid)) -> P (EvSleep 2000) ->
  steps P (Restore.launch_program env e a).
Proof.
  intros. unfold Restore.launch_program. steps_auto;
    auto using steps_Popen, steps_sleep.
Qed.

Lemma steps_poll_for_window n e t h :
  P EvEnumWindows -> P (EvSleep 1000) ->
  steps P (Restore.poll_for_window env n e t h).
Proof.
  intros. revert h. induction n; intros h; cbn [Restore.poll_for_window].
  - steps_auto.
  - steps_auto; auto using steps_sleep, steps_find_best.
Qed.

Hypothesis P_show : forall h c, P (EvShowWindow h c).
Hypothesis P_pos : forall h x y cx cy f, P (EvSetWindowPos h x y cx cy f).
Hypothesis P_fg : forall h, P (EvSetForegroundWindow h).

Lemma steps_apply_snap_layout h z : steps P (Restore.apply_snap_layout env h z).
Proof.
  unfold Restore.apply_snap_layout. steps_auto;
    auto using steps_ShowWindow, steps_SetWindowPos.
Qed.

Lemma steps_position_window h x y cx cy st mon act :
  P (EvSleep 500) ->
  steps P (Restore.position_window env h x y cx cy st mon act).
Proof.
  intros. unfold Restore.position_window. steps_auto;
    auto using steps_ShowWindow, steps_SetWindowPos, steps_sleep,
               steps_SetForegroundWindow.
Qed.

Lemma steps_send_tabs i tabs :
  (forall k, P (EvSendKeys k)) -> P (EvSleep 300) -> P (EvSleep 500) ->
  steps P (Restore.send_tabs env i tabs).
Proof.
  intros. revert i. induction tabs as [|tab rest IH]; intros i;
    cbn [Restore.send_tabs].
  - steps_auto.
  - unfold SendKeys. steps_auto; auto using steps_sleep.
Qed.

Lemma steps_restore_tabs e tabs :
  P EvEnumWindows -> (forall k, P (EvSendKeys k)) ->
  P (EvSleep 300) -> P (EvSleep 500) ->
  steps P (Restore.restore_tabs env e tabs).
Proof.
  intros. unfold Restore.restore_tabs. steps_auto;
    auto using steps_find_window_by_executable, steps_SetForegroundWindow,
               steps_sleep, steps_send_tabs.
Qed.

End StepsRestore.

(** ** Computations that only look at the desktop *)
Section ReadsFacts.

Lemma reads_ret {A} (a : A) : reads (ret a).
Proof. intros s; split; [easy|intros; easy]. Qed.

Lemma reads_query {A} (q : Q A) : reads (query q).
Proof. intros s; split; [easy|]. intros s2 H. cbn. now rewrite H. Qed.

Lemma reads_emit e : reads (emit e).
Proof. intros s; split; [easy|intros; easy]. Qed.

Lemma reads_bind {A B} (m : M A) (k : A -> M B) :
  reads m -> (forall a, reads (k a)) -> reads (bind m k).
Proof.
  intros Hm Hk s. unfold bind.
  destruct (Hm s) as [Hw Hf]. split.
  - destruct (m s) as [[a|e] s1]; cbn in *; [|easy].
    destruct (Hk a s1) as [Hw' _]. congruence.
  - intros s2 H2. specialize (Hf s2 H2).
    destruct (Hm s2) as [Hw2 _].
    destruct (m s) as [[a|e] s1], (m s2) as [[a2|e2] s3]; cbn in *;
      try congruence.
    injection Hf as ->.
    destruct (Hk a s1) as [_ Hf']. apply Hf'. congruence.
Qed.

Lemma reads_EnumWindows : reads EnumWindows.
Proof.
  unfold EnumWindows. apply reads_bind; [apply reads_emit|].
  intros _. apply reads_query.
Qed.

Lemma reads_find_best e t : reads (Restore.find_best e t).
Proof.
  unfold Restore.find_best, Restore.find_window_by_executable,
    Restore.find_windows_by_executable.
  repeat first [ apply reads_EnumWindows | apply reads_ret | apply reads_query
               | apply reads_bind; [|intros ?]
               | match goal with |- reads (if ?b then _ else _) => destruct b end ].
Qed.

End ReadsFacts.

(** ** The restore loop (C1, C6) and minimized records (C7) *)

Section RunLemmas.
Context (env : Env).

Lemma restore_each_spec ws : forall c s,
  Restore.restore_each env ws c s =
  (Ok (c + handled (outcomes env ws s)), run_each env ws s).
Proof.
  induction ws as [|wi rest IH]; intros c s.
  - cbn. unfold handled. cbn. now rewrite Z.add_0_r.
  - cbn [Restore.restore_each outcomes run_each fold_left].
    unfold bind at 1. unfold try_except, bind at 1.
    destruct (Restore.restore_window env wi s) as [[[|]|e] s1] eqn:E; cbn;
      rewrite IH; unfold handled; cbn [List.filter is_handled length];
      f_equal; f_equal; lia.
Qed.

Lemma restore_windows_spec ws s :
  Restore.restore_windows env ws s =
  (Ok (handled (outcomes env ws (fresh_run s)) >? 0),
   run_each env ws (fresh_run s)).
Proof.
  unfold Restore.restore_windows, Restore.success_count, bind,
    Restore.new_launched.
  rewrite restore_each_spec. reflexivity.
Qed.

Lemma run_each_app pre post s :
  run_each env (pre ++ post) s = run_each env post (run_each env pre s).
Proof. unfold run_each. apply fold_left_app. Qed.

End RunLemmas.


(** C1, as stated, fails: of three records one cannot be launched, two
    are handled, and the value returned is [True], which is not 2. *)
Lemma restore_windows_is_not_the_count :
  outcomes env_broken layout3 (fresh_run (start desktop))
    = [Ok true; Ok false; Ok true] /\
  fst (Restore.success_count env_broken layout3 (start desktop)) = Ok 2 /\
  fst (Restore.restore_windows env_broken layout3 (start desktop)) = Ok true /\
  int_of_bool true <> 2.
Proof. vm_compute. repeat split; congruence. Qed.

(** C1 (amended): [restore_windows] counts the records that
    [restore_window] handled, one for each call that returned [True], and
    what it returns is a boolean, not the count: [True] when every record
    of a layout that is not empty was handled, [False] when none was. *)
Theorem restore_windows_counts_handled_records env ws s :
  let n := handled (outcomes env ws (fresh_run s)) in
  fst (Restore.success_count env ws s) = Ok n /\
  0 <= n <= Z.of_nat (length ws) /\
  (exists b : bool, fst (Restore.restore_windows env ws s) = Ok b) /\
  (ws <> [] -> n = Z.of_nat (length ws) ->
   fst (Restore.restore_windows env ws s) = Ok true) /\
  (ws <> [] -> n = 0 ->
   fst (Restore.restore_windows env ws s) = Ok false).
Proof.
  intros n. subst n. rewrite restore_windows_spec.
  unfold Restore.success_count, bind, Restore.new_launched.
  rewrite restore_each_spec. cbn [fst].
  assert (Hlen : forall s0, length (outcomes env ws s0) = length ws).
  { induction ws as [|wi rest IH]; intros s0; cbn; [easy|]. now rewrite IH. }
  assert (Hle : 0 <= handled (outcomes env ws (fresh_run s))
                <= Z.of_nat (length ws)).
  { unfold handled. rewrite <- (Hlen (fresh_run s)).
    pose proof (List.filter_length_le is_handled
                  (outcomes env ws (fresh_run s))). lia. }
  split; [reflexivity|]. split; [exact Hle|]. split; [eauto|]. split.
  - intros Hne Hall. rewrite Hall. destruct ws as [|wi rest]; [easy|].
    reflexivity.
  - intros _ Hnone. now rewrite Hnone.
Qed.

(** C6: [restore_windows] never raises, and the state it ends in is the
    one reached by giving every record to [restore_window] in turn: a
    record is attempted in the state its predecessors left, whether they
    returned or raised. *)
Theorem restore_windows_attempts_every_record env ws s :
  (exists b, Restore.restore_windows env ws s
             = (Ok b, run_each env ws (fresh_run s))) /\
  length (outcomes env ws (fresh_run s)) = length ws /\
  (forall pre r post, ws = pre ++ r :: post ->
     run_each env ws (fresh_run s) =
     run_each env post
       (snd (Restore.restore_window env r (run_each env pre (fresh_run s))))).
Proof.
  split; [|split].
  - rewrite restore_windows_spec. eauto.
  - generalize (fresh_run s). induction ws as [|wi rest IH]; intros s0; cbn;
      [easy|]. now rewrite IH.
  - intros pre r post ->. now rewrite run_each_app.
Qed.

(** A record that makes [restore_window] raise does not stop the run. *)
Example raising_record_is_skipped :
  outcomes env_broken (record_null :: layout3) (fresh_run (start desktop))
    = [Raise AttributeError; Ok true; Ok false; Ok true] /\
  fst (Restore.restore_windows env_broken (record_null :: layout3)
         (start desktop)) = Ok true.
Proof. vm_compute. split; reflexivity. Qed.

(** C7: for a record whose state is minimized (and whose executable is a
    string, or absent), [restore_window] returns [True] and leaves the
    desktop, the trace and the launched set as they were. *)
Theorem restore_window_minimized_noop env wi exe s :
  dict_get (Info.executable wi) (PStr "") = PStr exe ->
  Info.state wi = Some (PStr "minimized") ->
  Restore.restore_window env wi s = (Ok true, s).
Proof.
  intros He Hs. unfold Restore.restore_window.
  rewrite He, Hs. reflexivity.
Qed.

Lemma restore_window_minimized_noop_witness :
  Restore.restore_window env_silent
    (record "C:\Apps\calc.exe" "Calculator" "minimized") (start desktop)
  = (Ok true, start desktop).
Proof.
  apply (restore_window_minimized_noop env_silent
           (record "C:\Apps\calc.exe" "Calculator" "minimized")
           "C:\Apps\calc.exe" (start desktop)); reflexivity.
Defined.

(** ** Session-managed applications with a live window (C4) *)

Lemma map_rect_shown c r h ws :
  map rect (map (fun x => if hwnd x =? h then shown c r x else x) ws)
  = map (fun x => if hwnd x =? h then r else rect x) ws.
Proof.
  rewrite map_map. apply map_ext. intros x. now destruct (hwnd x =? h).
Qed.

Lemma map_rect_absent r h w :
  lookup_window w h = None ->
  map rect (windows w)
  = map (fun x => if hwnd x =? h then r else rect x) (windows w).
Proof.
  intros Hl. apply List.map_ext_in. intros x Hx.
  unfold lookup_window in Hl. now rewrite (List.find_none _ _ Hl x Hx).
Qed.

Lemma ShowWindow_run env h c s :
  ShowWindow env h c s =
  match lookup_window (world s) h with
  | Some _ =>
      (Ok tt, mkSt (update_window (shown c (shown_rect env (world s) h c)) h
                                  (world s))
                   (trace s ++ [EvShowWindow h c]) (launched_session_apps s))
  | None =>
      (Raise OSError, mkSt (world s) (trace s ++ [EvShowWindow h c])
                           (launched_session_apps s))
  end.
Proof.
  unfold ShowWindow, bind, emit, query, window, set_world. cbn.
  now destruct (lookup_window (world s) h).
Qed.

Lemma SetWindowPos_run h x y cx cy f s :
  SetWindowPos h x y cx cy f s =
  match lookup_window (world s) h with
  | Some _ =>
      (Ok tt, mkSt (update_window (set_rect (x, y, x + cx, y + cy)) h (world s))
                   (trace s ++ [EvSetWindowPos h x y cx cy f])
                   (launched_session_apps s))
  | None =>
      (Raise OSError, mkSt (world s) (trace s ++ [EvSetWindowPos h x y cx cy f])
                           (launched_session_apps s))
  end.
Proof.
  unfold SetWindowPos, bind, emit, query, window, set_world. cbn.
  now destruct (lookup_window (world s) h).
Qed.

Lemma SetForegroundWindow_run h s :
  SetForegroundWindow h s =
  match lookup_window (world s) h with
  | Some _ =>
      (Ok tt, mkSt (set_foreground h (world s))
                   (trace s ++ [EvSetForegroundWindow h])
                   (launched_session_apps s))
  | None =>
      (Raise OSError, mkSt (world s) (trace s ++ [EvSetForegroundWindow h])
                           (launched_session_apps s))
  end.
Proof.
  unfold SetForegroundWindow, bind, emit, query, window, set_world. cbn.
  now destruct (lookup_window (world s) h).
Qed.

Lemma lookup_update_window f h h' w :
  (forall x, hwnd (f x) = hwnd x) ->
  lookup_window (update_window f h' w) h =
  (fun x => if hwnd x =? h' then f x else x) <$> lookup_window w h.
Proof.
  intros Hf. unfold lookup_window, update_window. cbn [windows].
  induction (windows w) as [|y r IH]; cbn; [easy|].
  destruct (hwnd y =? h') eqn:E1.
  - rewrite Hf. destruct (hwnd y =? h) eqn:E2; cbn; [now rewrite E1|auto].
  - destruct (hwnd y =? h) eqn:E2; cbn; [now rewrite E1|auto].
Qed.

(** C4, amended: for a session-managed executable with a live window
    [h], the record is handled by [ShowWindow(h, SW_RESTORE)] and
    [SetForegroundWindow(h)] alone, whatever bounds the record holds: no
    [SetWindowPos] is made.  Afterwards every other window is on the
    rectangle it had, and [h] is on the rectangle [SW_RESTORE] puts it on;
    so no rectangle changes when that is the rectangle [h] has already. *)
Theorem session_managed_window_is_only_surfaced env wi exe s h s1 :
  dict_get (Info.executable wi) (PStr "") = PStr exe ->
  lower (last_component exe) ∈ Restore.SESSION_MANAGED_APPS ->
  eq_str (dict_get (Info.state wi) (PStr "normal")) "minimized" = false ->
  Restore.find_best exe (dict_get (Info.title wi) (PStr "")) s
    = (Ok (Some h), s1) ->
  h <> 0 ->
  let r := shown_rect env (world s) h SW_RESTORE in
  exists s' d,
    Restore.restore_window env wi s = (Ok true, s') /\
    trace s' = trace s1 ++ d /\
    Forall (fun e => e = EvShowWindow h SW_RESTORE \/
                     e = EvSetForegroundWindow h) d /\
    map rect (windows (world s'))
    = map (fun x => if hwnd x =? h then r else rect x) (windows (world s)) /\
    ((forall x, In x (windows (world s)) -> hwnd x = h -> rect x = r) ->
     map rect (windows (world s')) = map rect (windows (world s))) /\
    map hwnd (windows (world s')) = map hwnd (windows (world s)).
Proof.
  intros He Hsm Hst Hfind Hnz r.
  assert (Hw : world s1 = world s).
  { pose proof (reads_find_best exe (dict_get (Info.title wi) (PStr "")) s)
      as [Hw _]. now rewrite Hfind in Hw. }
  assert (Hsame : forall ws : list Window,
             (forall x, In x ws -> hwnd x = h -> rect x = r) ->
             map (fun x => if hwnd x =? h then r else rect x) ws
             = map rect ws).
  { intros ws Hr. apply List.map_ext_in. intros x Hx.
    destruct (hwnd x =? h) eqn:E; [|reflexivity].
    symmetry. apply Hr; [easy|]. now apply Z.eqb_eq. }
  unfold Restore.restore_window. rewrite He. cbn [bind ret].
  unfold bind at 1. cbn [ret]. rewrite Hst.
  rewrite (bool_decide_eq_true_2 _ Hsm).
  cbn [andb negb Restore.RESTORE_SESSION_MANAGED_APPS].
  unfold bind at 1. rewrite Hfind.
  apply Z.eqb_neq in Hnz. rewrite Hnz.
  unfold bind, try_except, ret. rewrite ShowWindow_run.
  destruct (lookup_window (world s1) h) as [x|] eqn:Hl.
  - rewrite SetForegroundWindow_run. cbn [world trace launched_session_apps].
    rewrite lookup_update_window by easy. rewrite Hl.
    cbn [fmap option_fmap option_map].
    eexists _, [_; _]. split; [reflexivity|].
    cbn [world trace launched_session_apps set_foreground update_window
         windows].
    rewrite <- app_assoc. split; [reflexivity|].
    split; [repeat apply Forall_cons; auto|].
    rewrite Hw. fold r. rewrite map_rect_shown.
    split; [reflexivity|]. split; [apply Hsame|].
    rewrite map_map. apply map_ext. intros y. now destruct (hwnd y =? h).
  - eexists _, [_]. split; [reflexivity|].
    cbn [world trace launched_session_apps].
    split; [reflexivity|]. split; [repeat apply Forall_cons; auto|].
    rewrite Hw in Hl |- *.
    rewrite <- (map_rect_absent r h (world s) Hl).
    split; [reflexivity|]. split; reflexivity.
Qed.

Lemma session_managed_window_is_only_surfaced_witness :
  exists s' d,
    Restore.restore_window env_silent
      (record "C:\Apps\chrome.exe" "GitHub" "normal") (start desktop)
      = (Ok true, s') /\
    trace s' = [EvEnumWindows] ++ d /\
    Forall (fun e => e = EvShowWindow 10 SW_RESTORE \/
                     e = EvSetForegroundWindow 10) d /\
    map rect (windows (world s'))
    = map (fun x => if hwnd x =? 10 then (0, 0, 800, 600) else rect x)
          (windows desktop) /\
    ((forall x, In x (windows desktop) -> hwnd x = 10 ->
                rect x = (0, 0, 800, 600)) ->
     map rect (windows (world s')) = map rect (windows desktop)) /\
    map hwnd (windows (world s')) = map hwnd (windows desktop).
Proof.
  apply (session_managed_window_is_only_surfaced env_silent
           (record "C:\Apps\chrome.exe" "GitHub" "normal")
           "C:\Apps\chrome.exe" (start desktop) 10
           (mkSt desktop [EvEnumWindows] ∅)).
  - reflexivity.
  - vm_compute. reflexivity.
  - reflexivity.
  - vm_compute. reflexivity.
  - lia.
Defined.

(** C4, as stated, fails: the browser window is minimized, a record of
    the browser is restored, and [ShowWindow(hwnd, SW_RESTORE)] takes the
    window from where minimized windows are parked back to the rectangle
    it had before. *)
Lemma minimized_session_window_changes_rect :
  let wi := record "C:\Apps\chrome.exe" "GitHub" "normal" in
  let s := start minimized_browser in
  let s' := snd (Restore.restore_window env_restoring wi s) in
  fst (Restore.restore_window env_restoring wi s) = Ok true /\
  appended s s' = [EvEnumWindows; EvShowWindow 10 SW_RESTORE;
                   EvSetForegroundWindow 10] /\
  map rect (windows (world s)) = [parked] /\
  map rect (windows (world s')) = [(100, 100, 900, 700)].
Proof. vm_compute. repeat split. Qed.

(** The same for a maximized window: it leaves the rectangle of the
    maximized window for the one it had before. *)
Example maximized_session_window_changes_rect :
  let wi := record "C:\Apps\chrome.exe" "GitHub" "normal" in
  let s := start maximized_browser in
  let s' := snd (Restore.restore_window env_restoring wi s) in
  fst (Restore.restore_window env_restoring wi s) = Ok true /\
  map rect (windows (world s)) = [(-8, -8, 1928, 1048)] /\
  map rect (windows (world s')) = [(100, 100, 900, 700)] /\
  map show_cmd (windows (world s')) = [SW_SHOWNORMAL].
Proof. vm_compute. repeat split. Qed.

(** ** Counting events *)

Lemma count_app f a b : count f (a ++ b) = (count f a + count f b)%nat.
Proof. unfold count. now rewrite List.filter_app, length_app. Qed.

Lemma count_none f d : Forall (fun e => f e = false) d -> count f d = 0%nat.
Proof.
  unfold count. induction 1 as [|e d He _ IH]; cbn; [easy|]. now rewrite He.
Qed.

Lemma appended_app s s' d : trace s' = trace s ++ d -> appended s s' = d.
Proof. intros H. unfold appended. rewrite H. now rewrite drop_app_length. Qed.

Section Bounded.
Context (f : Event -> bool).

Lemma bounded_of_steps {A} (m : M A) n :
  steps (fun e => f e = false) m -> bounded f n m.
Proof.
  intros H s. destruct (H s) as [_ [d [Hd HP]]]. exists d. split; [easy|].
  rewrite count_none by easy. lia.
Qed.

Lemma bounded_le {A} (m : M A) n n' :
  (n <= n')%nat -> bounded f n m -> bounded f n' m.
Proof.
  intros Hle H s. destruct (H s) as [d [Hd Hc]]. exists d. split; [easy|lia].
Qed.

Lemma bounded_bind {A B} (m : M A) (k : A -> M B) n1 n2 :
  bounded f n1 m -> (forall a, bounded f n2 (k a)) ->
  bounded f (n1 + n2) (bind m k).
Proof.
  intros Hm Hk s. unfold bind. destruct (Hm s) as [d [Hd Hc]].
  destruct (m s) as [[a|e] s1]; cbn in *.
  - destruct (Hk a s1) as [d' [Hd' Hc']]. exists (d ++ d').
    rewrite Hd', Hd, app_assoc, count_app. split; [easy|lia].
  - exists d. split; [easy|lia].
Qed.

Lemma bounded_bind_l {A B} (m : M A) (k : A -> M B) n :
  bounded f n m -> (forall a, bounded f 0 (k a)) -> bounded f n (bind m k).
Proof.
  intros Hm Hk. eapply bounded_le; [|apply (bounded_bind m k n 0); eauto]. lia.
Qed.

Lemma bounded_bind_r {A B} (m : M A) (k : A -> M B) n :
  bounded f 0 m -> (forall a, bounded f n (k a)) -> bounded f n (bind m k).
Proof.
  intros Hm Hk. apply (bounded_bind m k 0 n); eauto.
Qed.

Lemma bounded_try {A} (body handler : M A) n1 n2 :
  bounded f n1 body -> bounded f n2 handler ->
  bounded f (n1 + n2) (try_except body handler).
Proof.
  intros Hm Hk s. unfold try_except. destruct (Hm s) as [d [Hd Hc]].
  destruct (body s) as [[a|e] s1]; cbn in *.
  - exists d. split; [easy|lia].
  - destruct (Hk s1) as [d' [Hd' Hc']]. exists (d ++ d').
    rewrite Hd', Hd, app_assoc, count_app. split; [easy|lia].
Qed.

Lemma bounded_ret {A} (a : A) n : bounded f n (ret a).
Proof. intros s. exists []. cbn. rewrite app_nil_r. split; [easy|]. cbn. lia. Qed.

Lemma bounded_raise {A} e n : bounded f n (@raise A e).
Proof. intros s. exists []. cbn. rewrite app_nil_r. split; [easy|]. cbn. lia. Qed.

End Bounded.

Section RestoreBounds.
Context (env : Env).

Lemma bounded_in_launched f e n : bounded f n (Restore.in_launched e).
Proof. intros s. exists []. cbn. rewrite app_nil_r. split; [easy|]. cbn. lia. Qed.

Lemma bounded_add_launched f e n : bounded f n (Restore.add_launched e).
Proof. intros s. exists []. cbn. rewrite app_nil_r. split; [easy|]. cbn. lia. Qed.

(** The part of [restore_window] that follows a successful lookup only
    places the window. *)
Lemma steps_placement (P : Event -> Prop) h (wi : WindowInfo) exe :
  (forall h c, P (EvShowWindow h c)) ->
  (forall h x y cx cy f, P (EvSetWindowPos h x y cx cy f)) ->
  (forall h, P (EvSetForegroundWindow h)) ->
  (forall k, P (EvSendKeys k)) ->
  P EvEnumWindows -> P (EvSleep 300) -> P (EvSleep 500) ->
  steps P
    (snapped <- Restore.apply_snap_layout env h
                  (dict_get (Info.snap_type wi) PNone) ;;
     (if negb snapped
      then Restore.position_window env h (dict_get (Info.x wi) 0)
             (dict_get (Info.y wi) 0) (dict_get (Info.width wi) 800)
             (dict_get (Info.height wi) 600)
             (dict_get (Info.state wi) (PStr "normal"))
             (dict_get (Info.monitor wi) 0) false
      else ret tt) ;;;
     (match dict_get (Info.tabs wi) [] with
      | [] => ret tt
      | _ => if Restore.RESTORE_BROWSER_TABS
             then Restore.restore_tabs env exe (dict_get (Info.tabs wi) [])
             else ret tt
      end) ;;;
     ret true).
Proof.
  intros. steps_auto;
    auto using steps_apply_snap_layout, steps_position_window,
               steps_restore_tabs.
Qed.

Lemma bounded_poll_for_window n e t h :
  bounded is_poll_sleep n (Restore.poll_for_window env n e t h).
Proof.
  revert h. induction n as [|n IH]; intros h; cbn [Restore.poll_for_window].
  - apply bounded_ret.
  - change (S n) with (1 + n)%nat. apply bounded_bind.
    + intros s. exists [EvSleep 1000]. split; [reflexivity|]. cbn. lia.
    + intros _. apply bounded_bind_r.
      * apply bounded_of_steps. now apply steps_find_best.
      * intros r. destruct (Restore.truthy_int r); [apply bounded_ret|apply IH].
Qed.

Lemma restore_window_polls_bounded wi :
  bounded is_poll_sleep 10 (Restore.restore_window env wi).
Proof.
  unfold Restore.restore_window.
  apply bounded_bind_r.
  { destruct (dict_get (Info.executable wi) _);
      [apply bounded_raise|apply bounded_raise|apply bounded_ret]. }
  intros exe.
  destruct (eq_str _ _); [apply bounded_ret|].
  destruct (_ && _); [apply bounded_ret|].
  destruct (bool_decide _).
  - apply bounded_bind_r; [apply bounded_of_steps; now apply steps_find_best|].
    intros hw.
    assert (Hnf : bounded is_poll_sleep 10
              (already <- Restore.in_launched exe ;;
               if already then ret true else
               pid <- Restore.launch_program env exe "" ;;
               if negb (Restore.truthy_int pid) then ret false else
               Restore.add_launched exe ;;; ret true)).
    { apply bounded_bind_r; [apply bounded_in_launched|]. intros [|];
        [apply bounded_ret|].
      apply bounded_bind_r;
        [apply bounded_of_steps; now apply steps_launch_program|].
      intros pid. destruct (negb _); [apply bounded_ret|].
      apply bounded_bind_r; [apply bounded_add_launched|].
      intros _. apply bounded_ret. }
    destruct hw as [h|]; [|exact Hnf].
    destruct (h =? 0); [exact Hnf|].
    apply bounded_of_steps.
    steps_auto; auto using steps_ShowWindow, steps_SetForegroundWindow.
  - apply bounded_bind_r; [apply bounded_of_steps; now apply steps_find_best|].
    intros hw. apply bounded_bind_l.
    + destruct (negb _); [|apply bounded_ret].
      apply bounded_bind_r;
        [apply bounded_of_steps; now apply steps_launch_program|].
      intros pid. destruct (negb _); [apply bounded_ret|].
      apply bounded_poll_for_window.
    + intros [h|]; [|apply bounded_ret].
      destruct (h =? 0); [apply bounded_ret|].
      apply bounded_of_steps. now apply steps_placement.
Qed.

End RestoreBounds.

(** ** Launching and polling (C5) *)

Lemma bind_run {A B} (m : M A) (k : A -> M B) s a s1 :
  m s = (Ok a, s1) -> bind m k s = k a s1.
Proof. intros H. unfold bind. now rewrite H. Qed.

Lemma find_best_run e t s :
  exists d,
    Restore.find_best e t s =
    (fst (Restore.find_best e t (observe (world s))),
     mkSt (world s) (trace s ++ d) (launched_session_apps s)) /\
    Forall (fun ev => ev = EvEnumWindows) d.
Proof.
  destruct (reads_find_best e t s) as [Hw Hf].
  destruct (steps_find_best (fun ev => ev = EvEnumWindows) e t eq_refl s)
    as [Hl [d [Hd HP]]].
  exists d. split; [|easy].
  rewrite (Hf (observe (world s)) eq_refl).
  destruct (Restore.find_best e t s) as [r [w tr l]]. cbn in *. congruence.
Qed.

Lemma count_enum_only f d :
  Forall (fun ev => ev = EvEnumWindows) d -> f EvEnumWindows = false ->
  count f d = 0%nat.
Proof.
  intros Hd Hf. apply count_none. induction Hd as [|e d -> _ IH]; auto.
Qed.

Section Launch.
Context (env : Env).

Lemma launch_program_run exe s :
  Restore.launch_program env exe "" s =
  let cmd := (dquote ++ exe ++ dquote)%string in
  match popen env cmd (world s) with
  | (Some p, w1) =>
      (Ok (Some (Z.pos p)),
       mkSt (elapse env 2000 w1)
            (trace s ++ [EvPopen cmd (Some (Z.pos p)); EvSleep 2000])
            (launched_session_apps s))
  | (None, w1) =>
      (Ok None, mkSt w1 (trace s ++ [EvPopen cmd None])
                     (launched_session_apps s))
  end.
Proof.
  unfold Restore.launch_program, try_except, bind, Popen, sleep, bind, query,
    emit, set_world, ret, raise. cbn.
  destruct (popen env _ (world s)) as [[p|] w1]; cbn; [|easy].
  now rewrite <- app_assoc.
Qed.

Lemma poll_never_appears e t : forall n h s,
  (forall k, (1 <= k <= n)%nat ->
     exists r,
       fst (Restore.find_best e t
              (observe (Nat.iter k (elapse env 1000) (world s)))) = Ok r /\
       Restore.truthy_int r = false) ->
  Restore.truthy_int h = false ->
  exists r' s' d,
    Restore.poll_for_window env n e t h s = (Ok r', s') /\
    Restore.truthy_int r' = false /\
    trace s' = trace s ++ d /\
    count is_poll_sleep d = n /\
    count is_popen d = 0%nat.
Proof.
  induction n as [|n IH]; intros h s Hnever Hh; cbn [Restore.poll_for_window].
  - exists h, s, []. rewrite app_nil_r. easy.
  - unfold bind at 1. unfold sleep at 1. unfold bind, emit, query, set_world.
    cbn [world trace launched_session_apps].
    set (s1 := mkSt _ _ _).
    destruct (find_best_run e t s1) as [d1 [Hrun Hd1]].
    destruct (Hnever 1%nat ltac:(lia)) as [r [Hr Hfalse]].
    cbn [Nat.iter nat_rect] in Hr.
    subst s1. cbn [world trace launched_session_apps] in Hrun.
    rewrite Hr in Hrun. rewrite Hrun, Hfalse.
    set (s2 := mkSt _ _ _).
    destruct (IH r s2) as [r' [s' [d [Hp [Hr' [Ht [Hc1 Hc2]]]]]]]; [|easy|].
    { intros k Hk. destruct (Hnever (S k) ltac:(lia)) as [r0 [H0 H0']].
      exists r0. split; [|easy]. subst s2. cbn [world].
      now rewrite Nat.iter_succ_r in H0. }
    exists r', s', ([EvSleep 1000] ++ d1 ++ d). split; [easy|]. split; [easy|].
    split.
    + rewrite Ht. subst s2. cbn [trace]. now rewrite <- !app_assoc.
    + rewrite !count_app, Hc1, Hc2.
      now rewrite (count_enum_only is_poll_sleep d1),
        (count_enum_only is_popen d1).
Qed.

End Launch.

(** C5: for a record that is neither minimized nor session-managed and has
    no live window, the executable is launched; the polling loop waits one
    second at most ten times; a failed launch reports failure without
    polling, and a window that never appears reports failure after exactly
    ten waits and one launch. *)
Theorem launch_then_poll_at_most_ten env wi exe s :
  dict_get (Info.executable wi) (PStr "") = PStr exe ->
  lower (last_component exe) ∉ Restore.SESSION_MANAGED_APPS ->
  eq_str (dict_get (Info.state wi) (PStr "normal")) "minimized" = false ->
  (exists r,
     fst (Restore.find_best exe (dict_get (Info.title wi) (PStr "")) s) = Ok r /\
     Restore.truthy_int r = false) ->
  let run := Restore.restore_window env wi s in
  let d := appended s (snd run) in
  let cmd := (dquote ++ exe ++ dquote)%string in
  In (EvPopen cmd (Z.pos <$> fst (popen env cmd (world s)))) d /\
  (count is_poll_sleep d <= 10)%nat /\
  (fst (popen env cmd (world s)) = None ->
   fst run = Ok false /\ count is_poll_sleep d = 0%nat) /\
  (forall p w1,
     popen env cmd (world s) = (Some p, w1) ->
     (forall k, (1 <= k <= 10)%nat ->
        exists r,
          fst (Restore.find_best exe (dict_get (Info.title wi) (PStr ""))
                 (observe (Nat.iter k (elapse env 1000)
                                    (elapse env 2000 w1)))) = Ok r /\
          Restore.truthy_int r = false) ->
     fst run = Ok false /\ count is_poll_sleep d = 10%nat /\
     count is_popen d = 1%nat).
Proof.
  intros He Hns Hst [r [Hr Hfalse]] run d cmd.
  destruct (restore_window_polls_bounded env wi s) as [d0 [Hd0 Hc0]].
  assert (Hd : d = d0) by (apply appended_app; exact Hd0).
  split; [|split; [rewrite Hd; exact Hc0|]].
  all: clear Hd Hd0 Hc0 d0; subst d.
  all: assert (ER : run = Restore.restore_window env wi s) by reflexivity;
    clearbody run.
  all: unfold Restore.restore_window in ER; rewrite He in ER;
    cbn [bind ret] in ER; unfold bind at 1 in ER; cbn [ret] in ER;
    rewrite Hst in ER; rewrite (bool_decide_eq_false_2 _ Hns) in ER;
    cbn [andb] in ER;
    destruct (find_best_run exe (dict_get (Info.title wi) (PStr "")) s)
      as [d1 [Hrun Hd1]];
    destruct (reads_find_best exe (dict_get (Info.title wi) (PStr "")) s)
      as [_ Hsame];
    rewrite (Hsame (observe (world s)) eq_refl), Hr in Hrun;
    rewrite (bind_run _ _ _ _ _ Hrun), Hfalse in ER; cbn [negb] in ER;
    unfold bind at 1 in ER; unfold bind at 1 in ER;
    rewrite launch_program_run in ER;
    cbn [world trace launched_session_apps] in ER; fold cmd in ER.
  - destruct (popen env cmd (world s)) as [[p|] w1];
      cbn [fst fmap option_fmap option_map].
    + cbn [Restore.truthy_int Z.eqb negb] in ER.
      set (s2 := mkSt _ _ _) in ER.
      pose proof (steps_poll_for_window env (fun _ => True) 10 exe
                    (dict_get (Info.title wi) (PStr "")) r I I s2)
        as [_ [d2 [Hd2 _]]].
      destruct (Restore.poll_for_window env 10 exe _ r s2) as [[hw|e] s3];
        cbn [snd] in *.
      * match type of ER with
        | run = ?K s3 =>
            assert (Hs : exists d3, trace (snd (K s3)) = trace s3 ++ d3)
        end.
        { destruct hw as [h|]; [|exists []; cbn; now rewrite app_nil_r].
          destruct (h =? 0); [exists []; cbn; now rewrite app_nil_r|].
          pose proof (steps_placement env (fun _ => True) h wi exe
                        ltac:(easy) ltac:(easy) ltac:(easy) ltac:(easy)
                        I I I s3) as [_ [d3 [Hd3 _]]].
          exists d3. exact Hd3. }
        destruct Hs as [d3 Hd3]. rewrite <- ER in Hd3.
        rewrite (appended_app _ _
                   (d1 ++ [EvPopen cmd (Some (Z.pos p)); EvSleep 2000]
                       ++ d2 ++ d3)).
        2:{ rewrite Hd3, Hd2. subst s2. cbn [trace].
            now rewrite <- !app_assoc. }
        apply in_or_app. right. left. reflexivity.
      * subst run. cbn [snd].
        rewrite (appended_app _ _
                   (d1 ++ [EvPopen cmd (Some (Z.pos p)); EvSleep 2000] ++ d2)).
        2:{ rewrite Hd2. subst s2. cbn [trace]. now rewrite <- !app_assoc. }
        apply in_or_app. right. left. reflexivity.
    + subst run. cbn [Restore.truthy_int negb ret snd].
      rewrite (appended_app _ _ (d1 ++ [EvPopen cmd None]))
        by (cbn [trace]; now rewrite <- app_assoc).
      apply in_or_app. right. left. reflexivity.
  - split.
    + intros Hnone. destruct (popen env cmd (world s)) as [[p|] w1];
        cbn in Hnone; [easy|]. subst run.
      cbn [Restore.truthy_int negb ret fst snd].
      split; [easy|].
      rewrite (appended_app _ _ (d1 ++ [EvPopen cmd None]))
        by (cbn [trace]; now rewrite <- app_assoc).
      rewrite count_app. now rewrite (count_enum_only is_poll_sleep d1).
    + intros p w1 Hp Hnever. rewrite Hp in ER.
      cbn [Restore.truthy_int Z.eqb negb] in ER.
      set (s2 := mkSt _ _ _) in ER.
      destruct (poll_never_appears env exe (dict_get (Info.title wi) (PStr ""))
                  10 r s2 Hnever Hfalse)
        as [r' [s' [d2 [Hpoll [Hr' [Ht [Hc1 Hc2]]]]]]].
      rewrite Hpoll in ER.
      assert (Hend : forall K : Z -> M bool,
                match r' return M bool with
                | Some h => if h =? 0 then ret false else K h
                | None => ret false
                end s' = (Ok false, s')).
      { intros K. destruct r' as [h|]; [|easy]. cbn in Hr'.
        destruct (h =? 0); [easy|discriminate]. }
      rewrite Hend in ER. subst run. cbn [fst snd].
      rewrite (appended_app _ _
                 (d1 ++ [EvPopen cmd (Some (Z.pos p)); EvSleep 2000] ++ d2)).
      2:{ rewrite Ht. subst s2. cbn [trace]. now rewrite <- !app_assoc. }
      rewrite !count_app, Hc1, Hc2.
      now rewrite (count_enum_only is_poll_sleep d1),
        (count_enum_only is_popen d1).
Qed.


Lemma launch_then_poll_at_most_ten_witness :
  let run := Restore.restore_window env_silent
               (record "C:\Apps\calc.exe" "Calculator" "normal")
               (start desktop) in
  fst run = Ok false /\
  count is_poll_sleep (appended (start desktop) (snd run)) = 10%nat /\
  count is_popen (appended (start desktop) (snd run)) = 1%nat.
Proof.
  assert (Hns : lower (last_component "C:\Apps\calc.exe")
                ∉ Restore.SESSION_MANAGED_APPS).
  { intros H. vm_compute in H. discriminate H. }
  assert (Hlive : exists r,
            fst (Restore.find_best "C:\Apps\calc.exe"
                   (dict_get (Info.title
                      (record "C:\Apps\calc.exe" "Calculator" "normal"))
                      (PStr "")) (start desktop)) = Ok r /\
            Restore.truthy_int r = false).
  { exists None. split; vm_compute; reflexivity. }
  destruct (launch_then_poll_at_most_ten env_silent
              (record "C:\Apps\calc.exe" "Calculator" "normal")
              "C:\Apps\calc.exe" (start desktop)
              eq_refl Hns eq_refl Hlive) as [_ [_ [_ H]]].
  apply (H 4242%positive desktop eq_refl).
  intros k _. exists None.
  assert (Hk : Nat.iter k (elapse env_silent 1000)
                 (elapse env_silent 2000 desktop) = desktop).
  { induction k as [|k IH]; [reflexivity|].
    rewrite Nat.iter_succ. exact IH. }
  rewrite Hk. split; vm_compute; reflexivity.
Defined.

(** ** One launch per run (C9) *)

Lemma append_length a b :
  String.length (a ++ b)%string = (String.length a + String.length b)%nat.
Proof.
  induction a as [|c a IH]; [reflexivity|].
  change (S (String.length (a ++ b)%string)
          = S (String.length a + String.length b)).
  now rewrite IH.
Qed.

Lemma append_inj_r a b s : (a ++ s)%string = (b ++ s)%string -> a = b.
Proof.
  revert b. induction a as [|c a IH]; intros [|c' b] H.
  - easy.
  - apply (f_equal String.length) in H. rewrite !append_length in H.
    cbn [String.length] in H. lia.
  - apply (f_equal String.length) in H. rewrite !append_length in H.
    cbn [String.length] in H. lia.
  - change (String c (a ++ s) = String c' (b ++ s))%string in H.
    injection H as -> H. f_equal. now apply IH.
Qed.

Lemma quoted_inj a b :
  (dquote ++ a ++ dquote)%string = (dquote ++ b ++ dquote)%string -> a = b.
Proof.
  intros H.
  change (String (ascii_of_nat 34) (a ++ dquote)
          = String (ascii_of_nat 34) (b ++ dquote))%string in H.
  injection H as H. now apply append_inj_r in H.
Qed.

Lemma is_launch_of_other e exe pid :
  exe <> e -> is_launch_of e (EvPopen (dquote ++ exe ++ dquote) pid) = false.
Proof.
  intros Hne. destruct pid; [|easy]. cbn [is_launch_of].
  apply String.eqb_neq. intros H. apply quoted_inj in H. congruence.
Qed.

Section Once.
Context (env : Env) (e : string).
Hypothesis e_managed : lower (last_component e) ∈ Restore.SESSION_MANAGED_APPS.

Local Abbreviation P := (fun ev : Event => is_launch_of e ev = false).

Lemma steps_launch_other exe :
  exe <> e -> steps P (Restore.launch_program env exe "").
Proof.
  intros Hne s. rewrite launch_program_run. cbv zeta.
  destruct (popen env _ (world s)) as [[p|] w1];
    cbn [snd launched_session_apps trace]; (split; [reflexivity|]).
  - eexists. split; [reflexivity|].
    constructor; [now apply is_launch_of_other|].
    constructor; [reflexivity|constructor].
  - eexists. split; [reflexivity|].
    constructor; [now apply is_launch_of_other|constructor].
Qed.

Lemma launch_step_of_steps {A} (m : M A) s :
  steps P m -> launch_step e s (snd (m s)).
Proof.
  intros H. destruct (H s) as [Hl [d [Hd HP]]]. exists d.
  split; [easy|]. split; [now rewrite Hl|]. left. now apply count_none.
Qed.

Lemma launch_step_refl s : launch_step e s s.
Proof.
  exists []. rewrite app_nil_r. split; [easy|]. split; [easy|]. now left.
Qed.

Lemma launch_step_trans s1 s2 s3 :
  launch_step e s1 s2 -> launch_step e s2 s3 -> launch_step e s1 s3.
Proof.
  intros [d1 [Ht1 [Hs1 Hc1]]] [d2 [Ht2 [Hs2 Hc2]]].
  exists (d1 ++ d2). rewrite Ht2, Ht1, app_assoc, count_app.
  split; [easy|]. split; [now transitivity (launched_session_apps s2)|].
  destruct Hc1 as [Hc1|[Hc1 [Hn1 Hi1]]], Hc2 as [Hc2|[Hc2 [Hn2 Hi2]]];
    rewrite Hc1, Hc2.
  - now left.
  - right. split; [easy|]. split; [|easy].
    intros Hin. apply Hn2. now apply Hs1.
  - right. split; [easy|]. split; [easy|]. now apply Hs2.
  - contradiction.
Qed.

Lemma session_not_found_step exe s :
  launch_step e s
    (snd ((already <- Restore.in_launched exe ;;
           if already then ret true else
           pid <- Restore.launch_program env exe "" ;;
           if negb (Restore.truthy_int pid) then ret false else
           Restore.add_launched exe ;;; ret true) s)).
Proof.
  unfold bind at 1. unfold Restore.in_launched at 1.
  destruct (bool_decide (exe ∈ launched_session_apps s)) eqn:Hin;
    [apply launch_step_refl|].
  apply bool_decide_eq_false in Hin.
  unfold bind at 1. rewrite launch_program_run. cbv zeta.
  destruct (popen env _ (world s)) as [[p|] w1].
  - cbn. eexists. split; [reflexivity|].
    split; [apply union_subseteq_r|].
    unfold count. cbn [List.filter is_launch_of].
    destruct (String.eqb _ _) eqn:E; cbn; [|now left].
    apply String.eqb_eq, quoted_inj in E. subst exe.
    right. split; [easy|]. split; [easy|].
    apply elem_of_union_l. now apply elem_of_singleton.
  - cbn. eexists. split; [reflexivity|]. split; [easy|]. now left.
Qed.

Lemma restore_window_launch_step wi s :
  launch_step e s (snd (Restore.restore_window env wi s)).
Proof.
  unfold Restore.restore_window.
  destruct (dict_get (Info.executable wi) (PStr "")) as [| |exe];
    try apply launch_step_refl.
  cbn [bind ret]. unfold bind at 1. cbn [ret].
  destruct (eq_str _ _); [apply launch_step_refl|].
  destruct (bool_decide (lower (last_component exe) ∈ _)) eqn:Hm;
    cbn [andb negb Restore.RESTORE_SESSION_MANAGED_APPS].
  - unfold bind at 1.
    pose proof (launch_step_of_steps
                  (Restore.find_best exe (dict_get (Info.title wi) (PStr ""))) s
                  (steps_find_best P exe _ eq_refl)) as Hfind.
    destruct (Restore.find_best exe _ s) as [[hw|err] s1]; cbn [snd] in *;
      [|exact Hfind].
    eapply launch_step_trans; [exact Hfind|].
    destruct hw as [h|]; [|apply session_not_found_step].
    destruct (h =? 0); [apply session_not_found_step|].
    apply launch_step_of_steps.
    steps_auto; apply steps_ShowWindow || apply steps_SetForegroundWindow;
      reflexivity.
  - apply bool_decide_eq_false in Hm.
    assert (Hne : exe <> e) by (intros ->; contradiction).
    apply launch_step_of_steps.
    steps_auto;
      first [ apply steps_find_best; reflexivity
            | apply steps_launch_other; exact Hne
            | apply steps_poll_for_window; reflexivity
            | apply steps_apply_snap_layout; intros; reflexivity
            | apply steps_position_window; intros; reflexivity
            | apply steps_restore_tabs; intros; reflexivity ].
Qed.

Lemma run_each_launch_step ws : forall s, launch_step e s (run_each env ws s).
Proof.
  induction ws as [|wi rest IH]; intros s; cbn [run_each fold_left].
  - apply launch_step_refl.
  - eapply launch_step_trans; [apply restore_window_launch_step|apply IH].
Qed.

End Once.

(** C9: in one [restore_windows] run a session-managed executable path is
    started successfully at most once; and once the path is in the launched
    set, a further record for it is handled ([True]) without any [Popen]. *)
Theorem session_app_launched_at_most_once env e :
  lower (last_component e) ∈ Restore.SESSION_MANAGED_APPS ->
  (forall ws s,
     (count (is_launch_of e)
        (appended s (snd (Restore.restore_windows env ws s))) <= 1)%nat) /\
  (forall wi s,
     dict_get (Info.executable wi) (PStr "") = PStr e ->
     e ∈ launched_session_apps s ->
     (exists r, fst (Restore.find_best e (dict_get (Info.title wi) (PStr "")) s)
                = Ok r) ->
     fst (Restore.restore_window env wi s) = Ok true /\
     count is_popen (appended s (snd (Restore.restore_window env wi s)))
       = 0%nat).
Proof.
  intros He. split.
  - intros ws s. rewrite restore_windows_spec. cbn [snd].
    destruct (run_each_launch_step env e He ws (fresh_run s))
      as [d [Hd [_ Hc]]].
    rewrite (appended_app _ _ d) by exact Hd.
    destruct Hc as [->|[-> _]]; lia.
  - intros wi s Hexe Hin [r Hr].
    remember (Restore.restore_window env wi s) as run eqn:ER.
    unfold Restore.restore_window in ER. rewrite Hexe in ER.
    cbn [bind ret] in ER. unfold bind at 1 in ER. cbn [ret] in ER.
    destruct (eq_str _ _).
    { subst run. cbn. unfold appended. now rewrite drop_all. }
    rewrite (bool_decide_eq_true_2 _ He) in ER.
    cbn [andb negb Restore.RESTORE_SESSION_MANAGED_APPS] in ER.
    destruct (find_best_run e (dict_get (Info.title wi) (PStr "")) s)
      as [d1 [Hrun Hd1]].
    destruct (reads_find_best e (dict_get (Info.title wi) (PStr "")) s)
      as [_ Hsame].
    rewrite (Hsame (observe (world s)) eq_refl), Hr in Hrun.
    rewrite Hrun in ER.
    set (s1 := mkSt _ _ _) in ER.
    assert (Hnf : forall m : M bool,
              (already <- Restore.in_launched e ;;
               if already then ret true else m) s1 = (Ok true, s1)).
    { intros m. unfold bind, Restore.in_launched. subst s1.
      cbn [launched_session_apps]. now rewrite (bool_decide_eq_true_2 _ Hin). }
    assert (Hs1 : count is_popen (appended s s1) = 0%nat).
    { rewrite (appended_app _ _ d1) by reflexivity.
      now apply count_enum_only. }
    destruct r as [h|]; [|rewrite Hnf in ER; now subst run].
    destruct (h =? 0); [rewrite Hnf in ER; now subst run|].
    unfold bind, try_except, ret in ER. rewrite ShowWindow_run in ER.
    destruct (lookup_window (world s1) h) as [x|] eqn:Hl.
    + rewrite SetForegroundWindow_run in ER.
      cbn [world trace launched_session_apps] in ER.
      rewrite lookup_update_window in ER by easy. rewrite Hl in ER.
      cbn [fmap option_fmap option_map] in ER.
      subst run. cbn [fst snd]. split; [easy|].
      rewrite (appended_app _ _ (d1 ++ [EvShowWindow h SW_RESTORE;
                                        EvSetForegroundWindow h]))
        by (subst s1; cbn [trace]; now rewrite <- !app_assoc).
      rewrite count_app. now rewrite (count_enum_only is_popen d1).
    + subst run. cbn [fst snd]. split; [easy|].
      rewrite (appended_app _ _ (d1 ++ [EvShowWindow h SW_RESTORE]))
        by (subst s1; cbn [trace]; now rewrite <- !app_assoc).
      rewrite count_app. now rewrite (count_enum_only is_popen d1).
Qed.

Lemma session_app_launched_at_most_once_witness :
  (count (is_launch_of "C:\Apps\firefox.exe")
     (appended (start desktop)
        (snd (Restore.restore_windows env_silent two_firefox
                (start desktop)))) <= 1)%nat.
Proof.
  assert (H : lower (last_component "C:\Apps\firefox.exe")
              ∈ Restore.SESSION_MANAGED_APPS) by (vm_compute; reflexivity).
  apply (proj1 (session_app_launched_at_most_once env_silent
                  "C:\Apps\firefox.exe" H)).
Defined.

(** The trace of the run over two records of a browser that never shows a
    window: one [Popen]. *)
Example second_browser_record_does_not_launch :
  trace (snd (Restore.restore_windows env_silent two_firefox
                (start desktop)))
  = [EvEnumWindows; EvEnumWindows;
     EvPopen (dquote ++ "C:\Apps\firefox.exe" ++ dquote)%string (Some 4242);
     EvSleep 2000; EvEnumWindows; EvEnumWindows].
Proof. vm_compute. reflexivity. Qed.

(** ** Capture (C8) *)

Lemma qbind_ok {A B} (m : Q A) (k : A -> Q B) w b :
  qbind m k w = Ok b -> exists a, m w = Ok a /\ k a w = Ok b.
Proof. unfold qbind. destruct (m w) as [a|e]; [eauto|discriminate]. Qed.

Lemma qtry_ok {A} (body handler : Q A) w b :
  qtry body handler w = Ok b ->
  body w = Ok b \/ exists e, body w = Raise e /\ handler w = Ok b.
Proof. unfold qtry. destruct (body w) as [a|e]; eauto. Qed.

Lemma qtry_total {A} (body : Q A) (a : A) w :
  exists b, qtry body (qret a) w = Ok b.
Proof. unfold qtry, qret. destruct (body w); eauto. Qed.

Section CaptureFacts.
Context (env : Env).

Lemma detect_snap_type_minimized h r w :
  Capture.detect_snap_type env h r "minimized" w = Ok None.
Proof. reflexivity. Qed.

Lemma get_window_info_total h it im w :
  exists o, Capture.get_window_info env h it im w = Ok o.
Proof.
  unfold Capture.get_window_info, qbind.
  destruct (qtry_total
              (vis <~ IsWindowVisible h ;;
               if negb vis then qret false else
               title <~ Capture.get_window_title h ;;
               if String.eqb title "" then qret false else
               if existsb (fun excluded => str_in (lower excluded) (lower title))
                          Capture.EXCLUDED_TITLES then qret false else
               proc_name <~ Capture.get_process_name h ;;
               if match proc_name with
                  | Some n => negb (String.eqb n "")
                              && existsb (String.eqb n) Capture.EXCLUDED_PROCESSES
                  | None => false
                  end then qret false else
               style <~ GetWindowLong_style h ;;
               exstyle <~ GetWindowLong_exstyle h ;;
               if negb (Z.land exstyle WS_EX_TOOLWINDOW =? 0) then qret false else
               if Z.land style WS_CAPTION =? 0 then qret false else
               qret true) false w) as [vis Hvis].
  change (Capture.is_visible_window h w = Ok vis) in Hvis. rewrite Hvis.
  destruct (negb vis); [eexists; reflexivity|].
  apply qtry_total.
Qed.

Lemma get_window_info_minimized h it im w i :
  Capture.get_window_info env h it im w = Ok (Some i) ->
  Info.state i = Some (PStr "minimized") ->
  Info.snap_type i = None.
Proof.
  intros H Hs. unfold Capture.get_window_info in H.
  apply qbind_ok in H as [vis [_ H]].
  destruct (negb vis); [discriminate|].
  apply qtry_ok in H as [H|[e [_ H]]]; [|discriminate].
  apply qbind_ok in H as [rect [_ H]].
  destruct rect as [[[[r0 r1] r2] r3]|]; [|discriminate].
  apply qbind_ok in H as [exe [_ H]].
  destruct exe as [exe|]; [|discriminate].
  destruct (String.eqb exe ""); [discriminate|].
  apply qbind_ok in H as [title [_ H]].
  apply qbind_ok in H as [state [_ H]].
  destruct (_ && _); [discriminate|].
  apply qbind_ok in H as [monitor [_ H]].
  apply qbind_ok in H as [snap [Hsnap H]].
  destruct (Capture._is_own_utility_window exe title); [discriminate|].
  injection H as <-. cbn in Hs |- *. injection Hs as ->.
  rewrite detect_snap_type_minimized in Hsnap. now injection Hsnap as <-.
Qed.

Lemma capture_each_minimized it im handles w :
  exists infos,
    Capture.capture_each env it im handles w = Ok infos /\
    Forall (fun i => Info.state i = Some (PStr "minimized") ->
                     Info.snap_type i = None) infos.
Proof.
  induction handles as [|h rest [infos [IH HF]]]; cbn [Capture.capture_each].
  - exists []. split; [reflexivity|constructor].
  - unfold qbind. destruct (get_window_info_total h it im w) as [o Ho].
    rewrite Ho, IH. destruct o as [i|]; eexists; (split; [reflexivity|]).
    + constructor; [|exact HF]. now apply (get_window_info_minimized h it im w).
    + exact HF.
Qed.

End CaptureFacts.

(** C8: [capture_windows] returns (it never raises), and no record it
    returns has state minimized together with a snap type. *)
Theorem captured_minimized_has_no_snap_type env include_tabs include_minimized s :
  exists infos,
    fst (Capture.capture_windows env include_tabs include_minimized s)
      = Ok infos /\
    Forall (fun i => Info.state i = Some (PStr "minimized") ->
                     Info.snap_type i = None) infos.
Proof.
  unfold Capture.capture_windows, try_except, bind, EnumWindows, bind, emit,
    query. cbn [world].
  destruct (capture_each_minimized env include_tabs include_minimized
              (map hwnd (windows (world s))) (world s)) as [infos [H HF]].
  rewrite H. exists infos. split; [reflexivity|exact HF].
Qed.

(** With [include_minimized] set, the minimized editor is captured, without
    a snap type. *)
Example capture_keeps_minimized_editor :
  exists a b c,
    fst (Capture.capture_windows env_silent false true (start desktop))
      = Ok [a; b; c] /\
    Info.state c = Some (PStr "minimized") /\ Info.snap_type c = None.
Proof. do 3 eexists. vm_compute. repeat split. Qed.

(** ** Placement (C10) *)

Lemma gather_work_areas_from w : forall l a,
  (forall i, l !! i = monitors w !! (a + i)%nat) ->
  Restore.gather_work_areas (seq a (length l)) w
  = Ok (omap (fun m : option MonitorInfo => mon_work <$> m) l).
Proof.
  induction l as [|m l IH]; intros a Hl; [reflexivity|].
  cbn [length seq Restore.gather_work_areas]. unfold qbind at 1.
  assert (Hm : monitors w !! a = Some m).
  { specialize (Hl 0%nat). rewrite Nat.add_0_r in Hl. now rewrite <- Hl. }
  unfold qtry, qbind, GetMonitorInfo, qret. rewrite Hm.
  rewrite (IH (S a)).
  - now destruct m.
  - intros i. specialize (Hl (S i)).
    change ((m :: l) !! S i) with (l !! i) in Hl.
    rewrite Hl. f_equal. lia.
Qed.

Lemma gather_work_areas_spec w :
  Restore.gather_work_areas (seq 0 (length (monitors w))) w
  = Ok (work_areas_of w).
Proof. apply gather_work_areas_from. now intros i. Qed.

Lemma clamp_min_size x y width height monitor w p :
  work_areas_of w <> [] ->
  Restore.clamp_to_work_areas x y width height monitor w = Ok p ->
  (let '(_, _, cx, cy) := p in 320 <= cx /\ 220 <= cy) /\
  (existsb (Restore.intersects
              (x, y, x + Z.max 320 width, y + Z.max 220 height))
           (work_areas_of w) = true ->
   p = (x, y, Z.max 320 width, Z.max 220 height)).
Proof.
  intros Hne. unfold Restore.clamp_to_work_areas, qbind, EnumDisplayMonitors.
  rewrite gather_work_areas_spec.
  destruct (work_areas_of w) as [|wa was] eqn:Hwa; [easy|].
  destruct (existsb _ (wa :: was)) eqn:Hi; cbn [negb].
  - intros H. injection H as <-. split; [lia|easy].
  - destruct (qlift _ _ w) as [hm|]; [|discriminate].
    destruct (GetMonitorInfo hm w) as [info|]; [|discriminate].
    destruct (mon_work info) as [[[wx1 wy1] wx2] wy2].
    intros H. injection H as <-. split; [lia|discriminate].
Qed.

Section Position.
Context (env : Env).

Lemma position_window_place hwnd x y width height state monitor activate s :
  snd (Restore.position_window env hwnd x y width height state monitor
         activate s) =
  match Restore.clamp_to_work_areas x y width height monitor (world s) with
  | Ok (x', y', w', h') => snd (place env hwnd x' y' w' h' state activate s)
  | Raise _ => s
  end.
Proof.
  unfold Restore.position_window. unfold try_except at 1. unfold bind at 1.
  unfold query.
  destruct (Restore.clamp_to_work_areas _ _ _ _ _ (world s))
    as [[[[x' y'] w'] h']|err]; [|reflexivity].
  change (snd (let (r, s') := place env hwnd x' y' w' h' state activate s in
               match r with
               | Ok a => (Ok a, s')
               | Raise _ => ret tt s'
               end)
          = snd (place env hwnd x' y' w' h' state activate s)).
  now destruct (place env hwnd x' y' w' h' state activate s) as [[[]|e] s'].
Qed.

Lemma steps_place (P : Event -> Prop) hwnd x y cx cy state activate :
  (forall h c, P (EvShowWindow h c)) ->
  (forall f, P (EvSetWindowPos hwnd x y cx cy f)) ->
  (forall h, P (EvSetForegroundWindow h)) -> P (EvSleep 500) ->
  steps P (place env hwnd x y cx cy state activate).
Proof.
  intros. unfold place. steps_auto;
    auto using steps_ShowWindow, steps_SetWindowPos, steps_sleep,
               steps_SetForegroundWindow.
Qed.

Lemma place_sets_position hwnd x y cx cy state activate s :
  lookup_window (world s) hwnd <> None ->
  In (EvSetWindowPos hwnd x y cx cy
        (if negb activate then Z.lor SWP_NOZORDER SWP_NOACTIVATE
         else SWP_NOZORDER))
     (appended s (snd (place env hwnd x y cx cy state activate s))).
Proof.
  intros Hl. unfold place. cbv zeta.
  set (flags := if negb activate then _ else _).
  set (rest := if eq_str state "maximized" then _ else _).
  assert (Hshow : exists s1 d1,
            (if eq_str state "minimized"
             then ShowWindow env hwnd SW_RESTORE ;;; sleep env 500
             else ShowWindow env hwnd SW_RESTORE) s = (Ok tt, s1) /\
            trace s1 = trace s ++ d1).
  { destruct (eq_str state "minimized").
    - unfold bind. rewrite ShowWindow_run.
      destruct (lookup_window (world s) hwnd); [|easy].
      eexists _, [_; _]. split; [reflexivity|]. cbn.
      now rewrite <- app_assoc.
    - rewrite ShowWindow_run.
      destruct (lookup_window (world s) hwnd); [|easy].
      eexists _, [_]. split; reflexivity. }
  destruct Hshow as [s1 [d1 [Hshow Hd1]]].
  rewrite (bind_run _ _ _ _ _ Hshow).
  unfold bind. rewrite SetWindowPos_run.
  assert (Hrest : forall s2, exists d, trace (snd (rest s2)) = trace s2 ++ d).
  { intros s2. subst rest.
    assert (Hst : steps (fun _ => True)
              (if eq_str state "maximized" then ShowWindow env hwnd SW_MAXIMIZE
               else if eq_str state "minimized"
                    then ShowWindow env hwnd SW_MINIMIZE
                    else if activate
                         then try_except (SetForegroundWindow hwnd) (ret tt)
                         else ret tt)).
    { steps_auto; auto using steps_ShowWindow, steps_SetForegroundWindow. }
    destruct (Hst s2) as [_ [d [Hd _]]]. eauto. }
  destruct (lookup_window (world s1) hwnd).
  - match goal with |- context [rest ?s2] =>
      destruct (Hrest s2) as [d3 Hd3] end.
    rewrite (appended_app _ _
               (d1 ++ [EvSetWindowPos hwnd x y cx cy flags] ++ d3)).
    + apply in_or_app. right. now left.
    + rewrite Hd3. cbn [trace]. rewrite Hd1. now rewrite <- !app_assoc.
  - cbn [snd].
    rewrite (appended_app _ _ (d1 ++ [EvSetWindowPos hwnd x y cx cy flags])).
    + apply in_or_app. right. now left.
    + cbn [trace]. rewrite Hd1. now rewrite <- !app_assoc.
Qed.

End Position.

(** C10: when some work area is available, every [SetWindowPos] that
    [position_window] issues asks for at least 320 by 220; and when the
    enlarged rectangle already intersects a work area, the call keeps the
    saved position and asks for [max(320, width)] by [max(220, height)]. *)
Theorem position_window_enforces_minimum_size
  env hwnd x y width height state monitor activate s :
  work_areas_of (world s) <> [] ->
  let s' := snd (Restore.position_window env hwnd x y width height state
                   monitor activate s) in
  Forall has_min_size (appended s s') /\
  (existsb (Restore.intersects
              (x, y, x + Z.max 320 width, y + Z.max 220 height))
           (work_areas_of (world s)) = true ->
   lookup_window (world s) hwnd <> None ->
   In (EvSetWindowPos hwnd x y (Z.max 320 width) (Z.max 220 height)
         (if negb activate then Z.lor SWP_NOZORDER SWP_NOACTIVATE
          else SWP_NOZORDER))
      (appended s s')).
Proof.
  intros Hwa s'. subst s'. rewrite position_window_place.
  destruct (Restore.clamp_to_work_areas _ _ _ _ _ (world s))
    as [[[[x' y'] w'] h']|err] eqn:Hc.
  - destruct (clamp_min_size _ _ _ _ _ _ _ Hwa Hc) as [Hmin Hsame].
    split.
    + destruct (steps_place env has_min_size hwnd x' y' w' h' state activate
                  ltac:(easy) ltac:(intros; exact Hmin) ltac:(easy) I s)
        as [_ [d [Hd HP]]].
      now rewrite (appended_app _ _ d).
    + intros Hi Hl. specialize (Hsame Hi). injection Hsame as -> -> -> ->.
      now apply place_sets_position.
  - split.
    + unfold appended. rewrite drop_all. constructor.
    + intros Hi _. exfalso. revert Hc.
      unfold Restore.clamp_to_work_areas, qbind, EnumDisplayMonitors.
      rewrite gather_work_areas_spec.
      destruct (work_areas_of (world s)); [easy|].
      now rewrite Hi.
Qed.

Lemma position_window_enforces_minimum_size_witness :
  let s' := snd (Restore.position_window env_silent 12 40 60 200 100
                   (PStr "normal") 0 false (start desktop)) in
  Forall has_min_size (appended (start desktop) s') /\
  In (EvSetWindowPos 12 40 60 320 220 (Z.lor SWP_NOZORDER SWP_NOACTIVATE))
     (appended (start desktop) s').
Proof.
  assert (Hwa : work_areas_of (world (start desktop)) <> []) by easy.
  destruct (position_window_enforces_minimum_size env_silent 12 40 60 200 100
              (PStr "normal") 0 false (start desktop) Hwa) as [H1 H2].
  split; [exact H1|]. apply H2; [reflexivity|easy].
Defined.

(** ** The matcher (C2) *)

Lemma head_insert_desc {A} (key : A -> Z) x l :
  head (insert_desc key x l) =
  match head l with
  | Some y => if key x <? key y then Some y else Some x
  | None => Some x
  end.
Proof. destruct l as [|y r]; cbn; [easy|]. now destruct (key x <? key y). Qed.

Lemma head_sorted_desc {A} (key : A -> Z) l :
  head (sorted_desc key l) = first_max key l.
Proof.
  induction l as [|x r IH]; [reflexivity|].
  cbn [sorted_desc foldr first_max]. rewrite head_insert_desc.
  fold (sorted_desc key r). now rewrite IH.
Qed.

Lemma first_max_spec {A} (key : A -> Z) l m :
  first_max key l = Some m ->
  exists pre post,
    l = pre ++ m :: post /\
    Forall (fun y => key y < key m) pre /\
    Forall (fun y => key y <= key m) post.
Proof.
  revert m. induction l as [|x r IH]; intros m; cbn [first_max]; [easy|].
  destruct (first_max key r) as [m'|] eqn:E.
  - destruct (IH m' eq_refl) as [pre [post [-> [Hpre Hpost]]]].
    destruct (key x <? key m') eqn:Hlt; intros H; injection H as <-.
    + apply Z.ltb_lt in Hlt. exists (x :: pre), post.
      split; [reflexivity|]. split; [constructor; auto|exact Hpost].
    + apply Z.ltb_ge in Hlt. exists [], (pre ++ m' :: post).
      split; [reflexivity|]. split; [constructor|].
      apply Forall_app. split.
      * eapply Forall_impl; [exact Hpre|]. cbn. intros; lia.
      * constructor; [lia|].
        eapply Forall_impl; [exact Hpost|]. cbn. intros; lia.
  - intros H; injection H as <-.
    destruct r as [|y r'].
    + exists [], []. repeat split; constructor.
    + exfalso. cbn [first_max] in E.
      destruct (first_max key r'); [destruct (key y <? key a)|];
        discriminate.
Qed.

Lemma str_in_empty s : str_in "" s = true.
Proof. now destruct s. Qed.

Lemma lookup_window_in w x :
  NoDup (map hwnd (windows w)) -> In x (windows w) ->
  lookup_window w (hwnd x) = Some x.
Proof.
  unfold lookup_window. induction (windows w) as [|y r IH]; cbn; [easy|].
  intros Hnd [->|Hin].
  - now rewrite Z.eqb_refl.
  - apply NoDup_cons in Hnd as [Hy Hnd].
    destruct (hwnd y =? hwnd x) eqn:E; [|auto].
    apply Z.eqb_eq in E. exfalso. apply Hy. rewrite E.
    apply list_elem_of_In. now apply in_map.
Qed.

Section Matcher.
Context (w : World) (executable t : string).

Lemma callback_by_executable_eval x :
  lookup_window w (hwnd x) = Some x ->
  Restore.callback_by_executable (lower (last_component executable)) (PStr t)
    (hwnd x) w
  = Ok (candidate executable x && title_matches t x).
Proof.
  intros Hl.
  cbv [Restore.callback_by_executable qtry qbind IsWindowVisible
       GetWindowText process_name window qret qlift qraise candidate
       title_matches Restore.lower_of truthy].
  rewrite Hl. cbv beta iota.
  destruct (visible x); [|reflexivity]. cbn [negb andb]. rewrite Hl.
  cbv beta iota.
  destruct (String.eqb (text x) ""); [reflexivity|]. cbn [negb andb].
  rewrite Hl. cbv beta iota.
  destruct (proc_name x) as [n|]; [|reflexivity]. cbv beta iota.
  destruct (String.eqb (lower n) _); [|reflexivity]. cbn [andb].
  destruct (String.eqb t "") eqn:Et; cbn [negb].
  - apply String.eqb_eq in Et. subst t.
    change (lower "") with "". now rewrite str_in_empty.
  - now destruct (str_in _ _).
Qed.

Lemma callback_all_eval x :
  lookup_window w (hwnd x) = Some x ->
  Restore.callback_all (lower (last_component executable)) (hwnd x) w
  = Ok (candidate executable x).
Proof.
  intros Hl.
  cbv [Restore.callback_all qtry qbind IsWindowVisible
       GetWindowText process_name window qret qlift qraise candidate].
  rewrite Hl. cbv beta iota.
  destruct (visible x); [|reflexivity]. cbn [negb andb]. rewrite Hl.
  cbv beta iota.
  destruct (String.eqb (text x) ""); [reflexivity|]. cbn [negb andb].
  rewrite Hl. cbv beta iota.
  now destruct (proc_name x) as [n|].
Qed.

Lemma collect_eval (cb : Z -> Q bool) (f : Window -> bool) l :
  (forall x, In x l -> cb (hwnd x) w = Ok (f x)) ->
  Restore.collect cb (map hwnd l) w = Ok (map hwnd (List.filter f l)).
Proof.
  induction l as [|x r IH]; intros H; [reflexivity|].
  cbn [map Restore.collect List.filter]. unfold qbind.
  rewrite (H x (or_introl eq_refl)), IH by (intros; apply H; now right).
  now destruct (f x).
Qed.

Lemma first_containing_none l :
  (forall x, In x l -> lookup_window w (hwnd x) = Some x) ->
  (forall x, In x l -> title_matches t x = false) ->
  Restore.first_containing (lower t) (map hwnd l) w = Ok None.
Proof.
  induction l as [|x r IH]; intros Hl Hm; [reflexivity|].
  cbn [map Restore.first_containing].
  cbv [qbind qtry GetWindowText window qret].
  rewrite (Hl x (or_introl eq_refl)). cbv beta iota.
  unfold title_matches in Hm. rewrite (Hm x (or_introl eq_refl)).
  apply IH; intros; [apply Hl|apply Hm]; now right.
Qed.

End Matcher.

Lemma head_filter_find {A} (f : A -> bool) (g : A -> Z) l :
  head (map g (List.filter f l)) = g <$> List.find f l.
Proof.
  induction l as [|x r IH]; [reflexivity|]. cbn. now destruct (f x).
Qed.

(** C2 (amended): on a desktop whose handles are distinct and not null,
    the matcher returns the first enumerated candidate whose text contains
    the title (every text contains the empty title), exact or not; when no
    candidate contains it, the first candidate of largest area. *)
Theorem find_best_takes_first_title_match executable t s :
  NoDup (map hwnd (windows (world s))) ->
  Forall (fun x => hwnd x <> 0) (windows (world s)) ->
  fst (Restore.find_best executable (PStr t) s) =
  Ok (match List.find (fun x => candidate executable x && title_matches t x)
                      (windows (world s)) with
      | Some x => Some (hwnd x)
      | None =>
          first_max (Restore.area (world s))
            (map hwnd (List.filter (candidate executable)
                                   (windows (world s))))
      end).
Proof.
  intros Hnd Hnz. set (w := world s).
  assert (Hlook : forall x, In x (windows w) ->
                            lookup_window w (hwnd x) = Some x).
  { intros x Hx. now apply lookup_window_in. }
  unfold Restore.find_best, Restore.find_window_by_executable,
    Restore.find_windows_by_executable, EnumWindows, bind, emit, query, ret.
  cbn [world trace launched_session_apps fst snd]. fold w.
  rewrite (collect_eval w _
             (fun x => candidate executable x && title_matches t x))
    by (intros; apply callback_by_executable_eval; auto).
  rewrite head_filter_find.
  destruct (List.find _ (windows w)) as [x|] eqn:Hfind.
  - cbn [fmap option_fmap option_map Restore.truthy_int].
    apply find_some in Hfind as [Hx _].
    rewrite List.Forall_forall in Hnz. specialize (Hnz x Hx).
    apply Z.eqb_neq in Hnz. now rewrite Hnz.
  - cbn [fmap option_fmap option_map Restore.truthy_int world].
    fold w.
    rewrite (collect_eval w _ (candidate executable))
      by (intros; apply callback_all_eval; auto).
    cbn [fst].
    set (cands := List.filter (candidate executable) (windows w)).
    assert (Hc : forall x, In x cands ->
                   In x (windows w) /\ title_matches t x = false).
    { intros x Hx. apply filter_In in Hx as [Hx Hcand]. split; [easy|].
      pose proof (find_none _ _ Hfind x Hx) as Hf. cbn in Hf.
      now rewrite Hcand in Hf. }
    unfold Restore._choose_best_window.
    destruct (map hwnd cands) as [|h hs] eqn:Hmap; [reflexivity|].
    rewrite <- Hmap. unfold qbind at 1.
    assert (Hhit : (if truthy (PStr t)
                    then desired <~ Restore.lower_of (PStr t) ;;
                         Restore.first_containing desired (map hwnd cands)
                    else qret None) w = Ok None).
    { destruct (truthy (PStr t)); [|reflexivity].
      unfold qbind. cbn [Restore.lower_of qret].
      apply first_containing_none; intros x Hx; [apply Hlook|]; now apply Hc. }
    rewrite Hhit. now rewrite head_sorted_desc.
Qed.

Lemma find_best_takes_first_title_match_witness :
  fst (Restore.find_best "C:\Apps\chrome.exe" (PStr "GitHub")
         (start desktop_swapped)) = Ok (Some 11).
Proof.
  rewrite (find_best_takes_first_title_match "C:\Apps\chrome.exe" "GitHub"
             (start desktop_swapped)).
  - reflexivity.
  - cbn. repeat constructor; cbn; rewrite ?elem_of_cons, ?elem_of_nil; lia.
  - repeat constructor; cbn; lia.
Defined.

(** C2, as stated, fails: the window titled exactly as asked loses to a
    substring match enumerated before it, and with an empty title the first
    window wins although a later one is larger. *)
Lemma find_best_ignores_exact_title :
  fst (Restore.find_best "C:\Apps\chrome.exe" (PStr "GitHub")
         (start desktop_swapped)) = Ok (Some 11) /\
  text <$> lookup_window desktop_swapped 11 = Some "GitHub - Pricing" /\
  text <$> lookup_window desktop_swapped 10 = Some "GitHub" /\
  fst (Restore.find_best "C:\Apps\chrome.exe" (PStr "")
         (start desktop_swapped)) = Ok (Some 11) /\
  Restore.area desktop_swapped 11 < Restore.area desktop_swapped 10.
Proof. vm_compute. repeat split; reflexivity. Qed.

(** In the order the specification lists the two windows, the exact title
    is also the first match. *)
Example find_best_spec_order :
  fst (Restore.find_best "C:\Apps\chrome.exe" (PStr "GitHub") (start desktop))
  = Ok (Some 10).
Proof. vm_compute. reflexivity. Qed.

(** * Further properties *)

Import StoreExamples.

(** ** Snap zones on the desktop *)

(** Inside the work area the two halves of each direction and the four
    quarters are partitions: a point is in the left half or in the right
    half and not in both, likewise for top and bottom, and each quarter
    is the meet of its two halves. *)
Theorem snap_zones_partition_work_area wx1 wy1 wx2 wy2 px py :
  wx1 <= px < wx2 -> wy1 <= py < wy2 ->
  let work := (wx1, wy1, wx2, wy2) in
  (in_zone work "left" px py <-> ~ in_zone work "right" px py) /\
  (in_zone work "top" px py <-> ~ in_zone work "bottom" px py) /\
  (in_zone work "top_left" px py <->
     in_zone work "left" px py /\ in_zone work "top" px py) /\
  (in_zone work "top_right" px py <->
     in_zone work "right" px py /\ in_zone work "top" px py) /\
  (in_zone work "bottom_left" px py <->
     in_zone work "left" px py /\ in_zone work "bottom" px py) /\
  (in_zone work "bottom_right" px py <->
     in_zone work "right" px py /\ in_zone work "bottom" px py).
Proof.
  intros Hx Hy work. unfold in_zone, work, snap_layouts, in_box.
  cbn [String.eqb Ascii.eqb Bool.eqb]. cbv zeta.
  assert (Hw : 0 <= (wx2 - wx1) / 2 <= wx2 - wx1).
  { split; [apply Z.div_pos; lia|].
    apply Z.div_le_upper_bound; lia. }
  assert (Hh : 0 <= (wy2 - wy1) / 2 <= wy2 - wy1).
  { split; [apply Z.div_pos; lia|].
    apply Z.div_le_upper_bound; lia. }
  generalize dependent ((wx2 - wx1) / 2). generalize dependent ((wy2 - wy1) / 2).
  intros hh Hh hw Hw. lia.
Qed.

Lemma snap_zones_partition_work_area_witness :
  let work := (0, 0, 1920, 1040) in
  (in_zone work "left" 960 5 <-> ~ in_zone work "right" 960 5) /\
  (in_zone work "top" 960 5 <-> ~ in_zone work "bottom" 960 5) /\
  (in_zone work "top_left" 960 5 <->
     in_zone work "left" 960 5 /\ in_zone work "top" 960 5) /\
  (in_zone work "top_right" 960 5 <->
     in_zone work "right" 960 5 /\ in_zone work "top" 960 5) /\
  (in_zone work "bottom_left" 960 5 <->
     in_zone work "left" 960 5 /\ in_zone work "bottom" 960 5) /\
  (in_zone work "bottom_right" 960 5 <->
     in_zone work "right" 960 5 /\ in_zone work "bottom" 960 5).
Proof.
  apply (snap_zones_partition_work_area 0 0 1920 1040 960 5); lia.
Defined.

Lemma hwnd_set_rect r x : hwnd (set_rect r x) = hwnd x.
Proof. reflexivity. Qed.

Lemma lookup_window_hwnd w h x : lookup_window w h = Some x -> hwnd x = h.
Proof.
  unfold lookup_window. intros H. apply List.find_some in H as [_ H].
  now apply Z.eqb_eq in H.
Qed.

Section Snap.
Context (env : Env).


End Snap.



(** [SetWindowPos] after [ShowWindow(hwnd, SW_RESTORE)]: the window is
    shown normal on the rectangle of the [SetWindowPos], wherever the
    [ShowWindow] had put it. *)
Lemma lookup_after_snap w h win r r0 :
  lookup_window w h = Some win ->
  lookup_window (update_window (set_rect r) h
                   (update_window (shown SW_RESTORE r0) h w)) h
  = Some (set_rect r (set_show SW_SHOWNORMAL win)).
Proof.
  intros Hl. pose proof (lookup_window_hwnd _ _ _ Hl) as Hh.
  rewrite lookup_update_window by apply hwnd_set_rect.
  rewrite lookup_update_window by easy.
  rewrite Hl. cbn [fmap option_fmap option_map].
  rewrite Hh, Z.eqb_refl. cbn [hwnd shown set_rect set_show].
  rewrite Hh, Z.eqb_refl.
  reflexivity.
Qed.




(** ** Windows that are off every work area *)

Lemma work_areas_of_lookup w i info :
  monitors w !! i = Some (Some info) -> work_areas_of w <> [].
Proof.
  unfold work_areas_of. generalize (monitors w). intros l. revert i.
  induction l as [|m l IH]; intros i H; [discriminate|].
  destruct i as [|i]; cbn in H |- *.
  - injection H as ->. discriminate.
  - destruct m as [m|]; cbn; [discriminate|]. now apply (IH i).
Qed.

Lemma target_index_lt w monitor o :
  monitors w !! target_index w monitor = Some o ->
  seq 0 (length (monitors w)) !! target_index w monitor
  = Some (target_index w monitor).
Proof.
  intros H. apply lookup_lt_Some in H.
  rewrite lookup_seq. cbn. split; [reflexivity|exact H].
Qed.

Lemma clamp_offscreen_run x y width height monitor w :
  work_areas_of w <> [] ->
  existsb (Restore.intersects
             (x, y, x + Z.max 320 width, y + Z.max 220 height))
          (work_areas_of w) = false ->
  Restore.clamp_to_work_areas x y width height monitor w =
  match monitors w !! target_index w monitor with
  | Some (Some info) =>
      let '(wx1, wy1, wx2, wy2) := mon_work info in
      let width := Z.min (Z.max 320 width) (Z.max 320 (wx2 - wx1)) in
      let height := Z.min (Z.max 220 height) (Z.max 220 (wy2 - wy1)) in
      Ok (wx1 + Z.max 0 (((wx2 - wx1) - width) / 2),
          wy1 + Z.max 0 (((wy2 - wy1) - height) / 2), width, height)
  | _ => Raise OSError
  end.
Proof.
  intros Hne Hoff.
  unfold Restore.clamp_to_work_areas, qbind, EnumDisplayMonitors.
  rewrite gather_work_areas_spec.
  destruct (work_areas_of w) as [|wa was] eqn:Hwa; [easy|].
  rewrite Hoff. cbn [negb]. rewrite length_seq. fold (target_index w monitor).
  destruct (monitors w !! target_index w monitor) as [o|] eqn:Ht.
  - rewrite (target_index_lt w monitor o Ht). cbn [qlift]. unfold qret.
    unfold GetMonitorInfo. rewrite Ht. destruct o as [info|]; [|reflexivity].
    now destruct (mon_work info) as [[[wx1 wy1] wx2] wy2].
  - apply lookup_ge_None in Ht.
    rewrite (proj2 (lookup_ge_None _ _)); [reflexivity|].
    now rewrite length_seq.
Qed.

(** When the rectangle, enlarged to 320 by 220, is off every work area
    and the work area of the target monitor is at least 320 by 220, the
    window is made no larger than that work area and is centred in it:
    the target rectangle lies inside the work area, with margins that
    differ by at most one pixel. *)
Theorem offscreen_window_is_centred x y width height monitor w info
  wx1 wy1 wx2 wy2 :
  existsb (Restore.intersects
             (x, y, x + Z.max 320 width, y + Z.max 220 height))
          (work_areas_of w) = false ->
  monitors w !! target_index w monitor = Some (Some info) ->
  mon_work info = (wx1, wy1, wx2, wy2) ->
  320 <= wx2 - wx1 -> 220 <= wy2 - wy1 ->
  exists x' y' w' h',
    Restore.clamp_to_work_areas x y width height monitor w
      = Ok (x', y', w', h') /\
    w' = Z.min (Z.max 320 width) (wx2 - wx1) /\
    h' = Z.min (Z.max 220 height) (wy2 - wy1) /\
    wx1 <= x' /\ x' + w' <= wx2 /\ wy1 <= y' /\ y' + h' <= wy2 /\
    0 <= (wx2 - (x' + w')) - (x' - wx1) <= 1 /\
    0 <= (wy2 - (y' + h')) - (y' - wy1) <= 1.
Proof.
  intros Hoff Ht Hwork Hw Hh.
  rewrite clamp_offscreen_run;
    [|eapply work_areas_of_lookup; eauto|exact Hoff].
  rewrite Ht, Hwork. cbv zeta.
  rewrite (Z.max_r 320 (wx2 - wx1)) by lia.
  rewrite (Z.max_r 220 (wy2 - wy1)) by lia.
  set (w' := Z.min (Z.max 320 width) (wx2 - wx1)).
  set (h' := Z.min (Z.max 220 height) (wy2 - wy1)).
  assert (Hw' : 0 <= wx2 - wx1 - w') by lia.
  assert (Hh' : 0 <= wy2 - wy1 - h') by lia.
  pose proof (Z.div_mod (wx2 - wx1 - w') 2 ltac:(lia)) as Hdx.
  pose proof (Z.mod_pos_bound (wx2 - wx1 - w') 2 ltac:(lia)) as Hmx.
  pose proof (Z.div_mod (wy2 - wy1 - h') 2 ltac:(lia)) as Hdy.
  pose proof (Z.mod_pos_bound (wy2 - wy1 - h') 2 ltac:(lia)) as Hmy.
  eexists _, _, _, _. split; [reflexivity|].
  generalize dependent ((wx2 - wx1 - w') / 2).
  generalize dependent ((wy2 - wy1 - h') / 2).
  intros qy Hdy qx Hdx. repeat split; lia.
Qed.

Lemma offscreen_window_is_centred_witness :
  exists x' y' w' h',
    Restore.clamp_to_work_areas 5000 3000 800 600 7 far_right
      = Ok (x', y', w', h') /\
    w' = Z.min (Z.max 320 800) (1920 - 0) /\
    h' = Z.min (Z.max 220 600) (1040 - 0) /\
    0 <= x' /\ x' + w' <= 1920 /\ 0 <= y' /\ y' + h' <= 1040 /\
    0 <= (1920 - (x' + w')) - (x' - 0) <= 1 /\
    0 <= (1040 - (y' + h')) - (y' - 0) <= 1.
Proof.
  apply (offscreen_window_is_centred 5000 3000 800 600 7 far_right monitor0
           0 0 1920 1040); try reflexivity; lia.
Defined.

(** When the rectangle is off every work area and [GetMonitorInfo] fails
    for the target monitor, [position_window] gives up: it returns
    without a call, and the window stays where it is. *)
Theorem position_window_gives_up env hwnd x y width height state monitor
  activate s :
  work_areas_of (world s) <> [] ->
  existsb (Restore.intersects
             (x, y, x + Z.max 320 width, y + Z.max 220 height))
          (work_areas_of (world s)) = false ->
  monitors (world s) !! target_index (world s) monitor = Some None ->
  Restore.position_window env hwnd x y width height state monitor activate s
  = (Ok tt, s).
Proof.
  intros Hne Hoff Ht.
  unfold Restore.position_window, try_except. unfold bind at 1. unfold query.
  rewrite clamp_offscreen_run by assumption. rewrite Ht. reflexivity.
Qed.

Lemma position_window_gives_up_witness :
  Restore.position_window env_silent 12 5000 3000 800 600 (PStr "normal") 0
    false (start broken_first_monitor)
  = (Ok tt, start broken_first_monitor).
Proof.
  apply (position_window_gives_up env_silent 12 5000 3000 800 600
           (PStr "normal") 0 false (start broken_first_monitor));
    [discriminate|reflexivity|reflexivity].
Defined.

(** ** What capture records *)

Section ReadsOf.
Context (w : World) (h : Z) (x : Window).
Hypothesis Hl : lookup_window w h = Some x.

Lemma window_eval : window h w = Ok x.
Proof. unfold window. now rewrite Hl. Qed.

Lemma is_visible_window_eval : Capture.is_visible_window h w = Ok (eligible x).
Proof.
  cbv [Capture.is_visible_window Capture.get_window_title
       Capture.get_process_name qtry qtry_process qbind qret qlift qraise
       IsWindowVisible GetWindowText GetWindowLong_style GetWindowLong_exstyle
       process_name window].
  rewrite Hl. unfold eligible. cbv beta iota.
  destruct (visible x); [|reflexivity]. cbn [negb andb].
  rewrite Hl. cbv beta iota.
  destruct (String.eqb (text x) ""); [reflexivity|]. cbn [negb andb].
  destruct (existsb _ Capture.EXCLUDED_TITLES); [reflexivity|].
  cbn [negb andb]. rewrite Hl. cbv beta iota.
  destruct (proc_name x) as [n|]; cbv beta iota.
  - destruct (negb (String.eqb (lower n) "")
              && existsb (String.eqb (lower n)) Capture.EXCLUDED_PROCESSES);
      [reflexivity|]. cbn [negb andb]. rewrite !Hl. cbv beta iota.
    destruct (Z.land (exstyle x) WS_EX_TOOLWINDOW =? 0); [|reflexivity].
    cbn [negb andb]. now destruct (Z.land (style x) WS_CAPTION =? 0).
  - cbn [negb andb]. rewrite !Hl. cbv beta iota.
    destruct (Z.land (exstyle x) WS_EX_TOOLWINDOW =? 0); [|reflexivity].
    cbn [negb andb]. now destruct (Z.land (style x) WS_CAPTION =? 0).
Qed.

Lemma get_window_rect_eval : Capture.get_window_rect h w = Ok (Some (rect x)).
Proof.
  cbv [Capture.get_window_rect qtry qbind qret GetWindowRect window].
  now rewrite Hl.
Qed.

Lemma get_process_path_eval : Capture.get_process_path h w = Ok (proc_exe x).
Proof.
  cbv [Capture.get_process_path qtry_process qbind qret qlift qraise
       process_exe window].
  rewrite Hl. now destruct (proc_exe x).
Qed.

Lemma get_window_title_eval : Capture.get_window_title h w = Ok (text x).
Proof.
  cbv [Capture.get_window_title qtry qbind qret GetWindowText window].
  now rewrite Hl.
Qed.

Lemma get_window_state_eval :
  Capture.get_window_state h w = Ok (state_name (show_cmd x)).
Proof.
  cbv [Capture.get_window_state qtry qbind qret GetWindowPlacement_showCmd
       window].
  rewrite Hl. unfold state_name.
  destruct (show_cmd x =? SW_SHOWMAXIMIZED); [reflexivity|].
  now destruct (show_cmd x =? SW_SHOWMINIMIZED).
Qed.

End ReadsOf.

Lemma is_visible_window_gone w h :
  lookup_window w h = None -> Capture.is_visible_window h w = Ok false.
Proof.
  intros Hl.
  cbv [Capture.is_visible_window qtry qbind qret IsWindowVisible window].
  now rewrite Hl.
Qed.

Section CaptureOf.
Context (env : Env).

Lemma get_monitor_info_total h w :
  exists m, Capture.get_monitor_info h w = Ok m.
Proof. apply qtry_total. Qed.

Lemma detect_snap_type_ok h r state w :
  exists snap,
    Capture.detect_snap_type env h r state w = Ok snap /\
    match snap with
    | Some z => In z snap_zones /\ state = "normal"
    | None => True
    end.
Proof.
  unfold Capture.detect_snap_type.
  destruct (String.eqb_spec state "normal") as [->|]; cbn [negb];
    [|exists None; now split].
  cbv [qtry qbind qret MonitorFromWindow GetMonitorInfo].
  destruct (nearest_monitor env w h) as [m|]; [|exists None; now split].
  destruct (monitors w !! m) as [[info|]|]; try (exists None; now split).
  eexists. split; [reflexivity|].
  destruct (mon_work info) as [[[wx1 wy1] wx2] wy2].
  destruct r as [[[mx1 my1] mx2] my2]. unfold classify_rect. cbv zeta.
  repeat match goal with
  | |- context [if ?b then Some _ else _] =>
      destruct b; [split; [cbn; tauto|reflexivity]|]
  end.
  exact I.
Qed.

(** The record [get_window_info] builds for a window, with the monitor
    index and the snap type it read. *)
Lemma get_window_info_eval h it im w x :
  lookup_window w h = Some x ->
  exists m snap,
    Capture.get_monitor_info h w = Ok m /\
    Capture.detect_snap_type env h (rect x) (state_name (show_cmd x)) w
      = Ok snap /\
    Capture.get_window_info env h it im w =
    Ok (if capturable im x then
          match proc_exe x with
          | Some exe =>
              let '(r0, r1, r2, r3) := rect x in
              Some {| Info.executable := Some (PStr exe);
                      Info.title := Some (PStr (text x));
                      Info.x := Some r0;
                      Info.y := Some r1;
                      Info.width := Some (r2 - r0);
                      Info.height := Some (r3 - r1);
                      Info.state := Some (PStr (state_name (show_cmd x)));
                      Info.monitor := Some (Z.of_nat m);
                      Info.snap_type :=
                        match snap with
                        | Some z => if String.eqb z "" then None
                                    else Some (PStr z)
                        | None => None
                        end;
                      Info.tabs :=
                        if it
                        then match BrowserTabs.get_browser_tabs env (text x) exe
                             with
                             | [] => None
                             | l => Some l
                             end
                        else None |}
          | None => None
          end
        else None).
Proof.
  intros Hl.
  destruct (get_monitor_info_total h w) as [m Hm].
  destruct (detect_snap_type_ok h (rect x) (state_name (show_cmd x)) w)
    as [snap [Hsnap _]].
  exists m, snap. split; [exact Hm|]. split; [exact Hsnap|].
  unfold Capture.get_window_info, capturable.
  unfold qbind at 1. rewrite (is_visible_window_eval w h x Hl).
  destruct (eligible x); cbn [negb andb]; [|reflexivity].
  unfold qtry. unfold qbind at 1. rewrite (get_window_rect_eval w h x Hl).
  destruct (rect x) as [[[r0 r1] r2] r3] eqn:Hr.
  unfold qbind at 1. rewrite (get_process_path_eval w h x Hl).
  destruct (proc_exe x) as [exe|]; [|reflexivity].
  destruct (String.eqb exe ""); cbn [negb andb]; [reflexivity|].
  unfold qbind at 1. rewrite (get_window_title_eval w h x Hl).
  unfold qbind at 1. rewrite (get_window_state_eval w h x Hl).
  destruct (String.eqb (state_name (show_cmd x)) "minimized" && negb im);
    cbn [negb andb]; [reflexivity|].
  unfold qbind at 1. rewrite Hm.
  unfold qbind at 1. rewrite Hsnap.
  destruct (Capture._is_own_utility_window exe (text x)); reflexivity.
Qed.

End CaptureOf.

(** A window is recorded by [get_window_info] exactly when it passes the
    test of [is_visible_window], its executable path is known and not
    empty, it is not minimized (unless minimized windows are asked for)
    and it is not one of the tool's own dialogs; the call never raises. *)
Theorem captured_iff_capturable env h it im w x :
  lookup_window w h = Some x ->
  match Capture.get_window_info env h it im w with
  | Ok (Some _) => capturable im x = true
  | Ok None => capturable im x = false
  | Raise _ => False
  end.
Proof.
  intros Hl.
  destruct (get_window_info_eval env h it im w x Hl) as [m [snap [_ [_ H]]]].
  rewrite H. destruct (capturable im x) eqn:E; [|reflexivity].
  unfold capturable in E. destruct (proc_exe x); [|now rewrite andb_false_r in E].
  now destruct (rect x) as [[[r0 r1] r2] r3].
Qed.

Lemma captured_iff_capturable_witness :
  match Capture.get_window_info env_silent 12 false false desktop with
  | Ok (Some _) =>
      capturable false (win 12 "notepad.exe" "notes.txt - Notepad"
                            (5, 5, 300, 300) SW_SHOWMINIMIZED) = true
  | Ok None =>
      capturable false (win 12 "notepad.exe" "notes.txt - Notepad"
                            (5, 5, 300, 300) SW_SHOWMINIMIZED) = false
  | Raise _ => False
  end.
Proof.
  apply (captured_iff_capturable env_silent 12 false false desktop).
  reflexivity.
Defined.

(** A record that [get_window_info] returns describes the window it was
    read from: path and title, the rectangle as position and size, the
    state read from the show command; a snap type, when present, is one
    of the eight zone names and the state is then [normal]; tabs are
    absent unless asked for. *)
Theorem captured_record_describes_window env h it im w i :
  Capture.get_window_info env h it im w = Ok (Some i) ->
  exists x exe ix iy iw ih m,
    lookup_window w h = Some x /\ capturable im x = true /\
    proc_exe x = Some exe /\
    Info.executable i = Some (PStr exe) /\
    Info.title i = Some (PStr (text x)) /\
    Info.x i = Some ix /\ Info.y i = Some iy /\
    Info.width i = Some iw /\ Info.height i = Some ih /\
    rect x = (ix, iy, ix + iw, iy + ih) /\
    Info.state i = Some (PStr (state_name (show_cmd x))) /\
    Info.monitor i = Some (Z.of_nat m) /\
    Capture.get_monitor_info h w = Ok m /\
    match Info.snap_type i with
    | Some v => exists z, v = PStr z /\ In z snap_zones /\
                          state_name (show_cmd x) = "normal"
    | None => True
    end /\
    (it = false -> Info.tabs i = None).
Proof.
  intros H.
  destruct (lookup_window w h) as [x|] eqn:Hl.
  2:{ unfold Capture.get_window_info, qbind in H.
      rewrite (is_visible_window_gone w h Hl) in H. discriminate. }
  destruct (get_window_info_eval env h it im w x Hl) as [m [snap [Hm [Hs He]]]].
  rewrite He in H.
  destruct (capturable im x) eqn:Hc; [|discriminate].
  destruct (proc_exe x) as [exe|] eqn:Hexe; [|discriminate].
  destruct (rect x) as [[[r0 r1] r2] r3] eqn:Hr.
  injection H as <-.
  exists x, exe, r0, r1, (r2 - r0), (r3 - r1), m. cbn.
  do 9 (split; [first [reflexivity | assumption]|]).
  split; [rewrite Hr; repeat f_equal; lia|].
  do 3 (split; [first [reflexivity | assumption]|]).
  split.
  - destruct (detect_snap_type_ok env h (r0, r1, r2, r3)
                (state_name (show_cmd x)) w) as [snap' [Hs' Hz]].
    rewrite Hs in Hs'. injection Hs' as <-.
    destruct snap as [z|]; [|exact I].
    destruct (String.eqb z ""); [exact I|].
    exists z. destruct Hz. now repeat split.
  - now intros ->.
Qed.

Lemma captured_record_describes_window_witness :
  exists x exe ix iy iw ih m,
    lookup_window desktop 10 = Some x /\ capturable false x = true /\
    proc_exe x = Some exe /\
    Info.executable (record "C:\Apps\chrome.exe" "GitHub" "normal")
      = Some (PStr exe) /\
    Info.title (record "C:\Apps\chrome.exe" "GitHub" "normal")
      = Some (PStr (text x)) /\
    Some 0 = Some ix /\ Some 0 = Some iy /\
    Some 800 = Some iw /\ Some 600 = Some ih /\
    rect x = (ix, iy, ix + iw, iy + ih) /\
    Some (PStr "normal") = Some (PStr (state_name (show_cmd x))) /\
    Some 0 = Some (Z.of_nat m) /\
    Capture.get_monitor_info 10 desktop = Ok m /\
    True /\
    (false = false -> None = @None (list Tab)).
Proof.
  apply (captured_record_describes_window env_silent 10 false false desktop
           (Info.mkInfo (Some (PStr "C:\Apps\chrome.exe"))
                        (Some (PStr "GitHub")) (Some 0) (Some 0) (Some 800)
                        (Some 600) (Some (PStr "normal")) (Some 0) None None)).
  reflexivity.
Defined.

(** ** The capture run *)

Section CaptureRun.
Context (env : Env).

Lemma capture_each_forall (P : WindowInfo -> Prop) it im w handles :
  (forall h i, Capture.get_window_info env h it im w = Ok (Some i) -> P i) ->
  exists infos,
    Capture.capture_each env it im handles w = Ok infos /\
    Forall P infos /\ (length infos <= length handles)%nat.
Proof.
  intros HP. induction handles as [|h rest [infos [IH [HF Hlen]]]];
    cbn [Capture.capture_each].
  - exists []. repeat split; [constructor|reflexivity].
  - unfold qbind. destruct (get_window_info_total env h it im w) as [o Ho].
    rewrite Ho, IH. destruct o as [i|]; eexists; (split; [reflexivity|]).
    + split; [constructor; [now apply (HP h)|exact HF]|cbn; lia].
    + split; [exact HF|cbn; lia].
Qed.

Lemma capture_windows_run it im s infos :
  Capture.capture_each env it im (map hwnd (windows (world s))) (world s)
    = Ok infos ->
  Capture.capture_windows env it im s =
  (Ok infos, mkSt (world s) (trace s ++ [EvEnumWindows])
                  (launched_session_apps s)).
Proof.
  intros H. unfold Capture.capture_windows, try_except, bind, EnumWindows,
    bind, emit, query. cbn [world trace launched_session_apps]. now rewrite H.
Qed.

Lemma capture_each_titles it im w l :
  (forall x, In x l -> lookup_window w (hwnd x) = Some x) ->
  exists infos,
    Capture.capture_each env it im (map hwnd l) w = Ok infos /\
    map Info.title infos =
    map (fun x => Some (PStr (text x))) (List.filter (capturable im) l).
Proof.
  induction l as [|x l IH]; intros Hl; cbn [map Capture.capture_each].
  - exists []. now split.
  - destruct IH as [infos [IH Ht]]; [intros y Hy; apply Hl; now right|].
    unfold qbind.
    destruct (get_window_info_eval env (hwnd x) it im w x (Hl x (or_introl eq_refl)))
      as [m [snap [_ [_ He]]]].
    rewrite He, IH. cbn [List.filter].
    destruct (capturable im x) eqn:Hc.
    + unfold capturable in Hc.
      destruct (proc_exe x) as [exe|]; [|now rewrite andb_false_r in Hc].
      destruct (rect x) as [[[r0 r1] r2] r3].
      eexists. split; [reflexivity|]. cbn [map Info.title]. now rewrite Ht.
    + eexists. split; [reflexivity|exact Ht].
Qed.

End CaptureRun.

(** [capture_windows] enumerates the windows once and does nothing else:
    it never raises, the desktop and the launched set stay as they are,
    and it returns at most one record per window.  Without
    [include_minimized] every record has state [normal] or [maximized]. *)
Theorem capture_windows_only_enumerates env it im s :
  exists infos,
    Capture.capture_windows env it im s =
      (Ok infos, mkSt (world s) (trace s ++ [EvEnumWindows])
                      (launched_session_apps s)) /\
    (length infos <= length (windows (world s)))%nat /\
    (im = false ->
     Forall (fun i => Info.state i = Some (PStr "normal") \/
                      Info.state i = Some (PStr "maximized")) infos).
Proof.
  destruct (capture_each_forall env
              (fun i => im = false ->
                        Info.state i = Some (PStr "normal") \/
                        Info.state i = Some (PStr "maximized"))
              it im (world s) (map hwnd (windows (world s))))
    as [infos [He [HF Hlen]]].
  - intros h i Hi Him. subst im.
    destruct (lookup_window (world s) h) as [x|] eqn:Hl.
    2:{ unfold Capture.get_window_info, qbind in Hi.
        rewrite (is_visible_window_gone _ h Hl) in Hi. discriminate. }
    destruct (get_window_info_eval env h it false (world s) x Hl)
      as [m [snap [_ [_ H]]]].
    rewrite H in Hi. destruct (capturable false x) eqn:Hc; [|discriminate].
    unfold capturable in Hc.
    destruct (proc_exe x) as [exe|]; [|discriminate].
    destruct (rect x) as [[[r0 r1] r2] r3]. injection Hi as <-. cbn.
    apply andb_prop in Hc as [_ Hc]. apply andb_prop in Hc as [Hc _].
    apply andb_prop in Hc as [_ Hc]. rewrite andb_true_r in Hc.
    unfold state_name in *.
    destruct (show_cmd x =? SW_SHOWMAXIMIZED); [now right|].
    destruct (show_cmd x =? SW_SHOWMINIMIZED); [discriminate|now left].
  - exists infos. split; [now apply capture_windows_run|].
    rewrite length_map in Hlen. split; [exact Hlen|].
    intros Him. eapply Forall_impl; [exact HF|]. cbn. auto.
Qed.

(** On a desktop whose handles are distinct, [capture_windows] returns
    one record for each capturable window, in enumeration order. *)
Theorem capture_windows_in_enumeration_order env it im s :
  NoDup (map hwnd (windows (world s))) ->
  exists infos,
    fst (Capture.capture_windows env it im s) = Ok infos /\
    map Info.title infos =
    map (fun x => Some (PStr (text x)))
        (List.filter (capturable im) (windows (world s))).
Proof.
  intros Hnd.
  destruct (capture_each_titles env it im (world s) (windows (world s)))
    as [infos [He Ht]].
  - intros x Hx. now apply lookup_window_in.
  - exists infos. split; [|exact Ht].
    now rewrite (capture_windows_run env it im s infos He).
Qed.

Lemma capture_windows_in_enumeration_order_witness :
  exists infos,
    fst (Capture.capture_windows env_silent false false (start desktop))
      = Ok infos /\
    map Info.title infos =
    map (fun x => Some (PStr (text x)))
        (List.filter (capturable false) (windows desktop)).
Proof.
  apply (capture_windows_in_enumeration_order env_silent false false
           (start desktop)).
  cbn. repeat constructor; cbn; rewrite ?elem_of_cons, ?elem_of_nil; lia.
Defined.

(** ** The monitor index of a record *)

Lemma monitor_containing_spec w r0 r1 r2 r3 : forall n a k,
  Capture.monitor_containing ((r0 + r2) / 2) ((r1 + r3) / 2) a (seq a n) w
    = Ok k ->
  k = 0%nat \/
  ((a <= k < a + n)%nat /\
   exists info, monitors w !! k = Some (Some info) /\
     centre_on (r0, r1, r2, r3) (mon_rect info) = true /\
     forall j, (a <= j < k)%nat ->
       exists info', monitors w !! j = Some (Some info') /\
         centre_on (r0, r1, r2, r3) (mon_rect info') = false).
Proof.
  induction n as [|n IH]; intros a k; cbn [seq Capture.monitor_containing].
  - intros [= <-]. now left.
  - unfold qbind, GetMonitorInfo.
    destruct (monitors w !! a) as [[info|]|] eqn:Ha; try discriminate.
    destruct (mon_rect info) as [[[m0 m1] m2] m3] eqn:Hm.
    destruct ((m0 <=? (r0 + r2) / 2) && ((r0 + r2) / 2 <=? m2) &&
              (m1 <=? (r1 + r3) / 2) && ((r1 + r3) / 2 <=? m3)) eqn:Hc.
    + intros [= <-]. right. split; [lia|]. exists info.
      split; [exact Ha|]. split; [now rewrite Hm|]. intros j Hj. lia.
    + intros H. apply IH in H as [->|[Hk [info' [Hi [Hc' Hb]]]]];
        [now left|].
      right. split; [lia|]. exists info'. split; [exact Hi|].
      split; [exact Hc'|]. intros j Hj.
      destruct (decide (j = a)) as [->|Hne].
      * exists info. split; [exact Ha|]. now rewrite Hm.
      * apply Hb. lia.
Qed.

(** [get_monitor_info] never raises.  The index it returns is that of
    the first monitor whose rectangle holds the centre of the window,
    every monitor before it being readable; or it is 0. *)
Theorem get_monitor_info_first_containing h w :
  exists k,
    Capture.get_monitor_info h w = Ok k /\
    (k = 0%nat \/
     exists x info,
       lookup_window w h = Some x /\
       monitors w !! k = Some (Some info) /\
       centre_on (rect x) (mon_rect info) = true /\
       forall j, (j < k)%nat ->
         exists info', monitors w !! j = Some (Some info') /\
           centre_on (rect x) (mon_rect info') = false).
Proof.
  unfold Capture.get_monitor_info, qtry.
  destruct ((r <~ GetWindowRect h ;; _) w) as [k|e] eqn:E;
    [|exists 0%nat; split; [reflexivity|now left]].
  exists k. split; [reflexivity|].
  unfold qbind at 1 in E. unfold GetWindowRect, qbind, window in E.
  destruct (lookup_window w h) as [x|] eqn:Hl; [|discriminate].
  unfold qret in E. destruct (rect x) as [[[r0 r1] r2] r3] eqn:Hr.
  unfold EnumDisplayMonitors in E.
  apply monitor_containing_spec in E as [->|[Hk [info [Hi [Hc Hb]]]]];
    [now left|].
  right. exists x, info. split; [reflexivity|]. split; [exact Hi|].
  rewrite Hr. split; [exact Hc|]. intros j Hj. apply Hb. lia.
Qed.

(** ** Calls a restore run never makes *)

Lemma count_zero_Forall f d :
  count f d = 0%nat -> Forall (fun e => f e = false) d.
Proof.
  unfold count. induction d as [|e d IH]; [constructor|]. cbn.
  destruct (f e) eqn:E; cbn; [discriminate|]. intros H.
  constructor; [exact E|now apply IH].
Qed.

Lemma bounded_zero_appended f {A} (m : M A) s :
  bounded f 0 m -> Forall (fun e => f e = false) (appended s (snd (m s))).
Proof.
  intros H. destruct (H s) as [d [Hd Hc]].
  rewrite (appended_app _ _ d Hd). apply count_zero_Forall. lia.
Qed.

Section Quiet.
Context (env : Env) (P : Event -> Prop).
Hypothesis P_show : forall h, P (EvShowWindow h SW_RESTORE).
Hypothesis P_max : forall h, P (EvShowWindow h SW_MAXIMIZE).
Hypothesis P_min : forall h, P (EvShowWindow h SW_MINIMIZE).
Hypothesis P_pos : forall h x y cx cy,
  P (EvSetWindowPos h x y cx cy (Z.lor SWP_NOZORDER SWP_NOACTIVATE)).
Hypothesis P_sleep : forall ms, P (EvSleep ms).

Lemma steps_apply_snap_layout_flags h z :
  steps P (Restore.apply_snap_layout env h z).
Proof.
  unfold Restore.apply_snap_layout. steps_auto;
    first [apply steps_ShowWindow; apply P_show
          | apply steps_SetWindowPos; apply P_pos].
Qed.

Lemma steps_position_window_background h x y cx cy st mon :
  steps P (Restore.position_window env h x y cx cy st mon false).
Proof.
  unfold Restore.position_window. cbn [negb].
  steps_auto;
    first [apply steps_ShowWindow; auto
          | apply steps_SetWindowPos; apply P_pos
          | apply steps_sleep; apply P_sleep].
Qed.

(** What [restore_window] does with the handle of a window that is not
    session-managed. *)
Lemma steps_placement_background h (wi : WindowInfo) exe :
  steps P
    (snapped <- Restore.apply_snap_layout env h
                  (dict_get (Info.snap_type wi) PNone) ;;
     (if negb snapped
      then Restore.position_window env h (dict_get (Info.x wi) 0)
             (dict_get (Info.y wi) 0) (dict_get (Info.width wi) 800)
             (dict_get (Info.height wi) 600)
             (dict_get (Info.state wi) (PStr "normal"))
             (dict_get (Info.monitor wi) 0) false
      else ret tt) ;;;
     (match dict_get (Info.tabs wi) [] with
      | [] => ret tt
      | _ => if Restore.RESTORE_BROWSER_TABS
             then Restore.restore_tabs env exe (dict_get (Info.tabs wi) [])
             else ret tt
      end) ;;;
     ret true).
Proof.
  unfold Restore.RESTORE_BROWSER_TABS.
  apply steps_bind; [apply steps_apply_snap_layout_flags|]. intros snapped.
  apply steps_bind.
  { destruct (negb snapped);
      [apply steps_position_window_background|apply steps_ret]. }
  intros _. apply steps_bind; [|intros _; apply steps_ret].
  destruct (dict_get (Info.tabs wi) []); apply steps_ret.
Qed.

End Quiet.

Lemma bounded_ret_bind f n {A B} (a : A) (k : A -> M B) :
  bounded f n (k a) -> bounded f n (bind (ret a) k).
Proof. intros H s. exact (H s). Qed.

Lemma bounded_raise_bind f n {A B} e (k : A -> M B) :
  bounded f n (bind (raise e) k).
Proof.
  intros s. exists []. cbn. rewrite app_nil_r. split; [easy|]. cbn. lia.
Qed.

Section Never.
Context (env : Env) (f : Event -> bool).
Hypothesis f_enum : f EvEnumWindows = false.
Hypothesis f_popen : forall cmd pid, f (EvPopen cmd pid) = false.
Hypothesis f_sleep : forall ms, f (EvSleep ms) = false.
Hypothesis f_show : forall h, f (EvShowWindow h SW_RESTORE) = false.

Lemma bounded_restore_window_cases wi :
  (session_managed wi = true ->
   forall h, f (EvSetForegroundWindow h) = false) ->
  (session_managed wi = false ->
   (forall h, f (EvShowWindow h SW_MAXIMIZE) = false) /\
   (forall h, f (EvShowWindow h SW_MINIMIZE) = false) /\
   (forall h x y cx cy,
      f (EvSetWindowPos h x y cx cy (Z.lor SWP_NOZORDER SWP_NOACTIVATE))
      = false)) ->
  bounded f 0 (Restore.restore_window env wi).
Proof.
  unfold session_managed, Restore.restore_window. intros Hs Ho.
  destruct (dict_get (Info.executable wi) (PStr "")) as [| |exe];
    cbv beta iota; try apply bounded_raise_bind.
  apply bounded_ret_bind.
  destruct (eq_str _ _); [apply bounded_ret|].
  destruct (bool_decide _) eqn:Hm;
    cbn [andb negb Restore.RESTORE_SESSION_MANAGED_APPS].
  - specialize (Hs eq_refl).
    apply bounded_bind_r; [apply bounded_of_steps; now apply steps_find_best|].
    intros hw.
    assert (Hnf : bounded f 0
              (already <- Restore.in_launched exe ;;
               if already then ret true else
               pid <- Restore.launch_program env exe "" ;;
               if negb (Restore.truthy_int pid) then ret false else
               Restore.add_launched exe ;;; ret true)).
    { apply bounded_bind_r; [apply bounded_in_launched|]. intros [|];
        [apply bounded_ret|].
      apply bounded_bind_r;
        [apply bounded_of_steps; now apply steps_launch_program|].
      intros pid. destruct (negb _); [apply bounded_ret|].
      apply bounded_bind_r; [apply bounded_add_launched|].
      intros _. apply bounded_ret. }
    destruct hw as [h|]; [|exact Hnf].
    destruct (h =? 0); [exact Hnf|].
    apply bounded_of_steps.
    steps_auto; first [apply steps_ShowWindow; apply f_show
                      | apply steps_SetForegroundWindow; apply Hs].
  - destruct (Ho eq_refl) as [Hmax [Hmin Hpos]].
    apply bounded_bind_r; [apply bounded_of_steps; now apply steps_find_best|].
    intros hw. apply bounded_bind_r.
    + destruct (negb _); [|apply bounded_ret].
      apply bounded_bind_r;
        [apply bounded_of_steps; now apply steps_launch_program|].
      intros pid. destruct (negb _); [apply bounded_ret|].
      apply bounded_of_steps. now apply steps_poll_for_window.
    + intros [h|]; [|apply bounded_ret].
      destruct (h =? 0); [apply bounded_ret|].
      apply bounded_of_steps.
      now apply (steps_placement_background env (fun e => f e = false)).
Qed.

End Never.

Lemma bounded_restore_each env f ws :
  (forall wi, bounded f 0 (Restore.restore_window env wi)) ->
  forall c, bounded f 0 (Restore.restore_each env ws c).
Proof.
  intros H. induction ws as [|wi rest IH]; intros c;
    cbn [Restore.restore_each]; [apply bounded_ret|].
  apply bounded_bind_r; [|intros c'; apply IH].
  change 0%nat with (0 + 0)%nat. apply bounded_try; [|apply bounded_ret].
  apply bounded_bind_r; [apply H|intros ok; apply bounded_ret].
Qed.

(** A restore run sends no keystroke, and every [SetWindowPos] it issues
    carries [SWP_NOZORDER | SWP_NOACTIVATE]: restoring tabs is switched
    off, and windows are placed without activation or reordering. *)
Theorem restore_windows_is_not_intrusive env ws s :
  Forall (fun e => is_intrusive e = false)
         (appended s (snd (Restore.restore_windows env ws s))).
Proof.
  apply (bounded_zero_appended is_intrusive (Restore.restore_windows env ws) s).
  unfold Restore.restore_windows, Restore.success_count.
  apply bounded_bind_r; [|intros c; apply bounded_ret].
  apply bounded_bind_r.
  { intros s0. exists []. cbn. rewrite app_nil_r. split; [easy|]. cbn. lia. }
  intros _. apply bounded_restore_each. intros wi.
  apply bounded_restore_window_cases; try reflexivity; intros; try reflexivity.
  repeat split; reflexivity.
Qed.

(** One record either may bring a window to the foreground or may move
    windows, never both: for a session-managed application no window is
    moved, resized, maximized or minimized on any path, and for any other
    record [SetForegroundWindow] is never called. *)
Theorem restore_window_moves_or_activates env wi s :
  let d := appended s (snd (Restore.restore_window env wi s)) in
  if session_managed wi
  then Forall (fun e => is_move e = false) d
  else Forall (fun e => is_set_foreground e = false) d.
Proof.
  intros d. subst d. destruct (session_managed wi) eqn:Hs.
  - apply (bounded_zero_appended is_move (Restore.restore_window env wi) s).
    apply bounded_restore_window_cases; try reflexivity; intros; try reflexivity.
    congruence.
  - apply (bounded_zero_appended is_set_foreground
             (Restore.restore_window env wi) s).
    apply bounded_restore_window_cases; try reflexivity; intros; try reflexivity.
    + congruence.
    + repeat split; reflexivity.
Qed.

(** ** A window that is found *)

Lemma try_except_ret_ok {A} (body : M A) (a : A) s :
  exists b s', try_except body (ret a) s = (Ok b, s').
Proof.
  unfold try_except. destruct (body s) as [[b|e] s']; eexists _, _; reflexivity.
Qed.

Section Found.
Context (env : Env).

Lemma apply_snap_layout_ok h z s :
  exists b s', Restore.apply_snap_layout env h z s = (Ok b, s').
Proof.
  unfold Restore.apply_snap_layout.
  destruct (negb (truthy z)); [eexists _, _; reflexivity|].
  apply try_except_ret_ok.
Qed.

Lemma position_window_ok h x y cx cy st mon act s :
  exists s', Restore.position_window env h x y cx cy st mon act s = (Ok tt, s').
Proof.
  unfold Restore.position_window.
  destruct (try_except_ret_ok
              (placed <- query (Restore.clamp_to_work_areas x y cx cy mon) ;;
               let '(x, y, width, height) := placed in
               (if eq_str st "minimized"
                then ShowWindow env h SW_RESTORE ;;; sleep env 500
                else ShowWindow env h SW_RESTORE) ;;;
               let flags := SWP_NOZORDER in
               let flags := if negb act then Z.lor flags SWP_NOACTIVATE
                            else flags in
               SetWindowPos h x y width height flags ;;;
               if eq_str st "maximized" then ShowWindow env h SW_MAXIMIZE
               else if eq_str st "minimized" then ShowWindow env h SW_MINIMIZE
               else if act then
                 try_except (SetForegroundWindow h) (ret tt)
               else ret tt) tt s) as [[] [s' H]].
  exists s'. exact H.
Qed.

(** Once a window is at hand, the rest of [restore_window] for a record
    that is not session-managed returns [True]. *)
Lemma placement_returns_true h (wi : WindowInfo) exe s :
  exists s',
    (snapped <- Restore.apply_snap_layout env h
                  (dict_get (Info.snap_type wi) PNone) ;;
     (if negb snapped
      then Restore.position_window env h (dict_get (Info.x wi) 0)
             (dict_get (Info.y wi) 0) (dict_get (Info.width wi) 800)
             (dict_get (Info.height wi) 600)
             (dict_get (Info.state wi) (PStr "normal"))
             (dict_get (Info.monitor wi) 0) false
      else ret tt) ;;;
     (match dict_get (Info.tabs wi) [] with
      | [] => ret tt
      | _ => if Restore.RESTORE_BROWSER_TABS
             then Restore.restore_tabs env exe (dict_get (Info.tabs wi) [])
             else ret tt
      end) ;;;
     ret true) s = (Ok true, s').
Proof.
  unfold bind at 1.
  destruct (apply_snap_layout_ok h (dict_get (Info.snap_type wi) PNone) s)
    as [b [s1 H1]]. rewrite H1.
  unfold bind at 1.
  assert (H2 : exists s2,
             (if negb b
              then Restore.position_window env h (dict_get (Info.x wi) 0)
                     (dict_get (Info.y wi) 0) (dict_get (Info.width wi) 800)
                     (dict_get (Info.height wi) 600)
                     (dict_get (Info.state wi) (PStr "normal"))
                     (dict_get (Info.monitor wi) 0) false
              else ret tt) s1 = (Ok tt, s2)).
  { destruct (negb b); [apply position_window_ok|now exists s1]. }
  destruct H2 as [s2 H2]. rewrite H2.
  unfold Restore.RESTORE_BROWSER_TABS.
  exists s2. now destruct (dict_get (Info.tabs wi) []).
Qed.

Lemma restore_window_found_run wi exe s h s1 :
  dict_get (Info.executable wi) (PStr "") = PStr exe ->
  eq_str (dict_get (Info.state wi) (PStr "normal")) "minimized" = false ->
  Restore.find_best exe (dict_get (Info.title wi) (PStr "")) s
    = (Ok (Some h), s1) ->
  h <> 0 ->
  exists s', Restore.restore_window env wi s = (Ok true, s').
Proof.
  intros He Hst Hfind Hh.
  unfold Restore.restore_window. rewrite He.
  cbn [bind ret]. unfold bind at 1. cbn [ret]. rewrite Hst.
  apply Z.eqb_neq in Hh.
  destruct (bool_decide _); cbn [andb negb Restore.RESTORE_SESSION_MANAGED_APPS].
  - rewrite Hfind, Hh.
    unfold bind at 1.
    destruct (try_except_ret_ok
                (ShowWindow env h SW_RESTORE ;;; SetForegroundWindow h) tt s1)
      as [[] [s' H]].
    rewrite H. now exists s'.
  - rewrite (bind_run _ _ _ _ _ Hfind).
    cbn [Restore.truthy_int]. rewrite Hh. cbn [negb].
    unfold bind at 1. cbn [ret]. rewrite Hh.
    apply placement_returns_true.
Qed.

End Found.

(** When the lookup finds a window for a record that is not minimized,
    [restore_window] returns [True] whatever the calls that follow do:
    a failure to place or to activate the window is not reported. *)
Theorem found_window_counts_as_restored env wi exe s h s1 :
  dict_get (Info.executable wi) (PStr "") = PStr exe ->
  eq_str (dict_get (Info.state wi) (PStr "normal")) "minimized" = false ->
  Restore.find_best exe (dict_get (Info.title wi) (PStr "")) s
    = (Ok (Some h), s1) ->
  h <> 0 ->
  fst (Restore.restore_window env wi s) = Ok true.
Proof.
  intros He Hst Hfind Hh.
  destruct (restore_window_found_run env wi exe s h s1 He Hst Hfind Hh)
    as [s' H].
  now rewrite H.
Qed.

Lemma found_window_counts_as_restored_witness :
  fst (Restore.restore_window env_silent
         (record "C:\Apps\notepad.exe" "notes" "normal")
         (start broken_first_monitor)) = Ok true.
Proof.
  apply (found_window_counts_as_restored env_silent
           (record "C:\Apps\notepad.exe" "notes" "normal")
           "C:\Apps\notepad.exe" (start broken_first_monitor) 12
           (mkSt broken_first_monitor [EvEnumWindows] ∅));
    [reflexivity|reflexivity|reflexivity|lia].
Defined.

(** ** A window that appears while polling *)

Section Appears.
Context (env : Env).

Lemma poll_appears e t hw : forall n k h s,
  (1 <= k <= n)%nat ->
  (forall j, (1 <= j < k)%nat ->
     exists r,
       fst (Restore.find_best e t
              (observe (Nat.iter j (elapse env 1000) (world s)))) = Ok r /\
       Restore.truthy_int r = false) ->
  fst (Restore.find_best e t
         (observe (Nat.iter k (elapse env 1000) (world s)))) = Ok (Some hw) ->
  hw <> 0 ->
  exists s' d,
    Restore.poll_for_window env n e t h s = (Ok (Some hw), s') /\
    world s' = Nat.iter k (elapse env 1000) (world s) /\
    launched_session_apps s' = launched_session_apps s /\
    trace s' = trace s ++ d /\
    count is_poll_sleep d = k /\
    count is_popen d = 0%nat.
Proof.
  induction n as [|n IH]; intros k h s Hk Hbefore Hat Hhw; [lia|].
  cbn [Restore.poll_for_window].
  unfold bind at 1. unfold sleep at 1. unfold bind, emit, query, set_world.
  cbn [world trace launched_session_apps].
  set (s1 := mkSt _ _ _).
  destruct (find_best_run e t s1) as [d1 [Hrun Hd1]].
  subst s1. cbn [world trace launched_session_apps] in Hrun.
  destruct (decide (k = 1%nat)) as [->|Hk1].
  - cbn [Nat.iter nat_rect] in Hat. rewrite Hat in Hrun. rewrite Hrun.
    cbn [Restore.truthy_int]. apply Z.eqb_neq in Hhw. rewrite Hhw. cbn [negb].
    eexists _, ([EvSleep 1000] ++ d1). split; [reflexivity|].
    cbn [world trace launched_session_apps Nat.iter nat_rect].
    repeat split.
    + now rewrite <- app_assoc.
    + rewrite count_app. now rewrite (count_enum_only is_poll_sleep d1).
    + rewrite count_app. now rewrite (count_enum_only is_popen d1).
  - destruct (Hbefore 1%nat ltac:(lia)) as [r [Hr Hfalse]].
    cbn [Nat.iter nat_rect] in Hr. rewrite Hr in Hrun. rewrite Hrun, Hfalse.
    set (s2 := mkSt _ _ _).
    destruct (IH (k - 1)%nat r s2) as [s' [d [Hp [Hw [Hl [Ht [Hc1 Hc2]]]]]]].
    + lia.
    + intros j Hj. destruct (Hbefore (S j) ltac:(lia)) as [r0 [H0 H0']].
      exists r0. split; [|easy]. subst s2. cbn [world].
      now rewrite Nat.iter_succ_r in H0.
    + subst s2. cbn [world]. rewrite <- Nat.iter_succ_r.
      now replace (S (k - 1)) with k by lia.
    + exact Hhw.
    + exists s', ([EvSleep 1000] ++ d1 ++ d). split; [exact Hp|].
      subst s2. cbn [world trace launched_session_apps] in *.
      split; [rewrite Hw, <- Nat.iter_succ_r; f_equal; lia|].
      split; [exact Hl|]. split; [rewrite Ht; now rewrite <- !app_assoc|].
      rewrite !count_app, Hc1, Hc2.
      rewrite (count_enum_only is_poll_sleep d1),
        (count_enum_only is_popen d1) by easy.
      cbn. split; lia.
Qed.

End Appears.

(** The polling loop stops at the first lookup that finds a window: when
    the program was started and its window shows up at the [k]-th lookup
    ([k] at most 10), [restore_window] returns [True] after exactly [k]
    one-second waits and one launch. *)
Theorem window_appearing_stops_the_poll env wi exe s p w1 k hw :
  dict_get (Info.executable wi) (PStr "") = PStr exe ->
  lower (last_component exe) ∉ Restore.SESSION_MANAGED_APPS ->
  eq_str (dict_get (Info.state wi) (PStr "normal")) "minimized" = false ->
  (exists r,
     fst (Restore.find_best exe (dict_get (Info.title wi) (PStr "")) s) = Ok r /\
     Restore.truthy_int r = false) ->
  popen env (dquote ++ exe ++ dquote)%string (world s) = (Some p, w1) ->
  (1 <= k <= 10)%nat ->
  (forall j, (1 <= j < k)%nat ->
     exists r,
       fst (Restore.find_best exe (dict_get (Info.title wi) (PStr ""))
              (observe (Nat.iter j (elapse env 1000) (elapse env 2000 w1))))
         = Ok r /\
       Restore.truthy_int r = false) ->
  fst (Restore.find_best exe (dict_get (Info.title wi) (PStr ""))
         (observe (Nat.iter k (elapse env 1000) (elapse env 2000 w1))))
    = Ok (Some hw) ->
  hw <> 0 ->
  let run := Restore.restore_window env wi s in
  let d := appended s (snd run) in
  fst run = Ok true /\
  count is_poll_sleep d = k /\
  count is_popen d = 1%nat.
Proof.
  intros He Hns Hst [r [Hr Hfalse]] Hp Hk Hbefore Hat Hhw run d.
  subst d.
  assert (ER : run = Restore.restore_window env wi s) by reflexivity.
  clearbody run.
  unfold Restore.restore_window in ER. rewrite He in ER.
  cbn [bind ret] in ER. unfold bind at 1 in ER. cbn [ret] in ER.
  rewrite Hst in ER. rewrite (bool_decide_eq_false_2 _ Hns) in ER.
  cbn [andb] in ER.
  destruct (find_best_run exe (dict_get (Info.title wi) (PStr "")) s)
    as [d1 [Hrun Hd1]].
  destruct (reads_find_best exe (dict_get (Info.title wi) (PStr "")) s)
    as [_ Hsame].
  rewrite (Hsame (observe (world s)) eq_refl), Hr in Hrun.
  rewrite (bind_run _ _ _ _ _ Hrun), Hfalse in ER. cbn [negb] in ER.
  unfold bind at 1 in ER. unfold bind at 1 in ER.
  rewrite launch_program_run in ER.
  cbn [world trace launched_session_apps] in ER. rewrite Hp in ER.
  cbn [Restore.truthy_int Z.eqb negb] in ER.
  set (s2 := mkSt _ _ _) in ER.
  destruct (poll_appears env exe (dict_get (Info.title wi) (PStr "")) hw
              10 k r s2 Hk Hbefore Hat Hhw)
    as [s3 [d2 [Hpoll [_ [_ [Ht [Hc1 Hc2]]]]]]].
  rewrite Hpoll in ER.
  apply Z.eqb_neq in Hhw. rewrite Hhw in ER.
  destruct (placement_returns_true env hw wi exe s3) as [s4 Hplace].
  pose proof (steps_placement env
                (fun e => is_poll_sleep e = false /\ is_popen e = false)
                hw wi exe ltac:(easy) ltac:(easy) ltac:(easy) ltac:(easy)
                ltac:(easy) ltac:(easy) ltac:(easy) s3) as [_ [d3 [Hd3 HP3]]].
  rewrite Hplace in ER, Hd3. subst run. cbn [fst snd] in *.
  split; [reflexivity|].
  rewrite (appended_app _ _
             (d1 ++ [EvPopen (dquote ++ exe ++ dquote)%string (Some (Z.pos p));
                     EvSleep 2000] ++ d2 ++ d3)).
  2:{ rewrite Hd3, Ht. subst s2. cbn [trace]. now rewrite <- !app_assoc. }
  rewrite !count_app, Hc1, Hc2.
  rewrite (count_enum_only is_poll_sleep d1),
    (count_enum_only is_popen d1) by easy.
  rewrite (count_none is_poll_sleep d3), (count_none is_popen d3).
  - cbn. split; lia.
  - eapply Forall_impl; [exact HP3|]. cbn. tauto.
  - eapply Forall_impl; [exact HP3|]. cbn. tauto.
Qed.

Lemma window_appearing_stops_the_poll_witness :
  let run := Restore.restore_window env_slow
               (record "C:\Apps\calc.exe" "Calculator" "normal")
               (start desktop) in
  let d := appended (start desktop) (snd run) in
  fst run = Ok true /\
  count is_poll_sleep d = 2%nat /\
  count is_popen d = 1%nat.
Proof.
  assert (Hns : lower (last_component "C:\Apps\calc.exe")
                ∉ Restore.SESSION_MANAGED_APPS).
  { intros H. vm_compute in H. discriminate H. }
  apply (window_appearing_stops_the_poll env_slow
           (record "C:\Apps\calc.exe" "Calculator" "normal")
           "C:\Apps\calc.exe" (start desktop) 4242%positive desktop 2%nat 20).
  - reflexivity.
  - exact Hns.
  - reflexivity.
  - exists None. split; vm_compute; reflexivity.
  - reflexivity.
  - lia.
  - intros j Hj. assert (j = 1%nat) as -> by lia.
    exists None. split; vm_compute; reflexivity.
  - vm_compute. reflexivity.
  - lia.
Defined.

(** ** The launched set *)

Section Launched.
Context (env : Env).

Lemma steps_any_launched {A} (m : M A) s :
  steps (fun _ => True) m ->
  launched_session_apps (snd (m s)) = launched_session_apps s.
Proof. intros H. now destruct (H s). Qed.

Lemma bind_raise_run {A B} (m : M A) (k : A -> M B) s e s1 :
  m s = (Raise e, s1) -> bind m k s = (Raise e, s1).
Proof. intros H. unfold bind. now rewrite H. Qed.

(** The statements of [restore_window] for a session-managed application
    whose window is not found. *)
Lemma session_not_found_run exe s :
  (already <- Restore.in_launched exe ;;
   if already then ret true else
   pid <- Restore.launch_program env exe "" ;;
   if negb (Restore.truthy_int pid) then ret false else
   Restore.add_launched exe ;;; ret true) s =
  if bool_decide (exe ∈ launched_session_apps s) then (Ok true, s) else
  let cmd := (dquote ++ exe ++ dquote)%string in
  match popen env cmd (world s) with
  | (Some p, w1) =>
      (Ok true,
       mkSt (elapse env 2000 w1)
            (trace s ++ [EvPopen cmd (Some (Z.pos p)); EvSleep 2000])
            ({[ exe ]} ∪ launched_session_apps s))
  | (None, w1) =>
      (Ok false, mkSt w1 (trace s ++ [EvPopen cmd None])
                      (launched_session_apps s))
  end.
Proof.
  unfold bind at 1. unfold Restore.in_launched at 1.
  destruct (bool_decide (exe ∈ launched_session_apps s)); [reflexivity|].
  unfold bind at 1. rewrite launch_program_run. cbv zeta.
  now destruct (popen env _ (world s)) as [[p|] w1].
Qed.

(** What one record does to the launched set. *)
Lemma restore_window_launched wi s :
  let s' := snd (Restore.restore_window env wi s) in
  launched_session_apps s' = launched_session_apps s \/
  exists exe p,
    dict_get (Info.executable wi) (PStr "") = PStr exe /\
    session_managed wi = true /\
    launched_session_apps s' = {[ exe ]} ∪ launched_session_apps s /\
    In (EvPopen (dquote ++ exe ++ dquote)%string (Some p)) (appended s s').
Proof.
  cbv zeta. unfold session_managed, Restore.restore_window.
  destruct (dict_get (Info.executable wi) (PStr "")) as [| |exe];
    try (left; reflexivity).
  cbn [bind ret]. unfold bind at 1. cbn [ret].
  destruct (eq_str _ _); [left; reflexivity|].
  destruct (bool_decide (lower (last_component exe) ∈ _)) eqn:Hm;
    cbn [andb negb Restore.RESTORE_SESSION_MANAGED_APPS].
  - destruct (find_best_run exe (dict_get (Info.title wi) (PStr "")) s)
      as [d1 [Hrun Hd1]].
    set (s1 := mkSt _ _ _) in Hrun.
    destruct (fst (Restore.find_best exe _ (observe (world s)))) as [hw|err];
      [rewrite ?(bind_run _ _ _ _ _ Hrun), ?Hrun
      |rewrite ?(bind_raise_run _ _ _ _ _ Hrun), ?Hrun; left; reflexivity].
    assert (Hnf :
      let s' := snd ((already <- Restore.in_launched exe ;;
                      if already then ret true else
                      pid <- Restore.launch_program env exe "" ;;
                      if negb (Restore.truthy_int pid) then ret false else
                      Restore.add_launched exe ;;; ret true) s1) in
      launched_session_apps s' = launched_session_apps s \/
      exists exe0 p,
        PStr exe = PStr exe0 /\ true = true /\
        launched_session_apps s' = {[ exe0 ]} ∪ launched_session_apps s /\
        In (EvPopen (dquote ++ exe0 ++ dquote)%string (Some p)) (appended s s')).
    { cbv zeta. rewrite session_not_found_run.
      destruct (bool_decide (exe ∈ launched_session_apps s1));
        [left; reflexivity|]. cbv zeta.
      destruct (popen env _ (world s1)) as [[p|] w1]; [|left; reflexivity].
      right. exists exe, (Z.pos p).
      split; [reflexivity|]. split; [reflexivity|]. split; [reflexivity|].
      cbn [snd].
      rewrite (appended_app _ _ (d1 ++ [EvPopen (dquote ++ exe ++ dquote)
                                          (Some (Z.pos p)); EvSleep 2000])).
      - apply in_or_app. right. now left.
      - cbn. now rewrite <- app_assoc. }
    destruct hw as [h|]; [|exact Hnf].
    destruct (h =? 0); [exact Hnf|]. left.
    rewrite steps_any_launched; [reflexivity|].
    steps_auto; first [now apply steps_ShowWindow
                      | now apply steps_SetForegroundWindow].
  - left. rewrite steps_any_launched; [reflexivity|].
    steps_auto;
      first [ now apply steps_find_best
            | now apply steps_launch_program
            | now apply steps_poll_for_window
            | now apply steps_apply_snap_layout
            | now apply steps_position_window
            | now apply steps_restore_tabs ].
Qed.

Lemma restore_window_trace wi s :
  exists d, trace (snd (Restore.restore_window env wi s)) = trace s ++ d.
Proof.
  destruct (restore_window_polls_bounded env wi s) as [d [Hd _]]. now exists d.
Qed.

Lemma run_each_trace ws : forall s,
  exists d, trace (run_each env ws s) = trace s ++ d.
Proof.
  induction ws as [|wi rest IH]; intros s; cbn [run_each fold_left].
  - exists []. now rewrite app_nil_r.
  - destruct (restore_window_trace wi s) as [d1 H1].
    destruct (IH (snd (Restore.restore_window env wi s))) as [d2 H2].
    exists (d1 ++ d2). unfold run_each in H2. rewrite H2, H1.
    now rewrite app_assoc.
Qed.

Lemma run_each_launched ws : forall s e,
  e ∈ launched_session_apps (run_each env ws s) ->
  e ∈ launched_session_apps s \/
  exists wi p,
    In wi ws /\
    dict_get (Info.executable wi) (PStr "") = PStr e /\
    session_managed wi = true /\
    In (EvPopen (dquote ++ e ++ dquote)%string (Some p))
       (appended s (run_each env ws s)).
Proof.
  induction ws as [|wi rest IH]; intros s e He; cbn [run_each fold_left] in *.
  - now left.
  - fold (run_each env rest (snd (Restore.restore_window env wi s))) in *.
    set (s1 := snd (Restore.restore_window env wi s)) in *.
    destruct (restore_window_trace wi s) as [d1 H1]. fold s1 in H1.
    destruct (run_each_trace rest s1) as [d2 H2].
    assert (Happ : appended s (run_each env rest s1) = d1 ++ d2).
    { apply appended_app. rewrite H2, H1. now rewrite app_assoc. }
    destruct (IH s1 e He) as [Hin|[wi' [p [Hin [Hexe [Hsm Hev]]]]]].
    + destruct (restore_window_launched wi s) as [Hsame|[exe [p [Hexe [Hsm [Hl Hev]]]]]];
        fold s1 in Hsame || fold s1 in Hl, Hev.
      * left. now rewrite <- Hsame.
      * rewrite Hl in Hin. apply elem_of_union in Hin as [Hin|Hin]; [|now left].
        apply elem_of_singleton in Hin. subst exe.
        right. exists wi, p. split; [now left|]. split; [exact Hexe|].
        split; [exact Hsm|]. rewrite Happ.
        rewrite (appended_app _ _ d1 H1) in Hev. apply in_or_app. now left.
    + right. exists wi', p. split; [now right|]. split; [exact Hexe|].
      split; [exact Hsm|]. rewrite Happ.
      rewrite (appended_app _ _ d2 H2) in Hev. apply in_or_app. now right.
Qed.

End Launched.

(** After a run the launched set holds only executable paths of
    session-managed records of the layout, each started successfully in
    this run; what the set held before the run does not count. *)
Theorem launched_apps_come_from_the_layout env ws s e :
  e ∈ launched_session_apps (snd (Restore.restore_windows env ws s)) ->
  exists wi p,
    In wi ws /\
    dict_get (Info.executable wi) (PStr "") = PStr e /\
    session_managed wi = true /\
    In (EvPopen (dquote ++ e ++ dquote)%string (Some p))
       (appended s (snd (Restore.restore_windows env ws s))).
Proof.
  rewrite restore_windows_spec. cbn [snd]. intros He.
  destruct (run_each_launched env ws (fresh_run s) e He)
    as [Hin|[wi [p [Hin [Hexe [Hsm Hev]]]]]].
  - cbn in Hin. now apply elem_of_empty in Hin.
  - exists wi, p. repeat split; auto.
Qed.

Lemma launched_apps_come_from_the_layout_witness :
  exists wi p,
    In wi two_firefox /\
    dict_get (Info.executable wi) (PStr "") = PStr "C:\Apps\firefox.exe" /\
    session_managed wi = true /\
    In (EvPopen (dquote ++ "C:\Apps\firefox.exe" ++ dquote)%string (Some p))
       (appended (start desktop)
          (snd (Restore.restore_windows env_silent two_firefox
                  (start desktop)))).
Proof.
  apply (launched_apps_come_from_the_layout env_silent two_firefox
           (start desktop) "C:\Apps\firefox.exe").
  rewrite restore_windows_spec. cbn [snd].
  vm_compute. reflexivity.
Defined.

(** ** The exact-title finder *)

Lemma callback_exact_eval w executable t x :
  lookup_window w (hwnd x) = Some x ->
  Restore.callback_exact (lower (last_component executable))
    (lower (strip t)) (hwnd x) w
  = Ok (candidate executable x && title_equals t x).
Proof.
  intros Hl.
  cbv [Restore.callback_exact qtry qbind IsWindowVisible
       GetWindowText process_name window qret qlift qraise candidate
       title_equals].
  rewrite Hl. cbv beta iota.
  destruct (visible x); [|reflexivity]. cbn [negb andb]. rewrite Hl.
  cbv beta iota.
  destruct (String.eqb (text x) ""); [reflexivity|]. cbn [negb andb].
  rewrite Hl. cbv beta iota.
  now destruct (proc_name x) as [n|].
Qed.

(** [find_window_by_executable_exact_title] returns [None] for an empty
    title without enumerating the windows.  Otherwise, on a desktop whose
    handles are distinct, it enumerates once and returns the first
    visible, titled window of the executable whose text equals the title
    up to case and surrounding white space. *)
Theorem exact_title_finder_first_equal_title executable t s :
  NoDup (map hwnd (windows (world s))) ->
  Restore.find_window_by_executable_exact_title executable t s =
  if String.eqb t "" then (Ok None, s) else
  (Ok (hwnd <$> List.find (fun x => candidate executable x && title_equals t x)
                          (windows (world s))),
   mkSt (world s) (trace s ++ [EvEnumWindows]) (launched_session_apps s)).
Proof.
  intros Hnd. unfold Restore.find_window_by_executable_exact_title.
  destruct (String.eqb t ""); [reflexivity|].
  unfold EnumWindows, bind, emit, query, ret.
  cbn [world trace launched_session_apps fst snd].
  rewrite (collect_eval (world s) _
             (fun x => candidate executable x && title_equals t x))
    by (intros; apply callback_exact_eval; now apply lookup_window_in).
  now rewrite head_filter_find.
Qed.

Lemma exact_title_finder_first_equal_title_witness :
  Restore.find_window_by_executable_exact_title "C:\Apps\chrome.exe"
    "  github " (start desktop_swapped) =
  (Ok (hwnd <$> List.find (fun x => candidate "C:\Apps\chrome.exe" x
                                    && title_equals "  github " x)
                          (windows desktop_swapped)),
   mkSt desktop_swapped [EvEnumWindows] ∅).
Proof.
  apply (exact_title_finder_first_equal_title "C:\Apps\chrome.exe"
           "  github " (start desktop_swapped)).
  cbn. repeat constructor; cbn; rewrite ?elem_of_cons, ?elem_of_nil; lia.
Defined.

(** Where the matcher of [restore_window] takes the substring match that
    is enumerated first, the exact-title finder takes the window whose
    title is the one asked for. *)
Example exact_title_finder_prefers_equal_title :
  fst (Restore.find_window_by_executable_exact_title "C:\Apps\chrome.exe"
         "GitHub" (start desktop_swapped)) = Ok (Some 10) /\
  fst (Restore.find_best "C:\Apps\chrome.exe" (PStr "GitHub")
         (start desktop_swapped)) = Ok (Some 11).
Proof. split; vm_compute; reflexivity. Qed.

(** The separators 0x1c to 0x1f are white space for [strip()]: a window
    text that has them around the title is the title. *)
Example exact_title_finder_strips_separators :
  strip separated_title = "GitHub" /\
  fst (Restore.find_window_by_executable_exact_title "C:\Apps\chrome.exe"
         "GitHub" (start desktop_separators)) = Ok (Some 41) /\
  fst (Restore.find_window_by_executable_exact_title "C:\Apps\chrome.exe"
         separated_title (start desktop_swapped)) = Ok (Some 10).
Proof. repeat split; vm_compute; reflexivity. Qed.

(** ** Restoring a window that is where its record says *)

Lemma clamp_onscreen_run x y width height monitor w :
  existsb (Restore.intersects
             (x, y, x + Z.max 320 width, y + Z.max 220 height))
          (work_areas_of w) = true ->
  Restore.clamp_to_work_areas x y width height monitor w =
  Ok (x, y, Z.max 320 width, Z.max 220 height).
Proof.
  intros Hon.
  unfold Restore.clamp_to_work_areas, qbind, EnumDisplayMonitors.
  rewrite gather_work_areas_spec.
  destruct (work_areas_of w) as [|wa was] eqn:Hwa; [discriminate|].
  now rewrite Hon.
Qed.

Section Still.
Context (env : Env).

(** [position_window] without activation, for a state that is neither
    minimized nor maximized, on a window that exists and a rectangle that
    meets a work area. *)
Lemma position_window_normal_run h x y width height state monitor s win :
  eq_str state "minimized" = false -> eq_str state "maximized" = false ->
  lookup_window (world s) h = Some win ->
  existsb (Restore.intersects
             (x, y, x + Z.max 320 width, y + Z.max 220 height))
          (work_areas_of (world s)) = true ->
  Restore.position_window env h x y width height state monitor false s =
  (Ok tt,
   mkSt (update_window
           (set_rect (x, y, x + Z.max 320 width, y + Z.max 220 height)) h
           (update_window
              (shown SW_RESTORE (shown_rect env (world s) h SW_RESTORE)) h
              (world s)))
        (trace s ++ [EvShowWindow h SW_RESTORE;
                     EvSetWindowPos h x y (Z.max 320 width) (Z.max 220 height)
                       (Z.lor SWP_NOZORDER SWP_NOACTIVATE)])
        (launched_session_apps s)).
Proof.
  intros Hmin Hmax Hl Hon.
  unfold Restore.position_window, try_except. unfold bind at 1. unfold query.
  rewrite (clamp_onscreen_run _ _ _ _ _ _ Hon). rewrite Hmin, Hmax.
  cbn [negb]. unfold bind at 1. rewrite ShowWindow_run, Hl.
  unfold bind at 1. rewrite SetWindowPos_run.
  cbn [world trace launched_session_apps].
  rewrite lookup_update_window by easy. rewrite Hl.
  cbn [fmap option_fmap option_map ret]. now rewrite <- app_assoc.
Qed.

End Still.

(** Restoring a record right after it was captured leaves the window as
    it is: for a window shown normal that is not snapped, measures at
    least 320 by 220, meets a work area and is the one the matcher finds,
    [restore_window] returns [True], the only calls after the lookup are
    [ShowWindow(hwnd, SW_RESTORE)] and a [SetWindowPos] to the rectangle
    the window already has, and no other window is touched. *)
Theorem captured_window_is_restored_in_place env h it im s i x exe s1 :
  lookup_window (world s) h = Some x ->
  Capture.get_window_info env h it im (world s) = Ok (Some i) ->
  Info.state i = Some (PStr "normal") -> Info.snap_type i = None ->
  proc_exe x = Some exe ->
  lower (last_component exe) ∉ Restore.SESSION_MANAGED_APPS ->
  Restore.find_best exe (PStr (text x)) s = (Ok (Some h), s1) ->
  h <> 0 ->
  (let '(r0, r1, r2, r3) := rect x in 320 <= r2 - r0 /\ 220 <= r3 - r1) ->
  existsb (Restore.intersects (rect x)) (work_areas_of (world s)) = true ->
  exists s',
    Restore.restore_window env i s = (Ok true, s') /\
    (let '(r0, r1, r2, r3) := rect x in
     trace s' = trace s1 ++
       [EvShowWindow h SW_RESTORE;
        EvSetWindowPos h r0 r1 (r2 - r0) (r3 - r1)
          (Z.lor SWP_NOZORDER SWP_NOACTIVATE)]) /\
    (rect <$> lookup_window (world s') h) = Some (rect x) /\
    (forall h', h' <> h ->
       lookup_window (world s') h' = lookup_window (world s) h').
Proof.
  intros Hl Hi Hst Hsnap Hexe Hns Hfind Hh Hsize Hon.
  destruct (get_window_info_eval env h it im (world s) x Hl)
    as [m [snap [_ [_ He]]]].
  rewrite He in Hi. destruct (capturable im x); [|discriminate].
  rewrite Hexe in Hi. destruct (rect x) as [[[r0 r1] r2] r3] eqn:Hr.
  injection Hi as <-. cbn [Info.state Info.snap_type] in Hst, Hsnap.
  destruct Hsize as [Hw Hhh].
  destruct (find_best_run exe (PStr (text x)) s) as [d [Hrun _]].
  rewrite Hfind in Hrun. injection Hrun as _ ->.
  apply Z.eqb_neq in Hh.
  unfold Restore.restore_window.
  cbn [dict_get Info.executable Info.title Info.x Info.y Info.width
       Info.height Info.state Info.monitor Info.tabs Info.snap_type].
  cbn [bind ret]. unfold bind at 1. cbn [ret].
  injection Hst as Hst. rewrite Hst. cbn [eq_str String.eqb Ascii.eqb Bool.eqb].
  rewrite (bool_decide_eq_false_2 _ Hns). cbn [andb].
  rewrite (bind_run _ _ _ _ _ Hfind). cbn [Restore.truthy_int]. rewrite Hh.
  cbn [negb]. unfold bind at 1. cbn [ret]. rewrite Hh.
  rewrite Hsnap. cbn [dict_get].
  unfold bind at 1. cbn [Restore.apply_snap_layout truthy negb ret].
  unfold Restore.apply_snap_layout. cbn [truthy negb ret].
  unfold bind at 1.
  rewrite (position_window_normal_run env h r0 r1 (r2 - r0) (r3 - r1)
             (PStr "normal") (Z.of_nat m) _ x eq_refl eq_refl).
  2:{ exact Hl. }
  2:{ cbn [world]. rewrite !Z.max_r by lia.
      now replace (r0 + (r2 - r0)) with r2 by lia;
        replace (r1 + (r3 - r1)) with r3 by lia. }
  rewrite !Z.max_r by lia.
  replace (r0 + (r2 - r0)) with r2 by lia.
  replace (r1 + (r3 - r1)) with r3 by lia.
  unfold Restore.RESTORE_BROWSER_TABS.
  assert (Htabs : forall l : list Tab,
            match l with
            | [] => ret tt
            | _ :: _ => @ret unit tt
            end = ret tt) by (now intros [|]).
  rewrite Htabs. clear Htabs.
  cbn [bind ret].
  eexists. split; [reflexivity|]. cbn [trace world].
  split; [reflexivity|]. split.
  - rewrite (lookup_after_snap _ _ _ _ _ Hl). reflexivity.
  - intros h' Hne.
    assert (Hother : forall w f, (forall y, hwnd (f y) = hwnd y) ->
              lookup_window (update_window f h w) h' = lookup_window w h').
    { intros w f Hf. rewrite lookup_update_window by exact Hf.
      destruct (lookup_window w h') as [y|] eqn:Hy; [|reflexivity].
      cbn. apply lookup_window_hwnd in Hy. rewrite Hy.
      apply Z.eqb_neq in Hne. now rewrite Hne. }
    rewrite !Hother; auto.
Qed.

Lemma captured_window_is_restored_in_place_witness :
  exists s',
    Restore.restore_window env_silent
      (Info.mkInfo (Some (PStr "C:\Apps\notepad.exe"))
                   (Some (PStr "notes.txt - Notepad"))
                   (Some 100) (Some 100) (Some 800) (Some 600)
                   (Some (PStr "normal")) (Some 0) None None)
      (start editor_desktop) = (Ok true, s') /\
    trace s' = [EvEnumWindows] ++
       [EvShowWindow 12 SW_RESTORE;
        EvSetWindowPos 12 100 100 (900 - 100) (700 - 100)
          (Z.lor SWP_NOZORDER SWP_NOACTIVATE)] /\
    (rect <$> lookup_window (world s') 12) = Some (100, 100, 900, 700) /\
    (forall h', h' <> 12 ->
       lookup_window (world s') h' = lookup_window editor_desktop h').
Proof.
  assert (Hns : lower (last_component "C:\Apps\notepad.exe")
                ∉ Restore.SESSION_MANAGED_APPS).
  { intros H. vm_compute in H. discriminate H. }
  apply (captured_window_is_restored_in_place env_silent 12 false false
           (start editor_desktop)
           (Info.mkInfo (Some (PStr "C:\Apps\notepad.exe"))
                        (Some (PStr "notes.txt - Notepad"))
                        (Some 100) (Some 100) (Some 800) (Some 600)
                        (Some (PStr "normal")) (Some 0) None None)
           (win 12 "notepad.exe" "notes.txt - Notepad" (100, 100, 900, 700)
                SW_SHOWNORMAL)
           "C:\Apps\notepad.exe"
           (mkSt editor_desktop [EvEnumWindows] ∅));
    try reflexivity; try exact Hns; try lia.
  cbn. lia.
Defined.

(** ** Names of presets *)

Lemma lower_append a b : lower (a ++ b)%string = (lower a ++ lower b)%string.
Proof.
  induction a as [|c a IH]; [reflexivity|].
  change (String c a ++ b)%string with (String c (a ++ b)%string).
  cbn [lower]. rewrite IH. reflexivity.
Qed.

Lemma lower_length a : String.length (lower a) = String.length a.
Proof. induction a as [|c a IH]; cbn; [reflexivity|now rewrite IH]. Qed.

Lemma lower_string_of_uint d :
  lower (NilEmpty.string_of_uint d) = NilEmpty.string_of_uint d.
Proof. induction d; cbn [NilEmpty.string_of_uint lower]; try rewrite IHd; reflexivity. Qed.

Lemma str_inj a b : str a = str b -> a = b.
Proof.
  unfold str. intros H. apply Unsigned.to_uint_inj.
  pose proof (NilEmpty.usu (Nat.to_uint a)) as Ha.
  pose proof (NilEmpty.usu (Nat.to_uint b)) as Hb.
  rewrite H in Ha. congruence.
Qed.

Lemma append_inj_l s a b : (s ++ a)%string = (s ++ b)%string -> a = b.
Proof.
  induction s as [|c s IH]; [easy|].
  change (String c s ++ a)%string with (String c (s ++ a)%string).
  change (String c s ++ b)%string with (String c (s ++ b)%string).
  intros H. injection H as H. auto.
Qed.

Lemma lower_numbered name k :
  lower (numbered name (S k)) =
  (lower name ++ " (" ++ str (S (S k)) ++ ")")%string.
Proof.
  unfold numbered. rewrite !lower_append. unfold str.
  rewrite lower_string_of_uint. reflexivity.
Qed.

Lemma lower_numbered_inj name a b :
  lower (numbered name a) = lower (numbered name b) -> a = b.
Proof.
  destruct a as [|a], b as [|b]; [easy| | |].
  - rewrite lower_numbered. cbn [numbered]. intros H.
    apply (f_equal String.length) in H. rewrite !append_length in H.
    cbn in H. lia.
  - rewrite lower_numbered. cbn [numbered]. intros H.
    apply (f_equal String.length) in H. rewrite !append_length in H.
    cbn in H. lia.
  - rewrite !lower_numbered. intros H.
    apply append_inj_l in H.
    change (" (" ++ str (S (S a)) ++ ")")%string
      with (String " " (String "(" (str (S (S a)) ++ ")")))%string in H.
    change (" (" ++ str (S (S b)) ++ ")")%string
      with (String " " (String "(" (str (S (S b)) ++ ")")))%string in H.
    injection H as H. apply append_inj_r in H. apply str_inj in H. lia.
Qed.

(** The loop of [save_preset], from round [k] on. *)
Lemma free_name_from name ex : forall fuel k,
  (forall j, (j < k)%nat ->
     existsb (String.eqb (lower (numbered name j))) ex = true) ->
  match Presets.free_name fuel name ex (S k) (numbered name k) with
  | Some final =>
      exists n, (k <= n <= k + fuel)%nat /\ final = numbered name n /\
        existsb (String.eqb (lower final)) ex = false /\
        forall j, (j < n)%nat ->
          existsb (String.eqb (lower (numbered name j))) ex = true
  | None =>
      forall j, (j <= k + fuel)%nat ->
        existsb (String.eqb (lower (numbered name j))) ex = true
  end.
Proof.
  induction fuel as [|fuel IH]; intros k Hk; cbn [Presets.free_name].
  - destruct (existsb _ ex) eqn:E.
    + intros j Hj. destruct (decide (j = k)) as [->|]; [easy|].
      apply Hk. lia.
    + exists k. repeat split; auto; lia.
  - destruct (existsb _ ex) eqn:E.
    + cbv zeta.
      change (name ++ " (" ++ str (S (S k)) ++ ")")%string
        with (numbered name (S k)).
      assert (Hk' : forall j, (j < S k)%nat ->
                existsb (String.eqb (lower (numbered name j))) ex = true).
      { intros j Hj. destruct (decide (j = k)) as [->|]; [easy|].
        apply Hk. lia. }
      specialize (IH (S k) Hk').
      destruct (Presets.free_name fuel name ex (S (S k)) (numbered name (S k))).
      * destruct IH as [n [Hn H]]. exists n. split; [lia|easy].
      * intros j Hj. apply IH. lia.
    + exists k. repeat split; auto; lia.
Qed.

Lemma existsb_eqb_In (x : string) l :
  existsb (String.eqb x) l = true -> In x l.
Proof.
  intros H. apply existsb_exists in H as [y [Hy E]].
  apply String.eqb_eq in E. now subst.
Qed.

(** The names [save_preset] may try are pairwise different up to case, so
    a list of [n] names in use cannot hold [n + 1] of them. *)
Lemma numbered_not_all_taken name ex :
  (forall j, (j <= length ex)%nat ->
     existsb (String.eqb (lower (numbered name j))) ex = true) -> False.
Proof.
  intros H.
  pose (l := map (fun j => lower (numbered name j)) (seq 0 (S (length ex)))).
  assert (Hnd : List.NoDup l).
  { apply Finite.Injective_map_NoDup_in; [|apply List.seq_NoDup].
    intros a b _ _. apply lower_numbered_inj. }
  assert (Hincl : incl l ex).
  { intros x Hx. apply List.in_map_iff in Hx as [j [<- Hj]].
    apply List.in_seq in Hj. apply existsb_eqb_In, H. lia. }
  pose proof (List.NoDup_incl_length Hnd Hincl) as Hlen.
  unfold l in Hlen. rewrite length_map, length_seq in Hlen. lia.
Qed.

(** The loop of [save_preset] ends after at most as many rounds as there
    are names in use, with the first of [name], [name (2)], [name (3)],
    ... that is not in use up to case. *)
Lemma free_name_ends name ex :
  exists final n,
    Presets.free_name (length ex) name ex 1 name = Some final /\
    (n <= length ex)%nat /\
    final = numbered name n /\
    existsb (String.eqb (lower final)) ex = false /\
    (forall j, (j < n)%nat ->
       existsb (String.eqb (lower (numbered name j))) ex = true).
Proof.
  pose proof (free_name_from name ex (length ex) 0%nat) as H.
  change (numbered name 0) with name in H.
  destruct (Presets.free_name (length ex) name ex 1 name) as [final|].
  - destruct H as [n [Hn [-> [Hf Hj]]]]; [intros j Hj; lia|].
    exists (numbered name n), n. repeat split; auto. lia.
  - exfalso. apply (numbered_not_all_taken name ex).
    intros j Hj. apply H; [intros j' Hj'; lia|lia].
Qed.

(** ** The preset store *)

Lemma find_app_l {A} (f : A -> bool) l l' x :
  List.find f l = Some x -> List.find f (l ++ l') = Some x.
Proof.
  induction l as [|y l IH]; [easy|]. cbn. destruct (f y); auto.
Qed.

Lemma find_app_r {A} (f : A -> bool) l l' :
  List.find f l = None -> List.find f (l ++ l') = List.find f l'.
Proof.
  induction l as [|y l IH]; [easy|]. cbn. destruct (f y); [easy|auto].
Qed.

Lemma find_name_taken ps n :
  List.find (fun p => String.eqb (lower (PresetDict.name p)) (lower n)) ps
  = None <-> name_taken ps n = false.
Proof.
  unfold name_taken. induction ps as [|p ps IH]; [easy|]. cbn.
  rewrite (String.eqb_sym (lower n)).
  destruct (String.eqb (lower (PresetDict.name p)) (lower n)); cbn; [easy|].
  apply IH.
Qed.

Lemma load_preset_stored name d ps :
  stored d = Some ps ->
  Presets.load_preset name d =
  (Returns (List.find (fun p => String.eqb (lower (PresetDict.name p))
                                           (lower name)) ps), d).
Proof.
  destruct d as [[| | |[o]] bf wr]; cbn; try discriminate.
  now intros ->.
Qed.

Lemma opened_cases d :
  match presets_file d with
  | Missing | Unreadable => opened d = (Returns [], d)
  | Corrupt =>
      match backup_file d with
      | Missing => opened d = (Returns [], mkDisk Missing Corrupt (writable d))
      | _ => opened d = (Raises FileExistsError, d)
      end
  | Json (mkData (Some ps)) => opened d = (Returns ps, d)
  | Json (mkData None) => opened d = (Raises KeyError, d)
  end.
Proof.
  destruct d as [[| | |[[ps|]]] bf wr]; cbn; try reflexivity.
  destruct bf; reflexivity.
Qed.

Lemma opened_writable d r d' :
  opened d = (r, d') -> writable d' = writable d.
Proof.
  pose proof (opened_cases d) as H.
  destruct d as [[| | |[[ps|]]] bf wr]; cbn [presets_file backup_file] in H;
    try (rewrite H; intros [= <- <-]; reflexivity).
  destruct bf; rewrite H; intros [= <- <-]; reflexivity.
Qed.

Lemma opened_stored d ps d' :
  opened d = (Returns ps, d') -> stored d' = Some ps \/ (ps = [] /\ stored d' = None).
Proof.
  pose proof (opened_cases d) as H.
  destruct d as [[| | |[[ps'|]]] bf wr]; cbn [presets_file backup_file] in H;
    try (rewrite H; intros [= <- <-]; auto).
  destruct bf; rewrite H; intros [= <- <-]; auto.
Qed.

Lemma via_opened {A} (body : list Preset -> IO Disk A) d :
  (data <-- Presets._load_presets ;;
   presets <-- item (presets data) ;;
   body presets) d =
  match opened d with
  | (Returns ps, d1) => body ps d1
  | (Raises e, d1) => (Raises e, d1)
  | (Unbounded, d1) => (Unbounded, d1)
  end.
Proof.
  unfold opened, io_bind.
  destruct (Presets._load_presets d) as [[data|e|] d1]; [|reflexivity..].
  destruct (item (presets data) d1) as [[ps|e|] d2]; reflexivity.
Qed.

Lemma opened_stored_eq d ps : stored d = Some ps -> opened d = (Returns ps, d).
Proof.
  destruct d as [[| | |[[ps'|]]] bf wr]; cbn; try discriminate.
  now intros [= ->].
Qed.

(** Reading never gives presets that the file does not hold. *)
Lemma opened_nonempty d p ps d1 :
  opened d = (Returns (p :: ps), d1) -> stored d = Some (p :: ps) /\ d1 = d.
Proof.
  pose proof (opened_cases d) as H.
  destruct d as [[| | |[[ps'|]]] bf wr]; cbn [presets_file backup_file] in H;
    try destruct bf; rewrite H; intros E; inversion E; subst; auto.
Qed.

Lemma load_preset_run name d :
  Presets.load_preset name d =
  match opened d with
  | (Returns ps, d1) =>
      (Returns (List.find (fun p => String.eqb (lower (PresetDict.name p))
                                               (lower name)) ps), d1)
  | (Raises e, d1) => (Raises e, d1)
  | (Unbounded, d1) => (Unbounded, d1)
  end.
Proof. apply (via_opened (fun ps => io_ret _)). Qed.

Lemma delete_preset_run name d :
  Presets.delete_preset name d =
  match opened d with
  | (Returns ps, d1) =>
      let ps' := List.filter
                   (fun p => negb (String.eqb (lower (PresetDict.name p))
                                              (lower name))) ps in
      if (length ps' <? length ps)%nat then
        if writable d1
        then (Returns true, mkDisk (Json (mkData (Some ps'))) (backup_file d1)
                                   (writable d1))
        else (Returns false, d1)
      else (Returns false, d1)
  | (Raises e, d1) => (Raises e, d1)
  | (Unbounded, d1) => (Unbounded, d1)
  end.
Proof.
  unfold Presets.delete_preset. rewrite via_opened.
  destruct (opened d) as [[ps|e|] d1]; [|reflexivity..].
  cbv zeta. destruct (_ <? _)%nat; [|reflexivity].
  unfold io_bind, Presets._save_presets. destruct (writable d1); reflexivity.
Qed.

Lemma filter_length_lt {A} (f : A -> bool) l :
  (length (List.filter f l) <? length l)%nat = existsb (fun x => negb (f x)) l.
Proof.
  induction l as [|x l IH]; [reflexivity|].
  cbn [List.filter existsb length].
  pose proof (List.filter_length_le f l) as Hle.
  destruct (f x); cbn [length negb orb].
  - rewrite <- IH. reflexivity.
  - apply Nat.ltb_lt. lia.
Qed.

Lemma find_none_existsb {A} (f : A -> bool) l :
  List.find f l = None <-> existsb f l = false.
Proof.
  induction l as [|x l IH]; [easy|]. cbn. destruct (f x); [easy|apply IH].
Qed.

Lemma find_filter_none {A} (f : A -> bool) l :
  List.find f (List.filter (fun x => negb (f x)) l) = None.
Proof.
  induction l as [|x l IH]; [reflexivity|]. cbn.
  destruct (f x) eqn:E; cbn; [exact IH|]. now rewrite E.
Qed.

Lemma find_filter_same {A} (f g : A -> bool) l :
  (forall x, f x = true -> g x = true) ->
  List.find f (List.filter g l) = List.find f l.
Proof.
  intros H. induction l as [|x l IH]; [reflexivity|]. cbn.
  destruct (f x) eqn:E.
  - rewrite (H x E). cbn. now rewrite E.
  - destruct (g x); cbn; [now rewrite E|exact IH].
Qed.

Lemma existsb_negb_negb {A} (f : A -> bool) l :
  existsb (fun x => negb (negb (f x))) l = existsb f l.
Proof.
  induction l as [|x l IH]; [reflexivity|]. cbn.
  now rewrite negb_involutive, IH.
Qed.

Lemma filter_all {A} (f : A -> bool) l :
  existsb (fun x => negb (f x)) l = false -> List.filter f l = l.
Proof.
  induction l as [|x l IH]; [reflexivity|]. cbn.
  destruct (f x); cbn; [|discriminate]. intros H. now rewrite IH.
Qed.

Section Store.
Context (uuid4 now : string).

Lemma save_preset_run name ws d :
  let ps := match fst (opened d) with Returns ps => ps | _ => [] end in
  exists final n,
    (n <= length ps)%nat /\ final = numbered name n /\
    name_taken ps final = false /\
    (forall j, (j < n)%nat -> name_taken ps (numbered name j) = true) /\
    Presets.save_preset uuid4 now name ws d =
    match opened d with
    | (Returns ps, d1) =>
        if writable d1
        then (Returns true,
              mkDisk (Json (mkData (Some (ps ++ [PresetDict.mkPreset
                                uuid4 final (Some now) (Some ws)]))))
                     (backup_file d1) (writable d1))
        else (Returns false, d1)
    | (Raises e, d1) => (Raises e, d1)
    | (Unbounded, d1) => (Unbounded, d1)
    end.
Proof.
  unfold Presets.save_preset, opened, io_bind.
  destruct (Presets._load_presets d) as [[data|e|] d1]; cbn [fst];
    [|exists name, 0%nat; repeat split; (lia || easy)..].
  destruct (item (presets data) d1) as [[ps|e|] d2] eqn:E; cbn [fst];
    [|exists name, 0%nat; repeat split; (lia || easy)..].
  destruct (free_name_ends name (map (fun p => lower (PresetDict.name p)) ps))
    as [final [n [Hf [Hn [Hfinal [Hfree Hbefore]]]]]].
  rewrite Hf. exists final, n. rewrite length_map in Hn.
  repeat split; auto.
  unfold Presets._save_presets. destruct (writable d2); reflexivity.
Qed.

End Store.

(** On a file that holds presets and can be written, [save_preset]
    returns [True] and appends one preset, leaving the others as they
    are; the new preset holds the windows given, under the first unused
    name among [name], [name (2)], ... *)
Theorem save_preset_appends uuid4 now name ws d ps :
  stored d = Some ps -> writable d = true ->
  exists final n,
    Presets.save_preset uuid4 now name ws d =
      (Returns true,
       mkDisk (Json (mkData (Some (ps ++ [PresetDict.mkPreset
                         uuid4 final (Some now) (Some ws)]))))
              (backup_file d) true) /\
    final = numbered name n /\ (n <= length ps)%nat /\
    name_taken ps final = false /\
    (forall j, (j < n)%nat -> name_taken ps (numbered name j) = true) /\
    (name_taken ps name = false -> final = name).
Proof.
  intros Hs Hw.
  destruct (save_preset_run uuid4 now name ws d)
    as [final [n [Hn [Hfinal [Hfree [Hbefore Hrun]]]]]].
  pose proof (opened_cases d) as Ho.
  destruct d as [[| | |[[ps'|]]] bf wr]; cbn in Hs; try discriminate.
  injection Hs as ->. cbn [presets_file] in Ho. cbn in Hw. subst wr.
  rewrite Ho in *. cbn [fst writable backup_file] in *.
  exists final, n. repeat split; auto.
  intros Hname. destruct n as [|n]; [easy|].
  specialize (Hbefore 0%nat ltac:(lia)). cbn [numbered] in Hbefore.
  congruence.
Qed.

Lemma save_preset_appends_witness :
  exists final n,
    Presets.save_preset "id-2" "t" "Work" two_firefox
      (disk_with [sample_preset "work"; sample_preset "Work (2)"]) =
      (Returns true,
       mkDisk (Json (mkData (Some ([sample_preset "work";
                                    sample_preset "Work (2)"] ++
                        [PresetDict.mkPreset "id-2" final (Some "t")
                                             (Some two_firefox)]))))
              Missing true) /\
    final = numbered "Work" n /\ (n <= 2)%nat /\
    name_taken [sample_preset "work"; sample_preset "Work (2)"] final = false /\
    (forall j, (j < n)%nat ->
       name_taken [sample_preset "work"; sample_preset "Work (2)"]
                  (numbered "Work" j) = true) /\
    (name_taken [sample_preset "work"; sample_preset "Work (2)"] "Work" = false
     -> final = "Work").
Proof.
  apply (save_preset_appends "id-2" "t" "Work" two_firefox
           (disk_with [sample_preset "work"; sample_preset "Work (2)"])
           [sample_preset "work"; sample_preset "Work (2)"]);
    reflexivity.
Defined.

(** The third name is the one chosen when the first two are in use. *)
Example save_preset_third_name :
  stored (snd (Presets.save_preset "id-2" "t" "Work" two_firefox
                 (disk_with [sample_preset "work"; sample_preset "Work (2)"])))
  = Some [sample_preset "work"; sample_preset "Work (2)";
          PresetDict.mkPreset "id-2" "Work (3)" (Some "t") (Some two_firefox)].
Proof. reflexivity. Qed.

(** A successful [save_preset] under a name that was not in use leaves a
    file that holds the presets read before and, after them, the new
    preset under that very name. *)
Lemma save_preset_unused_name uuid4 now name ws d d' :
  Presets.save_preset uuid4 now name ws d = (Returns true, d') ->
  fst (Presets.load_preset name d) = Returns None ->
  exists ps,
    List.find (named name) ps = None /\
    stored d' = Some (ps ++ [PresetDict.mkPreset uuid4 name (Some now)
                                                 (Some ws)]).
Proof.
  intros Hsave Hload.
  destruct (save_preset_run uuid4 now name ws d)
    as [final [n [Hn [Hfinal [Hfree [Hbefore Hrun]]]]]].
  rewrite Hrun in Hsave. rewrite load_preset_run in Hload.
  destruct (opened d) as [[ps|e|] d1]; try discriminate.
  cbn [fst] in *. injection Hload as Hload.
  destruct (writable d1) eqn:Hw; [|discriminate].
  injection Hsave as <-.
  assert (final = name) as ->.
  { destruct n as [|n]; [easy|].
    specialize (Hbefore 0%nat ltac:(lia)). cbn [numbered] in Hbefore.
    apply find_name_taken in Hload. congruence. }
  exists ps. split; [exact Hload|reflexivity].
Qed.

(** A preset saved under a name that was not in use is the one
    [load_preset] then returns for that name, with the windows given:
    whatever the presets file was before. *)
Theorem save_then_load uuid4 now name ws d d' :
  Presets.save_preset uuid4 now name ws d = (Returns true, d') ->
  fst (Presets.load_preset name d) = Returns None ->
  Presets.load_preset name d' =
    (Returns (Some (PresetDict.mkPreset uuid4 name (Some now) (Some ws))), d').
Proof.
  intros Hsave Hload.
  destruct (save_preset_unused_name uuid4 now name ws d d' Hsave Hload)
    as [ps [Hfind Hs]].
  rewrite (load_preset_stored _ _ _ Hs).
  fold (named name). rewrite (find_app_r _ _ _ Hfind).
  cbn [List.find]. unfold named at 1. cbn [PresetDict.name].
  now rewrite String.eqb_refl.
Qed.

Lemma save_then_load_witness :
  Presets.load_preset "Home"
    (snd (Presets.save_preset "id-2" "t" "Home" two_firefox
            (mkDisk Corrupt Missing true))) =
    (Returns (Some (PresetDict.mkPreset "id-2" "Home" (Some "t")
                                        (Some two_firefox))),
     snd (Presets.save_preset "id-2" "t" "Home" two_firefox
            (mkDisk Corrupt Missing true))).
Proof.
  apply (save_then_load "id-2" "t" "Home" two_firefox
           (mkDisk Corrupt Missing true)); reflexivity.
Defined.

(** [save_preset] never replaces or hides a stored preset: a name that
    [load_preset] resolved before the call resolves to the same preset
    after it, whether the call reports success or not. *)
Theorem save_preset_keeps_existing uuid4 now name ws d n p :
  fst (Presets.load_preset n d) = Returns (Some p) ->
  fst (Presets.load_preset n (snd (Presets.save_preset uuid4 now name ws d)))
    = Returns (Some p).
Proof.
  intros Hload.
  destruct (save_preset_run uuid4 now name ws d)
    as [final [k [_ [_ [_ [_ Hrun]]]]]].
  rewrite Hrun. rewrite load_preset_run in Hload.
  destruct (opened d) as [[ps|e|] d1] eqn:Ho; try discriminate.
  cbn [fst] in Hload. injection Hload as Hload.
  destruct ps as [|q ps]; [discriminate|].
  apply opened_nonempty in Ho as [Hs ->].
  destruct (writable d); cbn [snd].
  - rewrite load_preset_run, (opened_stored_eq _ ((q :: ps) ++ [_]))
      by reflexivity.
    cbn [fst]. now rewrite (find_app_l _ _ _ _ Hload).
  - rewrite load_preset_run, (opened_stored_eq _ _ Hs). cbn [fst].
    now rewrite Hload.
Qed.

Lemma save_preset_keeps_existing_witness :
  fst (Presets.load_preset "WORK"
         (snd (Presets.save_preset "id-2" "t" "Work" two_firefox
                 (disk_with [sample_preset "work"]))))
    = Returns (Some (sample_preset "work")).
Proof.
  apply (save_preset_keeps_existing "id-2" "t" "Work" two_firefox
           (disk_with [sample_preset "work"]) "WORK" (sample_preset "work")).
  reflexivity.
Defined.

Lemma NoDup_snoc {A} (l : list A) x :
  List.NoDup l -> ~ In x l -> List.NoDup (l ++ [x]).
Proof.
  induction 1 as [|y l Hy Hl IH]; intros Hx; cbn.
  - constructor; [easy|constructor].
  - constructor.
    + rewrite List.in_app_iff. intros [H|[H|[]]]; [easy|].
      subst. apply Hx. now left.
    + apply IH. intros H. apply Hx. now right.
Qed.

Lemma name_taken_In ps n :
  name_taken ps n = false ->
  ~ In (lower n) (map (fun p => lower (PresetDict.name p)) ps).
Proof.
  unfold name_taken. intros H Hin.
  assert (existsb (String.eqb (lower n))
            (map (fun p => lower (PresetDict.name p)) ps) = true); [|congruence].
  apply existsb_exists. exists (lower n). split; [easy|apply String.eqb_refl].
Qed.

(** [save_preset] keeps the stored names pairwise different up to case. *)
Theorem save_preset_keeps_names_distinct uuid4 now name ws d :
  names_distinct d ->
  names_distinct (snd (Presets.save_preset uuid4 now name ws d)).
Proof.
  intros Hd.
  destruct (save_preset_run uuid4 now name ws d)
    as [final [k [_ [_ [Hfree [_ Hrun]]]]]].
  rewrite Hrun. clear Hrun.
  destruct (opened d) as [[ps|e|] d1] eqn:Ho; cbn [fst snd] in *.
  - destruct (writable d1) eqn:Hw; cbn [snd].
    + unfold names_distinct. cbn [stored presets_file presets].
      rewrite map_app. cbn [map PresetDict.name].
      apply NoDup_snoc; [|now apply name_taken_In].
      destruct ps as [|q ps]; [constructor|].
      apply opened_nonempty in Ho as [Hs ->].
      unfold names_distinct in Hd. now rewrite Hs in Hd.
    + destruct (opened_stored _ _ _ Ho) as [Hs|[-> Hs]];
        unfold names_distinct; rewrite Hs; [|exact I].
      destruct ps as [|q ps]; [constructor|].
      apply opened_nonempty in Ho as [Hs' ->].
      unfold names_distinct in Hd. now rewrite Hs' in Hd.
  - pose proof (opened_cases d) as Hc.
    destruct d as [[| | |[[ps|]]] bf wr];
      cbn [presets_file backup_file] in Hc; try destruct bf;
      rewrite Hc in Ho; inversion Ho; subst; exact Hd.
  - pose proof (opened_cases d) as Hc.
    destruct d as [[| | |[[ps|]]] bf wr];
      cbn [presets_file backup_file] in Hc; try destruct bf;
      rewrite Hc in Ho; inversion Ho.
Qed.

Lemma save_preset_keeps_names_distinct_witness :
  names_distinct
    (snd (Presets.save_preset "id-2" "t" "Work" two_firefox
            (disk_with [sample_preset "work"; sample_preset "Work (2)"]))).
Proof.
  apply (save_preset_keeps_names_distinct "id-2" "t" "Work" two_firefox
           (disk_with [sample_preset "work"; sample_preset "Work (2)"])).
  unfold names_distinct. cbn.
  repeat constructor; cbn; intros H; repeat destruct H as [H|H];
    try discriminate H; exact H.
Defined.

(** ** Deleting and renaming *)

(** When [delete_preset] returns [True], the name no longer resolves, and
    every name that differs from it up to case resolves as before. *)
Theorem delete_preset_removes name d d' :
  Presets.delete_preset name d = (Returns true, d') ->
  fst (Presets.load_preset name d') = Returns None /\
  (forall n, String.eqb (lower n) (lower name) = false ->
     fst (Presets.load_preset n d') = fst (Presets.load_preset n d)) /\
  backup_file d' = backup_file d.
Proof.
  rewrite delete_preset_run.
  destruct (opened d) as [[ps|e|] d1] eqn:Ho; try discriminate.
  cbv zeta. destruct (_ <? _)%nat eqn:Hlt; [|discriminate].
  destruct (writable d1) eqn:Hw; [|discriminate].
  intros [= <-].
  destruct ps as [|q ps]; [discriminate|].
  apply opened_nonempty in Ho as [Hs ->].
  repeat split.
  - rewrite load_preset_run, (opened_stored_eq _ (List.filter _ (q :: ps)))
      by reflexivity.
    cbn [fst]. f_equal.
    apply (find_filter_none
             (fun p => String.eqb (lower (PresetDict.name p)) (lower name))).
  - intros n Hn.
    rewrite !load_preset_run, (opened_stored_eq _ _ Hs),
      (opened_stored_eq _ (List.filter _ (q :: ps))) by reflexivity.
    cbn [fst]. f_equal. apply find_filter_same.
    intros x Hx. apply String.eqb_eq in Hx. rewrite Hx, Hn. reflexivity.
Qed.

Lemma delete_preset_removes_witness :
  fst (Presets.load_preset "WORK"
         (disk_with [sample_preset "Home"])) = Returns None /\
  (forall n, String.eqb (lower n) (lower "WORK") = false ->
     fst (Presets.load_preset n (disk_with [sample_preset "Home"])) =
     fst (Presets.load_preset n
            (disk_with [sample_preset "work"; sample_preset "Home";
                        sample_preset "Work"]))) /\
  backup_file (disk_with [sample_preset "Home"]) = Missing.
Proof.
  apply (delete_preset_removes "WORK"
           (disk_with [sample_preset "work"; sample_preset "Home";
                       sample_preset "Work"])
           (disk_with [sample_preset "Home"])).
  reflexivity.
Defined.

(** For a name that does not resolve, [delete_preset] returns [False] and
    writes nothing: the disk is as [load_preset] leaves it. *)
Theorem delete_preset_unknown_name name d :
  fst (Presets.load_preset name d) = Returns None ->
  Presets.delete_preset name d = (Returns false, snd (Presets.load_preset name d)).
Proof.
  rewrite delete_preset_run, load_preset_run.
  destruct (opened d) as [[ps|e|] d1]; try discriminate.
  cbn [fst snd]. intros [= Hf]. cbv zeta.
  rewrite filter_length_lt.
  apply find_none_existsb in Hf.
  rewrite existsb_negb_negb, Hf. reflexivity.
Qed.

Lemma delete_preset_unknown_name_witness :
  Presets.delete_preset "Games" (disk_with [sample_preset "work"]) =
  (Returns false,
   snd (Presets.load_preset "Games" (disk_with [sample_preset "work"]))).
Proof.
  apply (delete_preset_unknown_name "Games" (disk_with [sample_preset "work"])).
  reflexivity.
Defined.

Lemma rename_loop_read_only old_name new_name : forall todo done d,
  writable d = false ->
  Presets.rename_loop old_name new_name done todo d = (Returns false, d).
Proof.
  induction todo as [|p todo IH]; intros done d Hw; [reflexivity|].
  cbn [Presets.rename_loop].
  destruct (String.eqb _ _); [|now apply IH].
  cbv zeta. unfold io_bind, Presets._save_presets. rewrite Hw. now apply IH.
Qed.

Lemma rename_loop_run old_name new_name : forall todo done d,
  writable d = true ->
  match List.find (named old_name) todo with
  | Some p =>
      exists pre post,
        todo = pre ++ p :: post /\
        Forall (fun q => named old_name q = false) pre /\
        Presets.rename_loop old_name new_name done todo d =
        (Returns true,
         mkDisk (Json (mkData (Some (done ++ pre ++
                                     Presets.set_name new_name p :: post))))
                (backup_file d) true)
  | None => Presets.rename_loop old_name new_name done todo d = (Returns false, d)
  end.
Proof.
  induction todo as [|p todo IH]; intros done d Hw; [reflexivity|].
  cbn [Presets.rename_loop List.find]. unfold named at 1.
  destruct (String.eqb _ _) eqn:E.
  - exists [], todo. repeat split; [constructor|].
    cbv zeta. unfold io_bind, Presets._save_presets. rewrite Hw. reflexivity.
  - specialize (IH (done ++ [p]) d Hw).
    destruct (List.find (named old_name) todo) as [q|]; [|exact IH].
    destruct IH as [pre [post [-> [Hpre Hrun]]]].
    exists (p :: pre), post. repeat split.
    + constructor; [exact E|exact Hpre].
    + rewrite Hrun. now rewrite <- app_assoc.
Qed.

Lemma rename_preset_run old_name new_name d :
  Presets.rename_preset old_name new_name d =
  match opened d with
  | (Returns ps, d1) => Presets.rename_loop old_name new_name [] ps d1
  | (Raises e, d1) => (Raises e, d1)
  | (Unbounded, d1) => (Unbounded, d1)
  end.
Proof. apply (via_opened (fun ps => Presets.rename_loop _ _ [] ps)). Qed.

(** On a file that holds presets and can be written, [rename_preset]
    renames the first preset that has the old name up to case, keeps its
    id, date and windows, and leaves every other preset as it is; when no
    preset has that name it returns [False] and writes nothing. *)
Theorem rename_preset_renames_first_match old_name new_name d ps :
  stored d = Some ps -> writable d = true ->
  match List.find (named old_name) ps with
  | Some p =>
      exists pre post,
        ps = pre ++ p :: post /\
        Forall (fun q => named old_name q = false) pre /\
        Presets.rename_preset old_name new_name d =
        (Returns true,
         mkDisk (Json (mkData (Some (pre ++ PresetDict.mkPreset
                                       (PresetDict.id p) new_name
                                       (PresetDict.created p)
                                       (PresetDict.windows p) :: post))))
                (backup_file d) true)
  | None => Presets.rename_preset old_name new_name d = (Returns false, d)
  end.
Proof.
  intros Hs Hw. rewrite rename_preset_run, (opened_stored_eq _ _ Hs).
  apply (rename_loop_run old_name new_name ps [] d Hw).
Qed.

Lemma rename_preset_renames_first_match_witness :
  exists pre post,
    [sample_preset "Home"; sample_preset "work"] =
      pre ++ sample_preset "work" :: post /\
    Forall (fun q => named "WORK" q = false) pre /\
    Presets.rename_preset "WORK" "Office"
      (disk_with [sample_preset "Home"; sample_preset "work"]) =
    (Returns true,
     mkDisk (Json (mkData (Some (pre ++ PresetDict.mkPreset
                                   "id-1" "Office"
                                   (Some "2024-01-01T00:00:00")
                                   (Some layout3) :: post))))
            Missing true).
Proof.
  apply (rename_preset_renames_first_match "WORK" "Office"
           (disk_with [sample_preset "Home"; sample_preset "work"])
           [sample_preset "Home"; sample_preset "work"]);
    reflexivity.
Defined.

(** [rename_preset] does not look at the other names: renaming a preset
    to a name that another preset has up to case leaves two presets under
    that name, and [load_preset] resolves it to the one stored first. *)
Theorem rename_preset_may_duplicate old_name new_name d pre p mid q post :
  stored d = Some (pre ++ p :: mid ++ q :: post) -> writable d = true ->
  Forall (fun r => named old_name r = false) (pre ++ p :: mid) ->
  Forall (fun r => named new_name r = false) pre ->
  named new_name p = true -> named old_name q = true ->
  exists d',
    Presets.rename_preset old_name new_name d = (Returns true, d') /\
    stored d' = Some (pre ++ p :: mid ++
                      PresetDict.mkPreset (PresetDict.id q) new_name
                        (PresetDict.created q) (PresetDict.windows q) :: post) /\
    fst (Presets.load_preset new_name d') = Returns (Some p).
Proof.
  intros Hs Hw Hold Hnew Hp Hq.
  rewrite rename_preset_run, (opened_stored_eq _ _ Hs).
  pose proof (rename_loop_run old_name new_name
                (pre ++ p :: mid ++ q :: post) [] d Hw) as H.
  assert (Hfind : List.find (named old_name) (pre ++ p :: mid ++ q :: post)
                  = Some q).
  { change (pre ++ p :: mid ++ q :: post) with (pre ++ (p :: mid) ++ q :: post).
    rewrite app_assoc. rewrite find_app_r.
    - cbn. now rewrite Hq.
    - apply find_none_existsb. apply not_true_is_false. intros Hex.
      apply existsb_exists in Hex as [r [Hr Hn]].
      rewrite List.Forall_forall in Hold. rewrite (Hold r Hr) in Hn.
      discriminate. }
  rewrite Hfind in H. destruct H as [pre' [post' [Heq [Hpre' Hrun]]]].
  assert (pre' = pre ++ p :: mid /\ post' = post) as [-> ->].
  { change (pre ++ p :: mid ++ q :: post)
      with (pre ++ (p :: mid) ++ q :: post) in Heq.
    rewrite app_assoc in Heq.
    revert Heq Hold Hpre'. generalize (pre ++ p :: mid). clear -Hq.
    intros l. revert pre'.
    induction l as [|a l IH]; intros [|b pre'] Heq Hl Hpre'; cbn in Heq.
    - now injection Heq as ->.
    - injection Heq as <- _. inversion Hpre'; subst. congruence.
    - injection Heq as -> _. inversion Hl; subst. congruence.
    - injection Heq as -> Heq. inversion Hl; inversion Hpre'; subst.
      destruct (IH pre' Heq) as [-> ->]; auto. }
  eexists. split; [exact Hrun|]. cbn [app] in *. split.
  - cbn [stored presets_file presets]. now rewrite <- app_assoc.
  - rewrite load_preset_run.
    rewrite (opened_stored_eq _ ((pre ++ p :: mid) ++ _)) by reflexivity.
    cbn [fst]. f_equal. rewrite <- app_assoc. rewrite find_app_r.
    + cbn [app List.find]. fold (named new_name p). now rewrite Hp.
    + apply find_none_existsb. apply not_true_is_false. intros Hex.
      apply existsb_exists in Hex as [r [Hr Hn]].
      rewrite List.Forall_forall in Hnew.
      fold (named new_name r) in Hn. rewrite (Hnew r Hr) in Hn.
      discriminate.
Qed.

Lemma rename_preset_may_duplicate_witness :
  exists d',
    Presets.rename_preset "Work" "home"
      (disk_with ([] ++ sample_preset "Home" :: [] ++ sample_preset "work" :: []))
      = (Returns true, d') /\
    stored d' = Some ([] ++ sample_preset "Home" :: [] ++
                      PresetDict.mkPreset "id-1" "home"
                        (Some "2024-01-01T00:00:00") (Some layout3) :: []) /\
    fst (Presets.load_preset "home" d') = Returns (Some (sample_preset "Home")).
Proof.
  apply (rename_preset_may_duplicate "Work" "home"
           (disk_with ([] ++ sample_preset "Home" :: [] ++
                       sample_preset "work" :: []))
           [] (sample_preset "Home") [] (sample_preset "work") []);
    try reflexivity; repeat constructor.
Defined.

(** ** The states of the presets file *)

Lemma methods_after_opened uuid4 now d e d1 :
  opened d = (Raises e, d1) ->
  (forall name ws,
     Presets.save_preset uuid4 now name ws d = (Raises e, d1)) /\
  (forall name, Presets.load_preset name d = (Raises e, d1)) /\
  (forall i, Presets.load_preset_by_id i d = (Raises e, d1)) /\
  Presets.list_presets d = (Raises e, d1) /\
  Presets.get_preset_names d = (Raises e, d1) /\
  (forall name, Presets.delete_preset name d = (Raises e, d1)) /\
  (forall i, Presets.delete_preset_by_id i d = (Raises e, d1)) /\
  (forall old_name new_name,
     Presets.rename_preset old_name new_name d = (Raises e, d1)).
Proof.
  intros Ho.
  assert (H : forall A (body : list Preset -> IO Disk A),
             (data <-- Presets._load_presets ;;
              presets <-- item (presets data) ;;
              body presets) d = (Raises e, d1)).
  { intros A body. now rewrite via_opened, Ho. }
  split.
  { intros name ws.
    destruct (save_preset_run uuid4 now name ws d) as [f [n [_ [_ [_ [_ Hr]]]]]].
    now rewrite Hr, Ho. }
  repeat split; intros; try apply H.
  unfold Presets.get_preset_names, io_bind.
  unfold Presets.list_presets. now rewrite H.
Qed.

(** When the presets file is not JSON and a backup file is already there,
    or when the JSON object has no ['presets'] key, every method of the
    manager raises ([FileExistsError], [KeyError]) and the disk stays as
    it is. *)
Theorem preset_methods_raise uuid4 now d e :
  (presets_file d = Corrupt /\ file_exists (backup_file d) = true /\
   e = FileExistsError) \/
  (presets_file d = Json (mkData None) /\ e = KeyError) ->
  (forall name ws,
     Presets.save_preset uuid4 now name ws d = (Raises e, d)) /\
  (forall name, Presets.load_preset name d = (Raises e, d)) /\
  (forall i, Presets.load_preset_by_id i d = (Raises e, d)) /\
  Presets.list_presets d = (Raises e, d) /\
  Presets.get_preset_names d = (Raises e, d) /\
  (forall name, Presets.delete_preset name d = (Raises e, d)) /\
  (forall i, Presets.delete_preset_by_id i d = (Raises e, d)) /\
  (forall old_name new_name,
     Presets.rename_preset old_name new_name d = (Raises e, d)).
Proof.
  intros H. apply methods_after_opened.
  pose proof (opened_cases d) as Ho.
  destruct H as [[Hf [Hb ->]]|[Hf ->]]; rewrite Hf in Ho.
  - destruct (backup_file d); [discriminate|exact Ho..].
  - exact Ho.
Qed.

Lemma preset_methods_raise_witness :
  (forall name ws,
     Presets.save_preset "id-2" "t" name ws (mkDisk Corrupt Corrupt true)
     = (Raises FileExistsError, mkDisk Corrupt Corrupt true)) /\
  (forall name, Presets.load_preset name (mkDisk Corrupt Corrupt true)
                = (Raises FileExistsError, mkDisk Corrupt Corrupt true)) /\
  (forall i, Presets.load_preset_by_id i (mkDisk Corrupt Corrupt true)
             = (Raises FileExistsError, mkDisk Corrupt Corrupt true)) /\
  Presets.list_presets (mkDisk Corrupt Corrupt true)
    = (Raises FileExistsError, mkDisk Corrupt Corrupt true) /\
  Presets.get_preset_names (mkDisk Corrupt Corrupt true)
    = (Raises FileExistsError, mkDisk Corrupt Corrupt true) /\
  (forall name, Presets.delete_preset name (mkDisk Corrupt Corrupt true)
                = (Raises FileExistsError, mkDisk Corrupt Corrupt true)) /\
  (forall i, Presets.delete_preset_by_id i (mkDisk Corrupt Corrupt true)
             = (Raises FileExistsError, mkDisk Corrupt Corrupt true)) /\
  (forall old_name new_name,
     Presets.rename_preset old_name new_name (mkDisk Corrupt Corrupt true)
     = (Raises FileExistsError, mkDisk Corrupt Corrupt true)).
Proof.
  apply (preset_methods_raise "id-2" "t" (mkDisk Corrupt Corrupt true)
           FileExistsError).
  left. repeat split; reflexivity.
Defined.

(** A presets file that is not JSON, with no backup beside it, is moved
    to the backup by the first method that reads it, which then works on
    an empty list of presets; [save_preset] starts a new file that holds
    the new preset alone. *)
Theorem corrupt_file_is_set_aside uuid4 now d :
  presets_file d = Corrupt -> backup_file d = Missing ->
  let d0 := mkDisk Missing Corrupt (writable d) in
  Presets.list_presets d = (Returns [], d0) /\
  (forall name, Presets.load_preset name d = (Returns None, d0)) /\
  (forall name, Presets.delete_preset name d = (Returns false, d0)) /\
  (forall old_name new_name,
     Presets.rename_preset old_name new_name d = (Returns false, d0)) /\
  (forall name ws,
     Presets.save_preset uuid4 now name ws d =
     if writable d
     then (Returns true,
           mkDisk (Json (mkData (Some [PresetDict.mkPreset uuid4 name
                                         (Some now) (Some ws)])))
                  Corrupt true)
     else (Returns false, d0)).
Proof.
  intros Hf Hb d0.
  pose proof (opened_cases d) as Ho. rewrite Hf, Hb in Ho. fold d0 in Ho.
  split; [unfold Presets.list_presets; now rewrite via_opened, Ho|].
  split; [intros; now rewrite load_preset_run, Ho|].
  split; [intros; now rewrite delete_preset_run, Ho|].
  split; [intros; now rewrite rename_preset_run, Ho|].
  intros name ws.
  destruct (save_preset_run uuid4 now name ws d)
    as [f [n [Hn [Hfinal [_ [_ Hr]]]]]].
  rewrite Ho in *. cbn [fst length] in Hn.
  assert (n = 0%nat) as -> by lia. cbn [numbered] in Hfinal. subst f.
  rewrite Hr. cbn [writable backup_file app]. now destruct (writable d).
Qed.

Lemma corrupt_file_is_set_aside_witness :
  let d0 := mkDisk Missing Corrupt true in
  Presets.list_presets (mkDisk Corrupt Missing true) = (Returns [], d0) /\
  (forall name, Presets.load_preset name (mkDisk Corrupt Missing true)
                = (Returns None, d0)) /\
  (forall name, Presets.delete_preset name (mkDisk Corrupt Missing true)
                = (Returns false, d0)) /\
  (forall old_name new_name,
     Presets.rename_preset old_name new_name (mkDisk Corrupt Missing true)
     = (Returns false, d0)) /\
  (forall name ws,
     Presets.save_preset "id-2" "t" name ws (mkDisk Corrupt Missing true) =
     (Returns true,
      mkDisk (Json (mkData (Some [PresetDict.mkPreset "id-2" name
                                    (Some "t") (Some ws)])))
             Corrupt true)).
Proof.
  apply (corrupt_file_is_set_aside "id-2" "t" (mkDisk Corrupt Missing true));
    reflexivity.
Defined.

(** A presets file that is there but cannot be read counts as empty, and
    a successful [save_preset] replaces it by a file that holds the new
    preset alone; no backup is made. *)
Theorem unreadable_file_is_overwritten uuid4 now name ws d :
  presets_file d = Unreadable -> writable d = true ->
  Presets.list_presets d = (Returns [], d) /\
  Presets.save_preset uuid4 now name ws d =
    (Returns true,
     mkDisk (Json (mkData (Some [PresetDict.mkPreset uuid4 name
                                   (Some now) (Some ws)])))
            (backup_file d) true).
Proof.
  intros Hf Hw.
  pose proof (opened_cases d) as Ho. rewrite Hf in Ho.
  split.
  - unfold Presets.list_presets. now rewrite via_opened, Ho.
  - destruct (save_preset_run uuid4 now name ws d)
      as [f [n [Hn [Hfinal [_ [_ Hr]]]]]].
    rewrite Ho in *. cbn [fst length] in Hn.
    assert (n = 0%nat) as -> by lia. cbn [numbered] in Hfinal. subst f.
    rewrite Hr, Hw. reflexivity.
Qed.

Lemma unreadable_file_is_overwritten_witness :
  Presets.list_presets (mkDisk Unreadable Missing true)
    = (Returns [], mkDisk Unreadable Missing true) /\
  Presets.save_preset "id-2" "t" "Home" two_firefox
    (mkDisk Unreadable Missing true) =
    (Returns true,
     mkDisk (Json (mkData (Some [PresetDict.mkPreset "id-2" "Home"
                                   (Some "t") (Some two_firefox)])))
            Missing true).
Proof.
  apply (unreadable_file_is_overwritten "id-2" "t" "Home" two_firefox
           (mkDisk Unreadable Missing true)); reflexivity.
Defined.

(** When the presets file holds presets but cannot be written,
    [save_preset], [delete_preset] and [rename_preset] return [False] and
    the disk stays as it is. *)
Theorem read_only_store_is_unchanged uuid4 now d ps :
  stored d = Some ps -> writable d = false ->
  (forall name ws,
     Presets.save_preset uuid4 now name ws d = (Returns false, d)) /\
  (forall name, Presets.delete_preset name d = (Returns false, d)) /\
  (forall old_name new_name,
     Presets.rename_preset old_name new_name d = (Returns false, d)).
Proof.
  intros Hs Hw. pose proof (opened_stored_eq _ _ Hs) as Ho.
  split; [|split].
  - intros name ws.
    destruct (save_preset_run uuid4 now name ws d) as [f [n [_ [_ [_ [_ Hr]]]]]].
    now rewrite Hr, Ho, Hw.
  - intros name. rewrite delete_preset_run, Ho, Hw. cbv zeta.
    now destruct (_ <? _)%nat.
  - intros. rewrite rename_preset_run, Ho. now apply rename_loop_read_only.
Qed.

Lemma read_only_store_is_unchanged_witness :
  let d := mkDisk (Json (mkData (Some [sample_preset "work"]))) Missing false in
  (forall name ws,
     Presets.save_preset "id-2" "t" name ws d = (Returns false, d)) /\
  (forall name, Presets.delete_preset name d = (Returns false, d)) /\
  (forall old_name new_name,
     Presets.rename_preset old_name new_name d = (Returns false, d)).
Proof.
  apply (read_only_store_is_unchanged "id-2" "t"
           (mkDisk (Json (mkData (Some [sample_preset "work"]))) Missing false)
           [sample_preset "work"]); reflexivity.
Defined.

(** ** The handlers of main.py *)

Section Handlers.
Context (env : Env) (uuid4 now : string).

(** What the capture of a save handler gives: it never raises, and the
    desktop side is left as [enumerated]. *)
Lemma capture_for_save it a :
  exists ws,
    Capture.capture_windows env it false (Main.desktop_state a)
      = (Ok ws, enumerated (Main.desktop_state a)) /\
    Forall (fun i => Info.state i = Some (PStr "normal") \/
                     Info.state i = Some (PStr "maximized")) ws.
Proof.
  set (s := Main.desktop_state a).
  destruct (capture_each_forall env
              (fun i => Info.state i = Some (PStr "normal") \/
                        Info.state i = Some (PStr "maximized"))
              it false (world s) (map hwnd (windows (world s))))
    as [infos [He [HF _]]].
  - intros h i Hi.
    destruct (lookup_window (world s) h) as [x|] eqn:Hl.
    2:{ unfold Capture.get_window_info, qbind in Hi.
        rewrite (is_visible_window_gone _ h Hl) in Hi. discriminate. }
    destruct (get_window_info_eval env h it false (world s) x Hl)
      as [m [snap [_ [_ H]]]].
    rewrite H in Hi. destruct (capturable false x) eqn:Hc; [|discriminate].
    unfold capturable in Hc.
    destruct (proc_exe x) as [exe|]; [|discriminate].
    destruct (rect x) as [[[r0 r1] r2] r3]. injection Hi as <-. cbn.
    apply andb_prop in Hc as [_ Hc]. apply andb_prop in Hc as [Hc _].
    apply andb_prop in Hc as [_ Hc]. rewrite andb_true_r in Hc.
    unfold state_name in *.
    destruct (show_cmd x =? SW_SHOWMAXIMIZED); [now right|].
    destruct (show_cmd x =? SW_SHOWMINIMIZED); [discriminate|now left].
  - exists infos. split; [|exact HF]. now apply capture_windows_run.
Qed.

Lemma handle_save_preset_run name it a ws :
  fst (Capture.capture_windows env it false (Main.desktop_state a)) = Ok ws ->
  Main.handle_save_preset env uuid4 now name it a =
  match ws with
  | [] => (Returns false, Main.mkApp (enumerated (Main.desktop_state a))
                                     (Main.disk a))
  | _ =>
      let r := Presets.save_preset uuid4 now name ws (Main.disk a) in
      (fst r, Main.mkApp (enumerated (Main.desktop_state a)) (snd r))
  end.
Proof.
  intros Hc. destruct (capture_for_save it a) as [ws' [Hrun _]].
  rewrite Hrun in Hc. injection Hc as ->.
  unfold Main.handle_save_preset, io_bind, Main.engine. rewrite Hrun.
  destruct ws as [|i ws]; [reflexivity|].
  unfold Main.storage. cbn [Main.disk Main.desktop_state].
  destruct (Presets.save_preset uuid4 now name (i :: ws) (Main.disk a))
    as [[b|e|] d]; reflexivity.
Qed.

Lemma handle_restore_preset_run name a :
  Main.handle_restore_preset env name a =
  match Presets.load_preset name (Main.disk a) with
  | (Returns None, d) => (Returns false, Main.mkApp (Main.desktop_state a) d)
  | (Returns (Some preset), d) =>
      match PresetDict.windows preset with
      | None => (Raises KeyError, Main.mkApp (Main.desktop_state a) d)
      | Some ws =>
          Main.engine (Restore.restore_windows env ws)
                      (Main.mkApp (Main.desktop_state a) d)
      end
  | (Raises e, d) => (Raises e, Main.mkApp (Main.desktop_state a) d)
  | (Unbounded, d) => (Unbounded, Main.mkApp (Main.desktop_state a) d)
  end.
Proof.
  unfold Main.handle_restore_preset, io_bind, Main.storage.
  destruct (Presets.load_preset name (Main.disk a)) as [[[p|]|e|] d];
    try reflexivity.
  destruct (PresetDict.windows p) as [ws|]; [|reflexivity].
  cbn [item io_ret].
  destruct (Main.engine (Restore.restore_windows env ws) _) as [[b|e|] a'];
    reflexivity.
Qed.

End Handlers.

(** When nothing is captured, [handle_save_preset] returns [False] and
    does not touch the preset store: the presets file is not even read,
    so a damaged file stays where it is. *)
Theorem handle_save_preset_nothing_captured env uuid4 now name it a :
  fst (Capture.capture_windows env it false (Main.desktop_state a)) = Ok [] ->
  Main.handle_save_preset env uuid4 now name it a =
    (Returns false,
     Main.mkApp (enumerated (Main.desktop_state a)) (Main.disk a)) /\
  Main.handle_save_quadrant_preset env uuid4 now name it a =
    (Returns false,
     Main.mkApp (enumerated (Main.desktop_state a)) (Main.disk a)).
Proof.
  intros Hc. split; [now rewrite (handle_save_preset_run env uuid4 now name it a [])|].
  destruct (capture_for_save env it a) as [ws [Hrun _]].
  rewrite Hrun in Hc. injection Hc as ->.
  unfold Main.handle_save_quadrant_preset, io_bind, Main.engine.
  now rewrite Hrun.
Qed.

Lemma handle_save_preset_nothing_captured_witness :
  Main.handle_save_preset env_silent "id-2" "t" "Work" false
    (Main.mkApp (start only_minimized) (mkDisk Corrupt Missing true)) =
    (Returns false,
     Main.mkApp (enumerated (start only_minimized))
                (mkDisk Corrupt Missing true)) /\
  Main.handle_save_quadrant_preset env_silent "id-2" "t" "Work" false
    (Main.mkApp (start only_minimized) (mkDisk Corrupt Missing true)) =
    (Returns false,
     Main.mkApp (enumerated (start only_minimized))
                (mkDisk Corrupt Missing true)).
Proof.
  apply (handle_save_preset_nothing_captured env_silent "id-2" "t" "Work" false
           (Main.mkApp (start only_minimized) (mkDisk Corrupt Missing true))).
  reflexivity.
Defined.

(** For a name that no preset has, [handle_restore_preset] returns
    [False] and makes no call on the desktop. *)
Theorem handle_restore_preset_unknown_name env name a :
  fst (Presets.load_preset name (Main.disk a)) = Returns None ->
  Main.handle_restore_preset env name a =
    (Returns false,
     Main.mkApp (Main.desktop_state a)
                (snd (Presets.load_preset name (Main.disk a)))).
Proof.
  intros H. rewrite handle_restore_preset_run.
  destruct (Presets.load_preset name (Main.disk a)) as [r d].
  cbn in H. now subst r.
Qed.

Lemma handle_restore_preset_unknown_name_witness :
  Main.handle_restore_preset env_silent "Games"
    (Main.mkApp (start desktop) (disk_with [sample_preset "work"])) =
    (Returns false,
     Main.mkApp (start desktop)
       (snd (Presets.load_preset "Games" (disk_with [sample_preset "work"])))).
Proof.
  apply (handle_restore_preset_unknown_name env_silent "Games"
           (Main.mkApp (start desktop) (disk_with [sample_preset "work"]))).
  reflexivity.
Defined.

(** A preset stored without a ['windows'] key is listed with a window
    count of 0, but restoring it raises [KeyError] before any call on the
    desktop. *)
Theorem preset_without_windows_is_listed_not_restored env name a p ps :
  stored (Main.disk a) = Some ps ->
  List.find (named name) ps = Some p ->
  PresetDict.windows p = None ->
  Main.handle_restore_preset env name a = (Raises KeyError, a) /\
  exists l,
    Presets.list_presets (Main.disk a) = (Returns l, Main.disk a) /\
    In (Presets.Summary.mkSummary (PresetDict.id p) (PresetDict.name p)
          (dict_get (PresetDict.created p) "") 0) l.
Proof.
  intros Hs Hf Hw. split.
  - rewrite handle_restore_preset_run, (load_preset_stored _ _ _ Hs).
    unfold named in Hf. rewrite Hf, Hw. now destruct a.
  - unfold Presets.list_presets. rewrite via_opened, (opened_stored_eq _ _ Hs).
    eexists. split; [reflexivity|].
    apply List.find_some in Hf as [Hin _].
    apply List.in_map_iff. exists p. split; [|exact Hin]. now rewrite Hw.
Qed.

Lemma preset_without_windows_is_listed_not_restored_witness :
  Main.handle_restore_preset env_silent "bare"
    (Main.mkApp (start desktop) (disk_with [sample_preset "work"; bare_preset]))
  = (Raises KeyError,
     Main.mkApp (start desktop) (disk_with [sample_preset "work"; bare_preset]))
  /\
  exists l,
    Presets.list_presets (disk_with [sample_preset "work"; bare_preset])
    = (Returns l, disk_with [sample_preset "work"; bare_preset]) /\
    In (Presets.Summary.mkSummary "id-0" "Bare" "" 0) l.
Proof.
  apply (preset_without_windows_is_listed_not_restored env_silent "bare"
           (Main.mkApp (start desktop)
                       (disk_with [sample_preset "work"; bare_preset]))
           bare_preset [sample_preset "work"; bare_preset]);
    reflexivity.
Defined.

(** Saving a layout under an unused name and restoring it by that name
    hands [restore_windows] the very records that were captured; none of
    them is minimized. *)
Theorem save_then_restore env uuid4 now name it a a1 :
  Main.handle_save_preset env uuid4 now name it a = (Returns true, a1) ->
  fst (Presets.load_preset name (Main.disk a)) = Returns None ->
  exists ws,
    fst (Capture.capture_windows env it false (Main.desktop_state a)) = Ok ws /\
    ws <> [] /\
    Forall (fun i => Info.state i = Some (PStr "normal") \/
                     Info.state i = Some (PStr "maximized")) ws /\
    Main.desktop_state a1 = enumerated (Main.desktop_state a) /\
    Main.handle_restore_preset env name a1 =
      Main.engine (Restore.restore_windows env ws) a1.
Proof.
  intros Hsave Hfree.
  destruct (capture_for_save env it a) as [ws [Hcap HF]].
  exists ws. rewrite Hcap. split; [reflexivity|].
  rewrite (handle_save_preset_run env uuid4 now name it a ws) in Hsave
    by now rewrite Hcap.
  destruct ws as [|i ws]; [discriminate|]. split; [discriminate|].
  split; [exact HF|]. cbv zeta in Hsave.
  destruct (Presets.save_preset uuid4 now name (i :: ws) (Main.disk a))
    as [r d1] eqn:Hs.
  cbn [fst snd] in Hsave. injection Hsave as -> <-. split; [reflexivity|].
  rewrite handle_restore_preset_run. cbn [Main.disk Main.desktop_state].
  destruct (save_preset_unused_name uuid4 now name (i :: ws) (Main.disk a) d1
              Hs Hfree) as [ps [Hfind Hstored]].
  rewrite (load_preset_stored _ _ _ Hstored).
  fold (named name). rewrite (find_app_r _ _ _ Hfind).
  cbn [List.find]. unfold named at 1. cbn [PresetDict.name].
  now rewrite String.eqb_refl.
Qed.

Lemma save_then_restore_witness :
  exists ws,
    fst (Capture.capture_windows env_silent false false (start desktop))
      = Ok ws /\
    ws <> [] /\
    Forall (fun i => Info.state i = Some (PStr "normal") \/
                     Info.state i = Some (PStr "maximized")) ws /\
    Main.desktop_state
      (snd (Main.handle_save_preset env_silent "id-2" "t" "Home" false
              (Main.mkApp (start desktop) (disk_with [sample_preset "work"]))))
      = enumerated (start desktop) /\
    Main.handle_restore_preset env_silent "Home"
      (snd (Main.handle_save_preset env_silent "id-2" "t" "Home" false
              (Main.mkApp (start desktop) (disk_with [sample_preset "work"]))))
    = Main.engine (Restore.restore_windows env_silent ws)
        (snd (Main.handle_save_preset env_silent "id-2" "t" "Home" false
                (Main.mkApp (start desktop) (disk_with [sample_preset "work"])))).
Proof.
  apply (save_then_restore env_silent "id-2" "t" "Home" false
           (Main.mkApp (start desktop) (disk_with [sample_preset "work"])));
    reflexivity.
Defined.

(** ** The quadrant preset *)

Lemma pair_le_trans a b c : pair_le a b -> pair_le b c -> pair_le a c.
Proof.
  unfold pair_le, Main.pair_lt. destruct a as [a1 a2], b as [b1 b2], c as [c1 c2].
  cbn [fst snd]. rewrite !orb_false_iff, !andb_false_iff, !Z.ltb_ge, !Z.eqb_neq.
  lia.
Qed.

Lemma pair_lt_le a b : Main.pair_lt a b = true -> pair_le a b.
Proof.
  unfold pair_le, Main.pair_lt. destruct a as [a1 a2], b as [b1 b2].
  cbn [fst snd].
  rewrite orb_true_iff, andb_true_iff, orb_false_iff, andb_false_iff,
    !Z.ltb_lt, !Z.ltb_ge, Z.eqb_eq, Z.eqb_neq.
  lia.
Qed.

Section Sorting.
Context {A : Type} (key : A -> Z * Z).

Local Abbreviation before := (fun a b : A => pair_le (key a) (key b)).

Lemma insert_asc_perm x l : Permutation (Main.insert_asc key x l) (x :: l).
Proof.
  induction l as [|y l IH]; cbn [Main.insert_asc]; [reflexivity|].
  destruct (Main.pair_lt (key y) (key x)); [|reflexivity].
  rewrite IH. apply perm_swap.
Qed.

Lemma sorted_asc_perm l : Permutation (Main.sorted_asc key l) l.
Proof.
  induction l as [|x l IH]; cbn; [reflexivity|].
  fold (Main.sorted_asc key l). rewrite insert_asc_perm. now rewrite IH.
Qed.

Lemma Forall_insert_asc (P : A -> Prop) x l :
  P x -> Forall P l -> Forall P (Main.insert_asc key x l).
Proof.
  intros Hx. induction 1 as [|y l Hy Hl IH]; cbn [Main.insert_asc].
  - now constructor.
  - destruct (Main.pair_lt (key y) (key x)); constructor; auto.
Qed.

Lemma insert_asc_sorted x l :
  StronglySorted before l -> StronglySorted before (Main.insert_asc key x l).
Proof.
  induction 1 as [|y l Hs IH Hy]; cbn [Main.insert_asc].
  - repeat constructor.
  - destruct (Main.pair_lt (key y) (key x)) eqn:E.
    + constructor; [exact IH|].
      apply Forall_insert_asc; [now apply pair_lt_le|exact Hy].
    + constructor; [now constructor|].
      constructor; [exact E|].
      eapply Forall_impl; [exact Hy|]. cbn. intros z Hz.
      now apply (pair_le_trans _ (key y)).
Qed.

Lemma sorted_asc_sorted l : StronglySorted before (Main.sorted_asc key l).
Proof.
  induction l as [|x l IH]; cbn; [constructor|].
  now apply insert_asc_sorted.
Qed.

Lemma sorted_take_drop l : forall n,
  StronglySorted before l ->
  StronglySorted before (take n l) /\
  Forall (fun a => Forall (before a) (drop n l)) (take n l).
Proof.
  induction l as [|x l IH]; intros [|n] H; cbn [take drop];
    try (split; constructor; fail).
  apply StronglySorted_inv in H as [Hs Hx].
  destruct (IH n Hs) as [IH1 IH2]. split.
  - constructor; [exact IH1|now apply Forall_take].
  - constructor; [now apply Forall_drop|exact IH2].
Qed.

End Sorting.

(** What [handle_save_quadrant_preset] keeps of the captured windows: at
    most four, the first of the windows ordered by top edge and then by
    left edge; every window left out comes after each window kept. *)
Lemma quadrant_selection (ws : list WindowInfo) :
  let sel := take 4 (Main.sorted_asc Main.sort_key ws) in
  let rest := drop 4 (Main.sorted_asc Main.sort_key ws) in
  length sel = Nat.min 4 (length ws) /\
  Permutation ws (sel ++ rest) /\
  StronglySorted (fun a b => pair_le (Main.sort_key a) (Main.sort_key b)) sel /\
  Forall (fun a => Forall (fun b => pair_le (Main.sort_key a) (Main.sort_key b))
                          rest) sel.
Proof.
  cbv zeta. split; [|split].
  - rewrite length_take, (Permutation_length (sorted_asc_perm Main.sort_key ws)).
    reflexivity.
  - rewrite take_drop. symmetry. apply sorted_asc_perm.
  - apply sorted_take_drop, sorted_asc_sorted.
Qed.

(** When windows are captured and the presets file can be written,
    [handle_save_quadrant_preset] stores at most four of them: the first of
    the captured windows ordered by top edge and then by left edge.  The
    windows left out come after each window kept. *)
Theorem quadrant_preset_keeps_first_four env uuid4 now name it a ws ps :
  fst (Capture.capture_windows env it false (Main.desktop_state a)) = Ok ws ->
  ws <> [] ->
  stored (Main.disk a) = Some ps -> writable (Main.disk a) = true ->
  exists final sel rest,
    Main.handle_save_quadrant_preset env uuid4 now name it a =
      (Returns true,
       Main.mkApp (enumerated (Main.desktop_state a))
         (mkDisk (Json (mkData (Some (ps ++ [PresetDict.mkPreset
                           uuid4 final (Some now) (Some sel)]))))
                 (backup_file (Main.disk a)) true)) /\
    length sel = Nat.min 4 (length ws) /\
    Permutation ws (sel ++ rest) /\
    StronglySorted (fun a b => pair_le (Main.sort_key a) (Main.sort_key b))
                   sel /\
    Forall (fun a => Forall (fun b => pair_le (Main.sort_key a)
                                              (Main.sort_key b)) rest) sel.
Proof.
  intros Hc Hne Hs Hw.
  destruct (capture_for_save env it a) as [ws' [Hrun _]].
  rewrite Hrun in Hc. injection Hc as ->.
  destruct (save_preset_run uuid4 now name
              (take 4 (Main.sorted_asc Main.sort_key ws)) (Main.disk a))
    as [final [n [_ [_ [_ [_ Hsave]]]]]].
  rewrite (opened_stored_eq _ _ Hs), Hw in Hsave.
  exists final, (take 4 (Main.sorted_asc Main.sort_key ws)),
    (drop 4 (Main.sorted_asc Main.sort_key ws)).
  split; [|apply quadrant_selection].
  unfold Main.handle_save_quadrant_preset, io_bind, Main.engine.
  rewrite Hrun. destruct ws as [|i ws]; [easy|].
  unfold Main.storage. cbn [Main.disk Main.desktop_state].
  cbv zeta. now rewrite Hsave.
Qed.

Lemma quadrant_preset_keeps_first_four_witness :
  exists final sel rest,
    Main.handle_save_quadrant_preset env_silent "id-2" "t" "Quad" false
      (Main.mkApp (start desktop) (disk_with [sample_preset "work"])) =
      (Returns true,
       Main.mkApp (enumerated (start desktop))
         (mkDisk (Json (mkData (Some ([sample_preset "work"] ++
                          [PresetDict.mkPreset "id-2" final (Some "t")
                                               (Some sel)]))))
                 Missing true)) /\
    length sel = Nat.min 4 2 /\
    Permutation
      [Info.mkInfo (Some (PStr "C:\Apps\chrome.exe")) (Some (PStr "GitHub"))
                   (Some 0) (Some 0) (Some 800) (Some 600)
                   (Some (PStr "normal")) (Some 0) None None;
       Info.mkInfo (Some (PStr "C:\Apps\chrome.exe"))
                   (Some (PStr "GitHub - Pricing"))
                   (Some 100) (Some 100) (Some 1000) (Some 800)
                   (Some (PStr "normal")) (Some 0) None None]
      (sel ++ rest) /\
    StronglySorted (fun a b => pair_le (Main.sort_key a) (Main.sort_key b))
                   sel /\
    Forall (fun a => Forall (fun b => pair_le (Main.sort_key a)
                                              (Main.sort_key b)) rest) sel.
Proof.
  apply (quadrant_preset_keeps_first_four env_silent "id-2" "t" "Quad" false
           (Main.mkApp (start desktop) (disk_with [sample_preset "work"]))
           [Info.mkInfo (Some (PStr "C:\Apps\chrome.exe"))
                        (Some (PStr "GitHub"))
                        (Some 0) (Some 0) (Some 800) (Some 600)
                        (Some (PStr "normal")) (Some 0) None None;
            Info.mkInfo (Some (PStr "C:\Apps\chrome.exe"))
                        (Some (PStr "GitHub - Pricing"))
                        (Some 100) (Some 100) (Some 1000) (Some 800)
                        (Some (PStr "normal")) (Some 0) None None]
           [sample_preset "work"]);
    [reflexivity|discriminate|reflexivity|reflexivity].
Defined.
